(** * madcat_register: registration backend, shallow embedding

  The development follows [src/routes/users.js] (route handlers and the
  express-validator chains), [src/config/twitter.js] (endpoint constants)
  and the schema of the table [user_profiles], created by the module the
  routes import as [../config/database.js].

  Conventions.
  - A JavaScript string is a [string]; its characters are code units below
    256, a range with no surrogate pairs, so that [isLength]'s count is the
    plain length.  The code unit 0 is one of them: the validators let it
    through where no pattern excludes it, and the storage layer refuses a
    statement that carries it (SQLSTATE 22021).
  - A request field is an [option string]: [None] is [undefined]; bodies
    with fields of other JSON types are not considered.
  - Handlers are pure functions of the request, the process configuration
    and the state they touch (token cache, table), and return the new
    state with the response; the replies of the identity provider are
    arguments.  Whether the handlers are mounted at all is decided by the
    evaluation of the module's top level, which [Toplevel] follows.
    Express middleware of [server.js] (rate limiter, CORS) and storage
    outages are outside the model. *)

From Stdlib Require Import Bool Arith Lia List Ascii String Permutation Sorted.
From stdpp Require Import gmap strings pretty.
Import ListNotations.

Local Open Scope string_scope.
Local Open Scope list_scope.
Local Open Scope nat_scope.

#[local] Arguments String.append !_ _ / : simpl nomatch.

(** ** JavaScript strings *)

Module Js.

(** [!s] for a string-or-undefined value: [undefined] and [""] are falsy. *)
Definition falsy (v : option string) : bool :=
  match v with
  | None => true
  | Some s => match s with EmptyString => true | String _ _ => false end
  end.

Definition truthy (v : option string) : bool := negb (falsy v).

Definition code (c : ascii) : nat := nat_of_ascii c.

(** Character range [lo-hi] of a regular expression class. *)
Definition between (lo hi c : ascii) : bool :=
  (code lo <=? code c) && (code c <=? code hi).

Definition is_char (a c : ascii) : bool := Ascii.eqb a c.

(** [\s] restricted to code units below 256: TAB, LF, VT, FF, CR, SP, NBSP. *)
Definition is_space (c : ascii) : bool :=
  let n := code c in
  ((9 <=? n) && (n <=? 13)) || (n =? 32) || (n =? 160).

Fixpoint chars (s : string) : list ascii :=
  match s with
  | EmptyString => []
  | String c s' => c :: chars s'
  end.

Fixpoint of_chars (l : list ascii) : string :=
  match l with
  | [] => EmptyString
  | c :: l' => String c (of_chars l')
  end.

Fixpoint all (p : ascii -> bool) (s : string) : bool :=
  match s with
  | EmptyString => true
  | String c s' => p c && all p s'
  end.

Fixpoint has (p : ascii -> bool) (s : string) : bool :=
  match s with
  | EmptyString => false
  | String c s' => p c || has p s'
  end.

(** [s.replace(/^\s+/g, '')] *)
Fixpoint ltrim (s : string) : string :=
  match s with
  | EmptyString => EmptyString
  | String c s' => if is_space c then ltrim s' else s
  end.

(** The backwards scan of validator's [rtrim]: drop the trailing run of
    [\s] characters. *)
Fixpoint rtrim (s : string) : string :=
  match s with
  | EmptyString => EmptyString
  | String c s' =>
      match rtrim s' with
      | EmptyString => if is_space c then EmptyString else String c EmptyString
      | r => String c r
      end
  end.

(** [s.replace(/c/g, by)] for a one-character pattern. *)
Fixpoint replaceAll (c : ascii) (by_ : string) (s : string) : string :=
  match s with
  | EmptyString => EmptyString
  | String a s' =>
      if Ascii.eqb a c then by_ +:+ replaceAll c by_ s'
      else String a (replaceAll c by_ s')
  end.

(** [s.slice(n)] and [s.slice(0, n)] for [0 <= n]. *)
Fixpoint drop (n : nat) (s : string) : string :=
  match n, s with
  | O, _ => s
  | S n', String _ s' => drop n' s'
  | S _, EmptyString => EmptyString
  end.

Fixpoint take (n : nat) (s : string) : string :=
  match n, s with
  | S n', String c s' => String c (take n' s')
  | _, _ => EmptyString
  end.

(** Strings made of [n] copies of a character, for building inputs. *)
Fixpoint repeat (c : ascii) (n : nat) : string :=
  match n with
  | O => EmptyString
  | S n' => String c (repeat c n')
  end.

End Js.

(** ** Regular expressions, as far as the route file uses them

  Every pattern of the file is anchored ([^...$], no flags), so [test] is
  a whole-string match; it is computed with derivatives. *)

Module Regex.

Inductive re : Type :=
| Void : re
| Eps : re
| Class : (ascii -> bool) -> re
| Cat : re -> re -> re
| Alt : re -> re -> re
| Star : re -> re.

Definition Chr (a : ascii) : re := Class (Js.is_char a).
Definition Opt (r : re) : re := Alt Eps r.          (* r? *)
Definition Plus (r : re) : re := Cat r (Star r).    (* r+ *)
Fixpoint Rep (n : nat) (r : re) : re :=             (* r{n} *)
  match n with
  | O => Eps
  | S n' => Cat r (Rep n' r)
  end.

Fixpoint nullable (r : re) : bool :=
  match r with
  | Void => false
  | Eps => true
  | Class _ => false
  | Cat r1 r2 => nullable r1 && nullable r2
  | Alt r1 r2 => nullable r1 || nullable r2
  | Star _ => true
  end.

Fixpoint deriv (c : ascii) (r : re) : re :=
  match r with
  | Void => Void
  | Eps => Void
  | Class p => if p c then Eps else Void
  | Cat r1 r2 =>
      if nullable r1
      then Alt (Cat (deriv c r1) r2) (deriv c r2)
      else Cat (deriv c r1) r2
  | Alt r1 r2 => Alt (deriv c r1) (deriv c r2)
  | Star r1 => Cat (deriv c r1) (Star r1)
  end.

(** [/^r$/.test(s)] *)
Fixpoint test (r : re) (s : string) : bool :=
  match s with
  | EmptyString => nullable r
  | String c s' => test (deriv c r) s'
  end.

(** The words of a pattern. *)
Inductive lang : re -> string -> Prop :=
| L_eps : lang Eps ""
| L_class p c : p c = true -> lang (Class p) (String c "")
| L_cat r1 r2 s1 s2 : lang r1 s1 -> lang r2 s2 -> lang (Cat r1 r2) (s1 +:+ s2)
| L_alt_l r1 r2 s : lang r1 s -> lang (Alt r1 r2) s
| L_alt_r r1 r2 s : lang r2 s -> lang (Alt r1 r2) s
| L_star_nil r : lang (Star r) ""
| L_star_cons r s1 s2 :
    lang r s1 -> lang (Star r) s2 -> lang (Star r) (s1 +:+ s2).

End Regex.

(** ** validator.js, the functions the chains call *)

Module Validator.

(** [isEmpty(str)] with the default [ignore_whitespace: false]. *)
Definition isEmpty (s : string) : bool := String.length s =? 0.

(** [isLength(str, {min, max})]; [max] may be left out. *)
Definition isLength (min : nat) (max : option nat) (s : string) : bool :=
  let len := String.length s in
  (min <=? len) && match max with
                   | None => true
                   | Some m => len <=? m
                   end.

Definition digit : ascii -> bool := Js.between "0" "9".
Definition sign (c : ascii) : bool := Js.is_char "+" c || Js.is_char "-" c.

(** [isNumeric(str)] without options tests [^[+-]?([0-9]*[.])?[0-9]+$]. *)
Definition numeric : Regex.re :=
  Regex.Cat (Regex.Opt (Regex.Class sign))
    (Regex.Cat
       (Regex.Opt (Regex.Cat (Regex.Star (Regex.Class digit)) (Regex.Chr ".")))
       (Regex.Plus (Regex.Class digit))).

Definition isNumeric (s : string) : bool := Regex.test numeric s.

(** [matches(str, pattern)] for an anchored pattern. *)
Definition matches (pattern : Regex.re) (s : string) : bool :=
  Regex.test pattern s.

(** [trim(str)] is [rtrim(ltrim(str))]. *)
Definition trim (s : string) : string := Js.rtrim (Js.ltrim s).

Definition amp : ascii := ascii_of_nat 38.
Definition quot : ascii := ascii_of_nat 34.
Definition apos : ascii := ascii_of_nat 39.
Definition lt : ascii := ascii_of_nat 60.
Definition gt : ascii := ascii_of_nat 62.
Definition slash : ascii := ascii_of_nat 47.
Definition backslash : ascii := ascii_of_nat 92.
Definition backtick : ascii := ascii_of_nat 96.

(** [escape(str)]: eight global replacements, [&] first. *)
Definition escape (s : string) : string :=
  Js.replaceAll backtick "&#96;"
    (Js.replaceAll backslash "&#x5C;"
       (Js.replaceAll slash "&#x2F;"
          (Js.replaceAll gt "&gt;"
             (Js.replaceAll lt "&lt;"
                (Js.replaceAll apos "&#x27;"
                   (Js.replaceAll quot "&quot;"
                      (Js.replaceAll amp "&amp;" s))))))).

End Validator.

(** ** express-validator chains

  A chain runs its validators and sanitizers in the order they were
  written; a validator sees the value as the sanitizers before it left it,
  and a failing validator records its message without stopping the chain.
  The sanitized value is written back to the request body. *)

Module ExpressValidator.

Record ValidationError : Type := mkError {
  path : string;
  msg : string;
  value : option string
}.

Inductive step : Type :=
| Check (negated : bool) (validator : string -> bool) (message : string)
| Sanitize (sanitizer : string -> string).

Record chain : Type := mkChain {
  field : string;
  optional : bool;
  steps : list step
}.

(** The string a standard validator is given. *)
Definition toString (v : option string) : string :=
  match v with
  | None => ""
  | Some s => s
  end.

Fixpoint run_steps (p : string) (l : list step) (v : option string)
  : option string * list ValidationError :=
  match l with
  | [] => (v, [])
  | Check negated validator message :: l' =>
      let result := validator (toString v) in
      let failed := if negated then result else negb result in
      let '(v', errors) := run_steps p l' v in
      (v', if failed then mkError p message v :: errors else errors)
  | Sanitize f :: l' =>
      run_steps p l' (option_map f v)
  end.

(** [.optional()] skips the chain when the field is [undefined]. *)
Definition run (c : chain) (v : option string)
  : option string * list ValidationError :=
  match optional c, v with
  | true, None => (None, [])
  | _, _ => run_steps (field c) (steps c) v
  end.

(** The chain leaves no error for the value. *)
Definition accepts (c : chain) (v : option string) : bool :=
  match snd (run c v) with
  | [] => true
  | _ :: _ => false
  end.

(** The list of errors has an entry for the field. *)
Definition reports (p : string) (errors : list ValidationError) : bool :=
  existsb (fun e => String.eqb (path e) p) errors.

(** The verdict of the validators of a list of steps, and the value its
    sanitizers leave. *)
Fixpoint passes (l : list step) (v : option string) : bool :=
  match l with
  | [] => true
  | Check negated validator _ :: l' =>
      (if negated then negb (validator (toString v)) else validator (toString v))
      && passes l' v
  | Sanitize f :: l' => passes l' (option_map f v)
  end.

Fixpoint sanitized (l : list step) (v : option string) : option string :=
  match l with
  | [] => v
  | Check _ _ _ :: l' => sanitized l' v
  | Sanitize f :: l' => sanitized l' (option_map f v)
  end.

(** Chain builders, named as in the route file. *)
Definition notEmpty (message : string) : step :=
  Check true Validator.isEmpty message.
Definition isNumeric (message : string) : step :=
  Check false Validator.isNumeric message.
Definition isLength (min : nat) (max : option nat) (message : string) : step :=
  Check false (Validator.isLength min max) message.
Definition matches (pattern : Regex.re) (message : string) : step :=
  Check false (Validator.matches pattern) message.
Definition trim : step := Sanitize Validator.trim.
Definition escape : step := Sanitize Validator.escape.

End ExpressValidator.

(** ** The table [user_profiles] (config/database.js) *)

Module Pg.

Record Row : Type := mkRow {
  id : nat;                              (* SERIAL PRIMARY KEY *)
  wallet_address : string;               (* VARCHAR(42) NOT NULL, unique *)
  twitter_id : string;                   (* VARCHAR(100) NOT NULL, unique *)
  twitter_username : option string;      (* VARCHAR(100) *)
  twitter_name : option string;          (* VARCHAR(200) *)
  telegram_username : string;            (* VARCHAR(100) NOT NULL, unique *)
  created_at : Z;
  updated_at : Z
}.

(** The rows in insertion order, and the next value of the id sequence. *)
Record Db : Type := mkDb {
  user_profiles : list Row;
  user_profiles_id_seq : nat
}.

Definition empty : Db := mkDb [] 1.

Inductive Error : Type :=
| character_not_in_repertoire
| string_data_right_truncation (n : nat)
| not_null_violation (column : string)
| unique_violation (constraint : string).

(** SQLSTATE, read by the handler as [error.code]. *)
Definition code (e : Error) : string :=
  match e with
  | character_not_in_repertoire => "22021"
  | string_data_right_truncation _ => "22001"
  | not_null_violation _ => "23502"
  | unique_violation _ => "23505"
  end.

(** A name between double quotes. *)
Definition quoted (name : string) : string :=
  String Validator.quot name +:+ String Validator.quot EmptyString.

(** The text of the error, read by the handler as [error.message]. *)
Definition message (e : Error) : string :=
  match e with
  | character_not_in_repertoire =>
      "invalid byte sequence for encoding " +:+ quoted "UTF8" +:+ ": 0x00"
  | string_data_right_truncation n =>
      "value too long for type character varying(" +:+ pretty n +:+ ")"
  | not_null_violation column =>
      "null value in column " +:+ quoted column +:+ " of relation "
      +:+ quoted "user_profiles" +:+ " violates not-null constraint"
  | unique_violation constraint =>
      "duplicate key value violates unique constraint " +:+ quoted constraint
  end.

(** The code unit 0 occurs in [s]. *)
Definition has_nul (s : string) : bool := Js.has (Js.is_char Ascii.zero) s.

(** Binding the parameters of a statement: text that holds the code unit 0
    is refused before the statement is planned or run; [undefined] is sent
    as NULL. *)
Definition bind_params (params : list (option string)) : option Error :=
  if existsb (fun p => match p with
                       | Some s => has_nul s
                       | None => false
                       end) params
  then Some character_not_in_repertoire
  else None.

(** Assignment to a [VARCHAR(n)] column: a longer value is an error unless
    the excess is spaces only, which are cut off. *)
Definition varchar (n : nat) (s : string) : Error + string :=
  if String.length s <=? n then inr s
  else if Js.all (Js.is_char " ") (Js.drop n s) then inr (Js.take n s)
  else inl (string_data_right_truncation n).

Definition varchar_null (n : nat) (v : option string) : Error + option string :=
  match v with
  | None => inr None
  | Some s => match varchar n s with
              | inl e => inl e
              | inr s' => inr (Some s')
              end
  end.

Definition varchar_not_null (column : string) (n : nat) (v : option string)
  : Error + string :=
  match v with
  | None => inl (not_null_violation column)
  | Some s => varchar n s
  end.

(** A parameter compared with a column; [undefined] is sent as NULL, and a
    comparison with NULL selects nothing. *)
Definition eq_param (column : string) (param : option string) : bool :=
  match param with
  | None => false
  | Some s => String.eqb column s
  end.

(** [SELECT * FROM user_profiles
     WHERE twitter_id = $1 OR telegram_username = $2 OR wallet_address = $3] *)
Definition select_existing (db : Db) (p1 p2 p3 : option string)
  : Error + list Row :=
  match bind_params [p1; p2; p3] with
  | Some e => inl e
  | None =>
      inr (List.filter (fun r => eq_param (twitter_id r) p1
                            || eq_param (telegram_username r) p2
                            || eq_param (wallet_address r) p3)
             (user_profiles db))
  end.

(** The three unique constraints, checked against the stored rows. *)
Definition violated_constraint (rows : list Row) (r : Row) : option string :=
  if existsb (fun x => String.eqb (twitter_id x) (twitter_id r)) rows
  then Some "uq_user_profiles_twitter_id"
  else if existsb (fun x => String.eqb (telegram_username x) (telegram_username r)) rows
  then Some "uq_user_profiles_telegram_username"
  else if existsb (fun x => String.eqb (wallet_address x) (wallet_address r)) rows
  then Some "uq_user_profiles_wallet_address"
  else None.

(** A NULL in a [NOT NULL] column. *)
Definition not_null (column : string) (v : option string) : Error + string :=
  match v with
  | None => inl (not_null_violation column)
  | Some s => inr s
  end.

(** [INSERT INTO user_profiles (twitter_id, twitter_username, twitter_name,
     telegram_username, wallet_address, created_at, updated_at)
     VALUES ($1, $2, $3, $4, $5, NOW(), NOW()) RETURNING *].
    The statement is refused in three stages.  When it is bound, for text
    holding the code unit 0.  When it is planned, for a value too long for
    its column, the columns taken in the order of the table; up to here the
    id sequence is untouched.  When it runs, the next id is drawn, and is
    lost if a [NOT NULL] or a unique constraint then fails. *)
Definition insert_user_profile (now : Z) (db : Db)
    (p1 p2 p3 p4 p5 : option string) : Db * (Error + Row) :=
  let rows := user_profiles db in
  let next := user_profiles_id_seq db in
  let refused e := (db, inl e) in
  let failed e := (mkDb rows (S next), inl e) in
  match bind_params [p1; p2; p3; p4; p5] with
  | Some e => refused e
  | None =>
  match varchar_null 42 p5 with
  | inl e => refused e
  | inr v_wallet_address =>
  match varchar_null 100 p1 with
  | inl e => refused e
  | inr v_twitter_id =>
  match varchar_null 100 p2 with
  | inl e => refused e
  | inr c_twitter_username =>
  match varchar_null 200 p3 with
  | inl e => refused e
  | inr c_twitter_name =>
  match varchar_null 100 p4 with
  | inl e => refused e
  | inr v_telegram_username =>
  match not_null "wallet_address" v_wallet_address with
  | inl e => failed e
  | inr c_wallet_address =>
  match not_null "twitter_id" v_twitter_id with
  | inl e => failed e
  | inr c_twitter_id =>
  match not_null "telegram_username" v_telegram_username with
  | inl e => failed e
  | inr c_telegram_username =>
      let r := mkRow next c_wallet_address c_twitter_id c_twitter_username
                 c_twitter_name c_telegram_username now now in
      match violated_constraint rows r with
      | Some c => failed (unique_violation c)
      | None => (mkDb (rows ++ [r]) (S next), inr r)
      end
  end end end end end end end end end.

(** Insertion of a row into a list already ordered by [created_at], newest
    first; rows of equal time keep the order they are met in. *)
Fixpoint insert_desc (r : Row) (l : list Row) : list Row :=
  match l with
  | [] => [r]
  | x :: l' =>
      if (created_at x <? created_at r)%Z then r :: l
      else x :: insert_desc r l'
  end.

(** [SELECT * FROM user_profiles ORDER BY created_at DESC] *)
Definition select_all_desc (db : Db) : list Row :=
  fold_right insert_desc [] (user_profiles db).

End Pg.

(** ** Responses *)

Module Http.

Record Entry : Type := mkEntry {
  rank : nat;
  raider : string;
  score : nat
}.

Inductive Body : Type :=
| json_error (error : string)
| json_error_details (error : string)
    (details : list ExpressValidator.ValidationError)
| json_error_message (error message : string)
| json_user (message : string) (user : Pg.Row)
| json_users (users : list Pg.Row) (count : nat) (message : string)
| json_auth_url (auth_url : string)
| json_data (data : list Entry)
| redirect (location : string).

Record Response : Type := mkResponse {
  status : nat;
  body : Body
}.

(** [res.json(b)], [res.status(n).json(b)] and [res.redirect(url)]. *)
Definition json (b : Body) : Response := mkResponse 200 b.
Definition status_json (n : nat) (b : Body) : Response := mkResponse n b.
Definition redirect_to (location : string) : Response :=
  mkResponse 302 (redirect location).

(** A request body or query string: an object with string fields. *)
Abbreviation Fields := (gmap string string).

(** Running the chains of a route over the body, in order; the errors are
    what [validationResult(req).array()] lists. *)
Fixpoint validate (chains : list ExpressValidator.chain) (b : Fields)
  : Fields * list ExpressValidator.ValidationError :=
  match chains with
  | [] => (b, [])
  | c :: chains' =>
      let name := ExpressValidator.field c in
      let '(v, errors) := ExpressValidator.run c (b !! name) in
      let b' := match v with
                | Some s => <[name := s]> b
                | None => b
                end in
      let '(b'', errors') := validate chains' b' in
      (b'', errors ++ errors')
  end.

End Http.

(** ** config/twitter.js and the process environment *)

Module Config.

Definition TWITTER_REQUEST_TOKEN_URL : string :=
  "https://api.twitter.com/oauth/request_token".
Definition TWITTER_AUTHORIZE_URL : string :=
  "https://api.twitter.com/oauth/authorize".
Definition TWITTER_ACCESS_TOKEN_URL : string :=
  "https://api.twitter.com/oauth/access_token".
Definition TWITTER_USER_INFO_URL : string :=
  "https://api.twitter.com/1.1/account/verify_credentials.json".

(** [process.env] *)
Record Env : Type := mkEnv {
  NODE_ENV : option string;
  BACKEND_URL : option string;
  FRONTEND_URL_var : option string;
  TWITTER_API_KEY : option string;
  TWITTER_API_SECRET : option string;
  ADMIN_USERNAME : option string;
  ADMIN_PASSWORD : option string
}.

(** [a || b] on a string-or-undefined value. *)
Definition or_else (v : option string) (default : string) : string :=
  match v with
  | Some (String c s) => String c s
  | _ => default
  end.

Definition FRONTEND_URL (env : Env) : string :=
  or_else (FRONTEND_URL_var env) "http://localhost:5173".

Record Consumer : Type := mkConsumer {
  consumer_key : string;
  consumer_secret : string
}.

(** [oauth] after [initializeTwitterConfig()]: [null] unless both
    credentials are set. *)
Definition oauth (env : Env) : option Consumer :=
  match TWITTER_API_KEY env, TWITTER_API_SECRET env with
  | Some (String a k), Some (String b s) =>
      Some (mkConsumer (String a k) (String b s))
  | _, _ => None
  end.

End Config.

(** ** routes/users.js *)

Module Users.

Import Http.

(** *** Leaderboard *)

Definition top_raiders_data : list Entry :=
  [ mkEntry 1 "RaiderAlpha" 980;
    mkEntry 2 "RaiderBeta" 870;
    mkEntry 3 "RaiderGamma" 820;
    mkEntry 4 "RaiderDelta" 800;
    mkEntry 5 "RaiderEpsilon" 780;
    mkEntry 6 "RaiderZeta" 760;
    mkEntry 7 "RaiderEta" 740;
    mkEntry 8 "RaiderTheta" 720;
    mkEntry 9 "RaiderIota" 700;
    mkEntry 10 "RaiderKappa" 680 ].

(** [router.get('/top-raiders', (req, res) => res.json({ data: [...] }))],
    the handler the file passes on lines 29 and 153: it reads neither the
    request nor any state.  Whether a registration of it is ever mounted is
    the matter of [Toplevel]. *)
Definition top_raiders {Req State : Type} (req : Req) (st : State)
  : State * Response :=
  (st, json (json_data top_raiders_data)).

(** *** Registration *)

Definition hex (c : ascii) : bool :=
  Js.between "a" "f" c || Js.between "A" "F" c || Js.between "0" "9" c.

Definition word_char (c : ascii) : bool :=
  Js.between "a" "z" c || Js.between "A" "Z" c || Js.between "0" "9" c
  || Js.is_char "_" c.

(** [/^0x[a-fA-F0-9]{40}$/] *)
Definition wallet_pattern : Regex.re :=
  Regex.Cat (Regex.Chr "0")
    (Regex.Cat (Regex.Chr "x") (Regex.Rep 40 (Regex.Class hex))).

(** [/^[a-zA-Z0-9_]+$/] *)
Definition username_pattern : Regex.re := Regex.Plus (Regex.Class word_char).

Definition validate_twitter_id : ExpressValidator.chain :=
  ExpressValidator.mkChain "twitter_id" false
    [ ExpressValidator.notEmpty "Twitter ID is required";
      ExpressValidator.isNumeric "Twitter ID must be numeric";
      ExpressValidator.isLength 1 (Some 20)
        "Twitter ID must be between 1 and 20 characters" ].

Definition validate_twitter_username : ExpressValidator.chain :=
  ExpressValidator.mkChain "twitter_username" true
    [ ExpressValidator.isLength 1 (Some 25)
        "Twitter username must be between 1 and 15 characters";
      ExpressValidator.matches username_pattern
        "Twitter username can only contain letters, numbers, and underscores" ].

Definition validate_telegram_username : ExpressValidator.chain :=
  ExpressValidator.mkChain "telegram_username" false
    [ ExpressValidator.notEmpty "Telegram username is required";
      ExpressValidator.isLength 1 (Some 50)
        "Telegram username must be between 1 and 50 characters";
      ExpressValidator.trim ].

Definition validate_wallet_address : ExpressValidator.chain :=
  ExpressValidator.mkChain "wallet_address" false
    [ ExpressValidator.notEmpty "Wallet address is required";
      ExpressValidator.isLength 42 (Some 42)
        "Wallet address must be exactly 42 characters";
      ExpressValidator.matches wallet_pattern
        "Invalid Ethereum wallet address format" ].

Definition validateRegistration : list ExpressValidator.chain :=
  [ validate_twitter_id; validate_twitter_username;
    validate_telegram_username; validate_wallet_address ].

Definition is_nil {A : Type} (l : list A) : bool :=
  match l with
  | [] => true
  | _ :: _ => false
  end.

(** The [catch] block of the registration handler. *)
Definition register_catch (error : Pg.Error) : Response :=
  if String.eqb (Pg.code error) "23505" then
    status_json 400 (json_error "User already registered")
  else
    status_json 500 (json_error (Pg.message error)).

(** [router.post('/register', validateRegistration, async (req, res) => ...)].
    The handler awaits the SELECT and then the INSERT; [interleave] is what
    other requests commit to the table between the two. *)
Definition register_with (interleave : Pg.Db -> Pg.Db) (now : Z)
    (db : Pg.Db) (req_body : Fields) : Pg.Db * Response :=
  let '(body, errors) := validate validateRegistration req_body in
  if negb (is_nil errors) then
    (db, status_json 400 (json_error_details "Validation failed" errors))
  else
    let twitter_id := body !! "twitter_id" in
    let twitter_username := body !! "twitter_username" in
    let twitter_name := body !! "twitter_name" in
    let telegram_username := body !! "telegram_username" in
    let wallet_address := body !! "wallet_address" in
    if Js.falsy twitter_id || Js.falsy telegram_username
       || Js.falsy wallet_address
    then
      (db, status_json 400 (json_error
        "Missing required fields: twitter_id, telegram_username, and wallet_address are required"))
    else
      match Pg.select_existing db twitter_id telegram_username wallet_address
      with
      | inl error => (db, register_catch error)
      | inr existingUser =>
          if 0 <? length existingUser then
            (db, status_json 400 (json_error
              "User already registered with this Twitter, Telegram, or wallet address"))
          else
            match Pg.insert_user_profile now (interleave db) twitter_id
                    twitter_username twitter_name telegram_username
                    wallet_address
            with
            | (db', inr row) =>
                (db', json (json_user "User registered successfully" row))
            | (db', inl error) => (db', register_catch error)
            end
      end.

(** One request at a time: nothing happens between the two statements. *)
Definition register (now : Z) (db : Pg.Db) (req_body : Fields)
  : Pg.Db * Response :=
  register_with (fun d => d) now db req_body.

(** *** Admin listing *)

Definition validate_username : ExpressValidator.chain :=
  ExpressValidator.mkChain "username" false
    [ ExpressValidator.notEmpty "Username is required";
      ExpressValidator.isLength 3 (Some 50)
        "Username must be between 3 and 50 characters";
      ExpressValidator.trim;
      ExpressValidator.escape ].

Definition validate_password : ExpressValidator.chain :=
  ExpressValidator.mkChain "password" false
    [ ExpressValidator.notEmpty "Password is required";
      ExpressValidator.isLength 8 None
        "Password must be at least 8 characters long" ].

Definition validateAdmin : list ExpressValidator.chain :=
  [ validate_username; validate_password ].

(** [a !== b] on string-or-undefined values. *)
Definition strict_ne (a b : option string) : bool :=
  match a, b with
  | Some x, Some y => negb (String.eqb x y)
  | None, None => false
  | _, _ => true
  end.

(** [router.post('/users', validateAdmin, async (req, res) => ...)] *)
Definition users (env : Config.Env) (db : Pg.Db) (req_body : Fields)
  : Response :=
  let '(body, errors) := validate validateAdmin req_body in
  if negb (is_nil errors) then
    status_json 400 (json_error_details "Validation failed" errors)
  else
    let username := body !! "username" in
    let password := body !! "password" in
    if strict_ne username (Config.ADMIN_USERNAME env)
       || strict_ne password (Config.ADMIN_PASSWORD env)
    then
      status_json 401 (json_error_message "Unauthorized" "Invalid admin credentials")
    else
      let rows := Pg.select_all_desc db in
      json (json_users rows (length rows)
              ("Retrieved " +:+ pretty (length rows) +:+ " registered users")).

End Users.

(** ** URLSearchParams

    The parser splits on [&], cuts each piece at its first [=], turns [+]
    into a space, decodes [%XX] over the bytes of the UTF-8 form of the
    text and reads the bytes it gets as UTF-8, an ill-formed sequence
    giving U+FFFD; the serializer writes [name=value] pairs joined by [&],
    a code unit of 128 and above taking the two bytes of its UTF-8 form.
    A decoded character that is no code unit below 256 has no place in a
    [string]: [beyond] stands for each of its code units. *)

Module UrlSearchParams.

Definition hex_value (c : ascii) : option nat :=
  let n := Js.code c in
  if Js.between "0" "9" c then Some (n - 48)
  else if Js.between "a" "f" c then Some (n - 87)
  else if Js.between "A" "F" c then Some (n - 55)
  else None.

(** Percent-decoding, over bytes: [%] and two hex digits give one byte. *)
Fixpoint percent_decode (s : string) : string :=
  match s with
  | EmptyString => EmptyString
  | String c s' =>
      match s' with
      | String h (String l rest) =>
          match Js.is_char "%" c, hex_value h, hex_value l with
          | true, Some a, Some b =>
              String (ascii_of_nat (16 * a + b)) (percent_decode rest)
          | _, _, _ => String c (percent_decode s')
          end
      | _ => String c (percent_decode s')
      end
  end.

Fixpoint plus_to_space (s : string) : string :=
  match s with
  | EmptyString => EmptyString
  | String c s' =>
      String (if Js.is_char "+" c then " "%char else c) (plus_to_space s')
  end.

(** The pieces of [s] between occurrences of [sep]. *)
Fixpoint split (sep : ascii) (s : string) : list string :=
  match s with
  | EmptyString => [EmptyString]
  | String c s' =>
      if Ascii.eqb c sep then EmptyString :: split sep s'
      else match split sep s' with
           | [] => [String c EmptyString]
           | piece :: pieces => String c piece :: pieces
           end
  end.

(** [piece] cut at its first [=]; without one the value is empty. *)
Fixpoint cut (piece : string) : string * string :=
  match piece with
  | EmptyString => (EmptyString, EmptyString)
  | String c s' =>
      if Js.is_char "=" c then (EmptyString, s')
      else let '(name, v) := cut s' in (String c name, v)
  end.

(** The UTF-8 form of a text of code units below 256. *)
Definition utf8_bytes (c : ascii) : string :=
  let n := Js.code c in
  if n <? 128 then String c EmptyString
  else String (ascii_of_nat (192 + n / 64))
         (String (ascii_of_nat (128 + n mod 64)) EmptyString).

Fixpoint utf8_encode (s : string) : string :=
  match s with
  | EmptyString => EmptyString
  | String c s' => utf8_bytes c +:+ utf8_encode s'
  end.

(** The stand-in for a code unit of 256 and above. *)
Definition beyond : ascii := ascii_of_nat 26.

(** A decoded code point as code units: itself below 256, one stand-in up
    to U+FFFF, two (a surrogate pair) above. *)
Definition code_units (cp : N) : string :=
  if (cp <? 256)%N then String (ascii_of_N cp) EmptyString
  else if (cp <? 65536)%N then String beyond EmptyString
  else String beyond (String beyond EmptyString).

(** U+FFFD *)
Definition replacement : string := String beyond EmptyString.

(** The state of the UTF-8 decoder: bytes needed and seen of the sequence
    under way, the code point so far, and the range of the next byte. *)
Record Utf8 : Type := mkUtf8 {
  needed : nat;
  seen : nat;
  code_point : N;
  lower : N;
  upper : N
}.

Definition utf8_start : Utf8 := mkUtf8 0 0 0 128 191.

(** A byte met between two sequences. *)
Definition utf8_lead (b : N) : string * Utf8 :=
  if (b <? 128)%N then (code_units b, utf8_start)
  else if (194 <=? b)%N && (b <=? 223)%N then
    (EmptyString, mkUtf8 1 0 (b - 192) 128 191)
  else if (224 <=? b)%N && (b <=? 239)%N then
    (EmptyString,
     mkUtf8 2 0 (b - 224) (if (b =? 224)%N then 160 else 128)
       (if (b =? 237)%N then 159 else 191))
  else if (240 <=? b)%N && (b <=? 244)%N then
    (EmptyString,
     mkUtf8 3 0 (b - 240) (if (b =? 240)%N then 144 else 128)
       (if (b =? 244)%N then 143 else 191))
  else (replacement, utf8_start).

(** One byte: a byte that cannot continue the sequence under way ends it
    with U+FFFD and is read again as the start of the next. *)
Definition utf8_step (st : Utf8) (b : N) : string * Utf8 :=
  if needed st =? 0 then utf8_lead b
  else if (lower st <=? b)%N && (b <=? upper st)%N then
    let cp := (64 * code_point st + (b - 128))%N in
    if S (seen st) =? needed st then (code_units cp, utf8_start)
    else (EmptyString, mkUtf8 (needed st) (S (seen st)) cp 128 191)
  else
    let '(out, st') := utf8_lead b in (replacement +:+ out, st').

Fixpoint utf8_decode_from (st : Utf8) (bytes : string) : string :=
  match bytes with
  | EmptyString => if needed st =? 0 then EmptyString else replacement
  | String b bytes' =>
      let '(out, st') := utf8_step st (N_of_ascii b) in
      out +:+ utf8_decode_from st' bytes'
  end.

Definition utf8_decode (bytes : string) : string :=
  utf8_decode_from utf8_start bytes.

Definition decode (s : string) : string :=
  utf8_decode (percent_decode (plus_to_space (utf8_encode s))).

(** [new URLSearchParams(text)] *)
Definition parse (text : string) : list (string * string) :=
  let text := match text with
              | String c s' => if Js.is_char "?" c then s' else text
              | EmptyString => text
              end in
  flat_map (fun piece =>
              match piece with
              | EmptyString => []
              | _ => let '(name, v) := cut piece in [(decode name, decode v)]
              end)
           (split "&" text).

(** [params.get(name)]: the first value of that name, or [null]. *)
Fixpoint get (params : list (string * string)) (name : string)
  : option string :=
  match params with
  | [] => None
  | (k, v) :: params' => if String.eqb k name then Some v else get params' name
  end.

Definition hex_digit (n : nat) : ascii :=
  if n <? 10 then ascii_of_nat (48 + n) else ascii_of_nat (55 + n).

Definition percent (n : nat) : string :=
  String "%" (String (hex_digit (n / 16)) (String (hex_digit (n mod 16)) EmptyString)).

Definition unreserved (c : ascii) : bool :=
  Js.between "a" "z" c || Js.between "A" "Z" c || Js.between "0" "9" c
  || Js.is_char "*" c || Js.is_char "-" c || Js.is_char "." c
  || Js.is_char "_" c.

Definition encode_char (c : ascii) : string :=
  let n := Js.code c in
  if Js.is_char " " c then "+"
  else if unreserved c then String c EmptyString
  else if n <? 128 then percent n
  else percent (192 + n / 64) +:+ percent (128 + n mod 64).

Fixpoint encode (s : string) : string :=
  match s with
  | EmptyString => EmptyString
  | String c s' => encode_char c +:+ encode s'
  end.

(** [new URLSearchParams(record).toString()] *)
Fixpoint toString (params : list (string * string)) : string :=
  match params with
  | [] => EmptyString
  | [(k, v)] => encode k +:+ "=" +:+ encode v
  | (k, v) :: params' => encode k +:+ "=" +:+ encode v +:+ "&" +:+ toString params'
  end.

End UrlSearchParams.

(** ** routes/users.js, the OAuth 1.0a handshake *)

Module Handshake.

Import Http.

(** [global.tempTokenStorage]: [undefined] until the first token is kept. *)
Abbreviation TokenStorage := (option (gmap string string)).

(** [global.tempTokenStorage?.get(k)] and [global.tempTokenStorage?.delete(k)] *)
Definition storage_get (storage : TokenStorage) (k : string) : option string :=
  match storage with
  | Some m => m !! k
  | None => None
  end.

Definition storage_delete (storage : TokenStorage) (k : string) : TokenStorage :=
  option_map (delete k) storage.

(** [global.tempTokenStorage = global.tempTokenStorage || new Map()] followed
    by [global.tempTokenStorage.set(k, v)] *)
Definition storage_set (storage : TokenStorage) (k v : string) : TokenStorage :=
  Some (<[k := v]> (match storage with
                    | Some m => m
                    | None => ∅
                    end)).

Record Token : Type := mkToken {
  key : string;
  secret : string
}.

(** [{ url, method, data }], what [oauth.authorize] signs. *)
Record RequestData : Type := mkRequestData {
  url : string;
  method : string;
  data : list (string * string)
}.

(** A call of [fetch]: the address, the method, the Authorization header
    (given by what was signed, for which consumer and with which token), the
    content type and the form body. *)
Record Outgoing : Type := mkOutgoing {
  target : string;
  http_method : string;
  signed_for : Config.Consumer;
  signed : RequestData;
  signed_with : option Token;
  content_type : option string;
  form : list (string * string)
}.

(** [verify_credentials.json], the fields the callback reads. *)
Record UserData : Type := mkUserData {
  id_str : option string;
  screen_name : option string;
  name : option string;
  profile_image_url_https : option string
}.

(** What [await fetch(...)] gives: a rejection, or a response with its
    status, its [text()] and its [json()] ([None] when that throws or is
    [null]). *)
Inductive FetchResult : Type :=
| Rejected (message : string)
| Responded (status : nat) (text : string) (json : option UserData).

(** [response.ok] *)
Definition ok (status : nat) : bool := (200 <=? status) && (status <=? 299).

(** [String(v)] *)
Definition String_ (v : option string) : string :=
  match v with
  | None => "undefined"
  | Some s => s
  end.

Fixpoint startsWith (p s : string) : bool :=
  match p, s with
  | EmptyString, _ => true
  | String a p', String b s' => Ascii.eqb a b && startsWith p' s'
  | String _ _, EmptyString => false
  end.

(** [s.includes(p)] with [s.split(p)[0]], the part before the first [p]. *)
Fixpoint before (p s : string) : option string :=
  if startsWith p s then Some EmptyString
  else match s with
       | EmptyString => None
       | String c s' => option_map (String c) (before p s')
       end.

(** [s.replace(/\/+$/, '')] *)
Fixpoint strip_slashes (s : string) : string :=
  match s with
  | EmptyString => EmptyString
  | String c s' =>
      match strip_slashes s' with
      | EmptyString => if Js.is_char "/" c then EmptyString else String c EmptyString
      | r => String c r
      end
  end.

Definition callback_url (env : Config.Env) : string :=
  let baseUrl :=
    match Config.NODE_ENV env with
    | Some "production" =>
        Config.or_else (Config.BACKEND_URL env)
          "https://madcatsuite-production-7b53.up.railway.app"
    | _ => "http://localhost:3001"
    end in
  let baseUrl := strip_slashes baseUrl in
  let baseUrl := match before "/api" baseUrl with
                 | Some domain => domain
                 | None => baseUrl
                 end in
  baseUrl +:+ "/api/auth/twitter/callback".

(** The signed POST to the request-token endpoint. *)
Definition request_token_call (env : Config.Env) (consumer : Config.Consumer)
  : Outgoing :=
  let callback := callback_url env in
  let requestData :=
    mkRequestData Config.TWITTER_REQUEST_TOKEN_URL "POST"
      [("oauth_callback", callback)] in
  mkOutgoing Config.TWITTER_REQUEST_TOKEN_URL "POST" consumer requestData None
    (Some "application/x-www-form-urlencoded") [("oauth_callback", callback)].

(** [router.get('/auth/twitter', async (req, res) => ...)] *)
Definition auth_twitter (env : Config.Env) (fetch : Outgoing -> FetchResult)
    (tempTokenStorage : TokenStorage) : TokenStorage * Response :=
  match Config.oauth env with
  | None =>
      (tempTokenStorage, status_json 500 (json_error
        "Twitter API credentials not configured. Please add TWITTER_API_KEY and TWITTER_API_SECRET to your environment variables."))
  | Some consumer =>
      match fetch (request_token_call env consumer) with
      | Rejected message =>
          (tempTokenStorage, status_json 500 (json_error message))
      | Responded status text _ =>
          if negb (ok status) then
            (tempTokenStorage, status_json 500 (json_error
               ("Failed to get request token: " +:+ text)))
          else
            let tokenData := UrlSearchParams.parse text in
            let oauth_token := UrlSearchParams.get tokenData "oauth_token" in
            let oauth_token_secret :=
              UrlSearchParams.get tokenData "oauth_token_secret" in
            if Js.falsy oauth_token || Js.falsy oauth_token_secret then
              (tempTokenStorage, status_json 500 (json_error
                 "Invalid response from Twitter"))
            else
              let token := ExpressValidator.toString oauth_token in
              let secret := ExpressValidator.toString oauth_token_secret in
              (storage_set tempTokenStorage token secret,
               json (json_auth_url
                 (Config.TWITTER_AUTHORIZE_URL +:+ "?oauth_token=" +:+ token)))
      end
  end.

Definition error_redirect (env : Config.Env) (code : string) : Response :=
  redirect_to (Config.FRONTEND_URL env +:+ "?error=" +:+ code).

(** The signed POST to the access-token endpoint. *)
Definition access_token_call (consumer : Config.Consumer)
    (token secret verifier : string) : Outgoing :=
  let requestData :=
    mkRequestData Config.TWITTER_ACCESS_TOKEN_URL "POST"
      [("oauth_verifier", verifier)] in
  mkOutgoing Config.TWITTER_ACCESS_TOKEN_URL "POST" consumer requestData
    (Some (mkToken token secret))
    (Some "application/x-www-form-urlencoded") [("oauth_verifier", verifier)].

(** The signed GET of the profile. *)
Definition user_info_call (consumer : Config.Consumer)
    (access_token access_token_secret : string) : Outgoing :=
  let userRequestData := mkRequestData Config.TWITTER_USER_INFO_URL "GET" [] in
  mkOutgoing Config.TWITTER_USER_INFO_URL "GET" consumer userRequestData
    (Some (mkToken access_token access_token_secret)) None [].

Definition userParams (userData : UserData) : list (string * string) :=
  [ ("auth", "success");
    ("twitter_id", String_ (id_str userData));
    ("twitter_username", String_ (screen_name userData));
    ("twitter_name", String_ (name userData));
    ("profile_image", String_ (profile_image_url_https userData)) ].

(** [router.get('/auth/twitter/callback', async (req, res) => ...)] *)
Definition auth_twitter_callback (env : Config.Env)
    (fetch : Outgoing -> FetchResult) (tempTokenStorage : TokenStorage)
    (query : Fields) : TokenStorage * Response :=
  let oauth_token := query !! "oauth_token" in
  let oauth_verifier := query !! "oauth_verifier" in
  if Js.falsy oauth_token || Js.falsy oauth_verifier then
    (tempTokenStorage, error_redirect env "missing_oauth_params")
  else
    let token := ExpressValidator.toString oauth_token in
    let verifier := ExpressValidator.toString oauth_verifier in
    let oauth_token_secret := storage_get tempTokenStorage token in
    if Js.falsy oauth_token_secret then
      (tempTokenStorage, error_redirect env "invalid_token")
    else
      let secret := ExpressValidator.toString oauth_token_secret in
      (* clean up temporary storage *)
      let storage := storage_delete tempTokenStorage token in
      match Config.oauth env with
      | None => (storage, error_redirect env "callback_failed")
      | Some consumer =>
          match fetch (access_token_call consumer token secret verifier) with
          | Rejected _ => (storage, error_redirect env "callback_failed")
          | Responded status text _ =>
              if negb (ok status) then
                (storage, error_redirect env "access_token_failed")
              else
                let accessData := UrlSearchParams.parse text in
                let access_token :=
                  UrlSearchParams.get accessData "oauth_token" in
                let access_token_secret :=
                  UrlSearchParams.get accessData "oauth_token_secret" in
                if Js.falsy access_token || Js.falsy access_token_secret then
                  (storage, error_redirect env "invalid_access_token")
                else
                  match fetch (user_info_call consumer
                                 (ExpressValidator.toString access_token)
                                 (ExpressValidator.toString access_token_secret))
                  with
                  | Rejected _ =>
                      (storage, error_redirect env "callback_failed")
                  | Responded userStatus _ userJson =>
                      if negb (ok userStatus) then
                        (storage, error_redirect env "user_info_failed")
                      else
                        match userJson with
                        | None =>
                            (storage, error_redirect env "callback_failed")
                        | Some userData =>
                            (storage, redirect_to
                               (Config.FRONTEND_URL env +:+ "?"
                                +:+ UrlSearchParams.toString (userParams userData)))
                        end
                  end
          end
      end.

End Handshake.

(** ** routes/users.js, the top level of the module

    The statements that use or declare the binding [router], in the order
    of the file, each with the line it starts on. *)

Module Toplevel.

Inductive Statement : Type :=
| router_call (method path : string) (line : nat)
    (* router.get(path, ...) or router.post(path, ...) *)
| const_router (line : nat)
    (* const router = express.Router(); *)
| export_default_router (line : nat).
    (* export default router; *)

Definition users_js : list Statement :=
  [ router_call "GET" "/top-raiders" 29;
    router_call "GET" "/top-whales" 73;
    router_call "GET" "/loyalty-ranking" 117;
    const_router 149;
    router_call "GET" "/top-raiders" 153;
    router_call "GET" "/top-whales" 171;
    router_call "GET" "/loyalty-ranking" 189;
    router_call "GET" "/auth/twitter" 229;
    router_call "GET" "/auth/twitter/callback" 319;
    router_call "POST" "/register" 491;
    router_call "POST" "/users" 610;
    router_call "POST" "/status" 652;
    router_call "GET" "/status" 669;
    router_call "GET" "/demo/user" 683;
    export_default_router 697 ].

Record Route : Type := mkRoute {
  method : string;
  path : string;
  line : nat
}.

(** [ReferenceError: Cannot access 'router' before initialization], thrown
    by the statement on [line]. *)
Inductive ReferenceError : Type :=
| before_initialization (name : string) (line : nat).

(** Evaluation of the module body.  A [const] binding cannot be read
    before its declaration has been evaluated: [router] is [None] until
    then, a statement that reads it throws, and the evaluation of the
    module ends there.  The result is the router the module exports, with
    the routes in the order they were registered. *)
Fixpoint evaluate (body : list Statement) (router : option (list Route))
  : ReferenceError + option (list Route) :=
  match body with
  | [] => inr router
  | router_call m p l :: body' =>
      match router with
      | None => inl (before_initialization "router" l)
      | Some routes => evaluate body' (Some (routes ++ [mkRoute m p l]))
      end
  | const_router _ :: body' => evaluate body' (Some [])
  | export_default_router l :: body' =>
      match router with
      | None => inl (before_initialization "router" l)
      | Some _ => evaluate body' router
      end
  end.

(** [import userRoutes from './routes/users.js'] *)
Definition import_ (body : list Statement)
  : ReferenceError + option (list Route) :=
  evaluate body None.

(** The registration that answers a request: the first one, in the order
    of registration, with that method and path. *)
Definition answering (routes : list Route) (m p : string) : option Route :=
  find (fun r => String.eqb (method r) m && String.eqb (path r) p) routes.

(** The registration that answers a request to the module as it is
    imported, if the import succeeds and one matches. *)
Definition answers (body : list Statement) (m p : string) : option Route :=
  match import_ body with
  | inr (Some routes) => answering routes m p
  | _ => None
  end.

End Toplevel.

(** ** The error classes of the design, as the responses that carry them *)

Module Taxonomy.

Import Http.

(** A validator of the chain failed: 400 with the field-level details. *)
Definition ValidationFailed
    (details : list ExpressValidator.ValidationError) : Response :=
  status_json 400 (json_error_details "Validation failed" details).

(** The required-fields guard of the registration handler: 400 with one
    message and no details. *)
Definition MissingRequiredFields : Response :=
  status_json 400 (json_error
    "Missing required fields: twitter_id, telegram_username, and wallet_address are required").

(** Found by the SELECT. *)
Definition AlreadyRegistered : Response :=
  status_json 400 (json_error
    "User already registered with this Twitter, Telegram, or wallet address").

(** Raised by the INSERT, code 23505. *)
Definition AlreadyRegisteredAtInsert : Response :=
  status_json 400 (json_error "User already registered").

Definition DuplicateIdentity (r : Response) : Prop :=
  r = AlreadyRegistered \/ r = AlreadyRegisteredAtInsert.

Definition Unauthorized : Response :=
  status_json 401 (json_error_message "Unauthorized" "Invalid admin credentials").

(** The call to the provider was rejected: 500 with the message of the
    error that was thrown. *)
Definition UpstreamUnavailable_rejected (message : string) : Response :=
  status_json 500 (json_error message).

(** The provider answered outside 200..299: 500 with the text it sent. *)
Definition UpstreamUnavailable_status (text : string) : Response :=
  status_json 500 (json_error ("Failed to get request token: " +:+ text)).

Definition MalformedUpstreamResponse : Response :=
  status_json 500 (json_error "Invalid response from Twitter").

Definition UnknownOrExpiredToken (env : Config.Env) : Response :=
  Handshake.error_redirect env "invalid_token".

(** The redirect that hands the profile to the frontend. *)
Definition HandshakeCompleted (env : Config.Env) (r : Response) : Prop :=
  exists userData,
    r = redirect_to (Config.FRONTEND_URL env +:+ "?"
          +:+ UrlSearchParams.toString (Handshake.userParams userData)).

End Taxonomy.

(** ** The shapes the specification names, in its own words *)

Module Spec.

Definition hex_digit (c : ascii) : Prop :=
  In c (Js.chars "0123456789abcdefABCDEF").

Definition decimal_digit (c : ascii) : Prop :=
  In c (Js.chars "0123456789").

(** Exactly 42 characters: [0x] followed by 40 hex digits. *)
Definition wallet_form (s : string) : Prop :=
  String.length s = 42 /\
  exists t, s = "0x" +:+ t /\ Forall hex_digit (Js.chars t).

(** Numeric characters only, length 1 to 20. *)
Definition digits_only (s : string) : Prop :=
  1 <= String.length s <= 20 /\ Forall decimal_digit (Js.chars s).

(** What [isNumeric] takes for a number: an optional sign, optionally
    digits and a decimal point, then at least one digit. *)
Definition numeric_form (s : string) : Prop :=
  exists sgn int frac,
    s = sgn +:+ int +:+ frac /\
    (sgn = "" \/ sgn = "+" \/ sgn = "-") /\
    (int = "" \/ exists d, int = d +:+ "." /\ Forall decimal_digit (Js.chars d)) /\
    frac <> "" /\ Forall decimal_digit (Js.chars frac).

(** Ordered by [createdAt] descending: no row is older than a later one. *)
Definition newer_or_equal (x y : Pg.Row) : Prop :=
  (Pg.created_at y <= Pg.created_at x)%Z.

(** The code unit 0 does not occur. *)
Definition nul_free (s : string) : Prop := ~ In Ascii.zero (Js.chars s).

(** A row shares a field with the triple. *)
Definition shares_field (i t w : string) (r : Pg.Row) : Prop :=
  Pg.twitter_id r = i \/ Pg.telegram_username r = t \/ Pg.wallet_address r = w.

(** The characters [escape] replaces, and those among them that no entity
    contains (all but the ampersand). *)
Definition escaped (c : ascii) : bool :=
  Js.is_char Validator.amp c || Js.is_char Validator.quot c
  || Js.is_char Validator.apos c || Js.is_char Validator.lt c
  || Js.is_char Validator.gt c || Js.is_char Validator.slash c
  || Js.is_char Validator.backslash c || Js.is_char Validator.backtick c.

Definition escaped_for_good (c : ascii) : bool :=
  escaped c && negb (Js.is_char Validator.amp c).

(** [u] is [a] with whitespace around it. *)
Definition padded (u a : string) : Prop :=
  exists l r, u = l +:+ a +:+ r /\
              Js.all Js.is_space l = true /\ Js.all Js.is_space r = true.

(** No whitespace at either end. *)
Definition bare (a : string) : Prop := Js.ltrim a = a /\ Js.rtrim a = a.

End Spec.

(** ** Concrete requests and configurations *)

Module Samples.

Import Http.

Definition wallet_a : string := "0x" +:+ Js.repeat "a" 40.
Definition wallet_b : string := "0x" +:+ Js.repeat "b" 40.

(** [{ twitter_id, telegram_username, wallet_address }] *)
Definition registration (twitter_id telegram_username wallet_address : string)
  : Fields :=
  <["twitter_id" := twitter_id]>
    (<["telegram_username" := telegram_username]>
       (<["wallet_address" := wallet_address]> ∅)).

Definition alice_row : Pg.Row :=
  Pg.mkRow 1 wallet_a "42" None None "alice" 5 5.

(** A table holding the registration of alice, stored at time 5. *)
Definition db_alice : Pg.Db :=
  fst (Users.register 5 Pg.empty (registration "42" "alice" wallet_a)).

(** Requests with a chat handle of spaces only, with a display name of 201
    characters, and with a chat handle that has a leading space. *)
Definition blank_handle : Fields := registration "42" "   " wallet_a.
Definition blank_handle_bad_id : Fields := registration "abc" "   " wallet_a.
Definition long_name : Fields :=
  <["twitter_name" := Js.repeat "n" 201]> (registration "42" "alice" wallet_a).
Definition spaced_handle : Fields := registration "43" " alice" wallet_b.

(** Requests whose chat handle, or display name, holds the code unit 0. *)
Definition nul_handle : Fields :=
  registration "42" (String "b" (String Ascii.zero "b")) wallet_a.
Definition nul_name : Fields :=
  <["twitter_name" := String "n" (String Ascii.zero "n")]>
    (registration "42" "alice" wallet_a).

(** Requests that take the identifier of alice. *)
Definition same_id_nul_handle : Fields :=
  registration "42" (String "b" (String Ascii.zero "b")) wallet_b.
Definition same_id_blank_handle : Fields := registration "42" "   " wallet_b.
Definition same_id_bad_wallet : Fields := registration "42" "bob" "0x12".
Definition same_id : Fields := registration "42" "bob" wallet_b.

(** Another request commits the registration of bob between the SELECT and
    the INSERT. *)
Definition bob_gets_in (db : Pg.Db) : Pg.Db :=
  fst (Users.register 6 db (registration "43" "bob" wallet_b)).
Definition late_bob : Fields := registration "44" "bob" ("0x" +:+ Js.repeat "c" 40).

(** [{ username, password }] *)
Definition credentials (username password : string) : Fields :=
  <["username" := username]> (<["password" := password]> ∅).

(** [?oauth_token=...&oauth_verifier=...] *)
Definition callback_query (oauth_token oauth_verifier : string) : Fields :=
  <["oauth_token" := oauth_token]> (<["oauth_verifier" := oauth_verifier]> ∅).

(** An admin name that holds a character [escape] replaces, one that is
    the escaped form of another name, and a name padded to 51 characters. *)
Definition markup_name : string := "a<b".
Definition entity_name : string := "a&amp;b".
Definition padded_51 : string := "admin" +:+ Js.repeat " " 46.

(** A provider that answers every call, one that answers the request-token
    call with an empty token, one that cannot be reached, and one that
    refuses every call. *)
Definition provider (call : Handshake.Outgoing) : Handshake.FetchResult :=
  if String.eqb (Handshake.target call) Config.TWITTER_REQUEST_TOKEN_URL then
    Handshake.Responded 200
      "oauth_token=tok&oauth_token_secret=sec&oauth_callback_confirmed=true" None
  else if String.eqb (Handshake.target call) Config.TWITTER_ACCESS_TOKEN_URL then
    Handshake.Responded 200
      "oauth_token=acc&oauth_token_secret=accsec&user_id=7&screen_name=alice" None
  else
    Handshake.Responded 200 "{}"
      (Some (Handshake.mkUserData (Some "7") (Some "alice") (Some "Alice")
               (Some "https://pbs.twimg.com/a.png"))).

Definition provider_empty_token (call : Handshake.Outgoing)
  : Handshake.FetchResult :=
  Handshake.Responded 200 "oauth_token=&oauth_token_secret=sec" None.

Definition provider_down (call : Handshake.Outgoing) : Handshake.FetchResult :=
  Handshake.Rejected "request to https://api.twitter.com/oauth/request_token failed".

Definition provider_refuses (call : Handshake.Outgoing) : Handshake.FetchResult :=
  Handshake.Responded 401 "Could not authenticate you." None.

(** A callback that carries the token and no verifier. *)
Definition token_only_query (oauth_token : string) : Fields :=
  <["oauth_token" := oauth_token]> ∅.

(** A process with provider credentials and the given admin secrets. *)
Definition env (admin_username admin_password : string) : Config.Env :=
  Config.mkEnv None None None (Some "consumer-key") (Some "consumer-secret")
    (Some admin_username) (Some admin_password).

(** The cache after one initiation answered by [provider]. *)
Definition storage_tok : Handshake.TokenStorage :=
  fst (Handshake.auth_twitter (env "admin" "password1") provider None).

End Samples.

(** ** More shapes, in words *)

Module Shapes.

(** Letters, digits and the underscore. *)
Definition word_character (c : ascii) : Prop :=
  In c (Js.chars
          "abcdefghijklmnopqrstuvwxyzABCDEFGHIJKLMNOPQRSTUVWXYZ0123456789_").

(** [p] occurs in [s]. *)
Definition occurs (p s : string) : Prop :=
  exists l r, s = l +:+ p +:+ r.

(** [s] ends with the character [c]. *)
Definition ends_with (c : ascii) (s : string) : Prop :=
  exists l, s = l +:+ String c EmptyString.

End Shapes.

(** ** Tables that registrations build *)

Module Reach.

(** The tables reached from the empty one by registration requests served
    one after another. *)
Inductive reachable : Pg.Db -> Prop :=
| reach_empty : reachable Pg.empty
| reach_register (now : Z) (db : Pg.Db) (b : Http.Fields) :
    reachable db -> reachable (fst (Users.register now db b)).

(** The three unique constraints of the schema, as a property of the rows. *)
Definition unique_columns (rows : list Pg.Row) : Prop :=
  List.NoDup (map Pg.twitter_id rows)
  /\ List.NoDup (map Pg.telegram_username rows)
  /\ List.NoDup (map Pg.wallet_address rows).

(** What the chains and the columns let into a row. *)
Definition well_formed (r : Pg.Row) : Prop :=
  Spec.wallet_form (Pg.wallet_address r)
  /\ (1 <= String.length (Pg.twitter_id r) <= 20
      /\ Spec.numeric_form (Pg.twitter_id r))
  /\ (Pg.telegram_username r <> ""
      /\ String.length (Pg.telegram_username r) <= 50
      /\ Spec.bare (Pg.telegram_username r))
  /\ (forall u, Pg.twitter_username r = Some u ->
                1 <= String.length u <= 25 /\ Js.all Users.word_char u = true)
  /\ (forall n, Pg.twitter_name r = Some n -> String.length n <= 200)
  /\ Pg.updated_at r = Pg.created_at r.

(** The tables that follow [db]: those reached from it by further
    registration requests.  No route removes or changes a row. *)
Inductive later (db : Pg.Db) : Pg.Db -> Prop :=
| later_now : later db db
| later_register (now : Z) (db' : Pg.Db) (b : Http.Fields) :
    later db db' -> later db (fst (Users.register now db' b)).

(** The ways through the handler, for a request served alone. *)
Inductive outcome (now : Z) (db : Pg.Db) (b : Http.Fields)
  : Pg.Db * Http.Response -> Prop :=
| out_invalid :
    snd (Http.validate Users.validateRegistration b) <> [] ->
    outcome now db b
      (db, Taxonomy.ValidationFailed (snd (Http.validate Users.validateRegistration b)))
| out_missing :
    snd (Http.validate Users.validateRegistration b) = [] ->
    Js.falsy (b !! "twitter_id")
    || Js.falsy (option_map Validator.trim (b !! "telegram_username"))
    || Js.falsy (b !! "wallet_address") = true ->
    outcome now db b (db, Taxonomy.MissingRequiredFields)
| out_refused i t w :
    b !! "twitter_id" = Some i -> b !! "telegram_username" = Some t ->
    b !! "wallet_address" = Some w ->
    snd (Http.validate Users.validateRegistration b) = [] -> Validator.trim t <> "" ->
    Pg.has_nul (Validator.trim t) = true ->
    outcome now db b
      (db, Http.status_json 500
             (Http.json_error (Pg.message Pg.character_not_in_repertoire)))
| out_duplicate i t w r :
    b !! "twitter_id" = Some i -> b !! "telegram_username" = Some t ->
    b !! "wallet_address" = Some w ->
    snd (Http.validate Users.validateRegistration b) = [] -> Validator.trim t <> "" ->
    Pg.has_nul (Validator.trim t) = false ->
    In r (Pg.user_profiles db) ->
    Spec.shares_field i (Validator.trim t) w r ->
    outcome now db b (db, Taxonomy.AlreadyRegistered)
| out_name_refused i t w n :
    b !! "twitter_id" = Some i -> b !! "telegram_username" = Some t ->
    b !! "wallet_address" = Some w ->
    snd (Http.validate Users.validateRegistration b) = [] -> Validator.trim t <> "" ->
    Pg.has_nul (Validator.trim t) = false ->
    (forall r, In r (Pg.user_profiles db) ->
               ~ Spec.shares_field i (Validator.trim t) w r) ->
    b !! "twitter_name" = Some n -> Pg.has_nul n = true ->
    outcome now db b
      (db, Http.status_json 500
             (Http.json_error (Pg.message Pg.character_not_in_repertoire)))
| out_stored i t w cn :
    b !! "twitter_id" = Some i -> b !! "telegram_username" = Some t ->
    b !! "wallet_address" = Some w ->
    snd (Http.validate Users.validateRegistration b) = [] -> Validator.trim t <> "" ->
    Pg.has_nul (Validator.trim t) = false ->
    (forall n, b !! "twitter_name" = Some n -> Pg.has_nul n = false) ->
    (forall r, In r (Pg.user_profiles db) ->
               ~ Spec.shares_field i (Validator.trim t) w r) ->
    Pg.varchar_null 200 (b !! "twitter_name") = inr cn ->
    let row := Pg.mkRow (Pg.user_profiles_id_seq db) w i
                 (b !! "twitter_username") cn (Validator.trim t) now now in
    outcome now db b
      (Pg.mkDb (Pg.user_profiles db ++ [row]) (S (Pg.user_profiles_id_seq db)),
       Http.json (Http.json_user "User registered successfully" row))
| out_failed i t w e :
    b !! "twitter_id" = Some i -> b !! "telegram_username" = Some t ->
    b !! "wallet_address" = Some w ->
    snd (Http.validate Users.validateRegistration b) = [] -> Validator.trim t <> "" ->
    Pg.has_nul (Validator.trim t) = false ->
    (forall n, b !! "twitter_name" = Some n -> Pg.has_nul n = false) ->
    Pg.varchar_null 200 (b !! "twitter_name") = inl e ->
    outcome now db b
      (db, Http.status_json 500 (Http.json_error (Pg.message e))).

End Reach.

(** ** routes/users.js, the status log (table [status_checks]) *)

Module Status.

Record Row : Type := mkRow {
  id : string;                  (* UUID PRIMARY KEY DEFAULT gen_random_uuid() *)
  client_name : string;         (* VARCHAR(255) NOT NULL *)
  timestamp : Z                 (* DEFAULT CURRENT_TIMESTAMP *)
}.

Inductive Body : Type :=
| json_row (row : Row)
| json_rows (rows : list Row)
| json_error (error : string).

Record Response : Type := mkResponse {
  status : nat;
  body : Body
}.

(** [INSERT INTO status_checks (client_name) VALUES ($1) RETURNING *];
    [uuid] is what [gen_random_uuid()] draws and [now] the time of the
    statement. *)
Definition insert_status_check (uuid : string) (now : Z) (table : list Row)
    (p1 : option string) : list Row * (Pg.Error + Row) :=
  match Pg.bind_params [p1] with
  | Some e => (table, inl e)
  | None =>
      match Pg.varchar_not_null "client_name" 255 p1 with
      | inl e => (table, inl e)
      | inr name =>
          if existsb (fun r => String.eqb (id r) uuid) table
          then (table, inl (Pg.unique_violation "status_checks_pkey"))
          else (table ++ [mkRow uuid name now], inr (mkRow uuid name now))
      end
  end.

(** [error.message] of an error raised on this table. *)
Definition message (e : Pg.Error) : string :=
  match e with
  | Pg.not_null_violation column =>
      "null value in column " +:+ Pg.quoted column +:+ " of relation "
      +:+ Pg.quoted "status_checks" +:+ " violates not-null constraint"
  | _ => Pg.message e
  end.

(** [router.post('/status', async (req, res) => ...)] *)
Definition post_status (uuid : string) (now : Z) (table : list Row)
    (req_body : Http.Fields) : list Row * Response :=
  let client_name := req_body !! "client_name" in
  match insert_status_check uuid now table client_name with
  | (table', inr row) => (table', mkResponse 200 (json_row row))
  | (table', inl error) =>
      (table', mkResponse 500 (json_error (message error)))
  end.

(** An order in which the engine may return the rows of a query that names
    none: all of them, each once. *)
Definition any_order (scan : list Row -> list Row) : Prop :=
  forall rows, Permutation (scan rows) rows.

(** [router.get('/status', async (req, res) => ...)]:
    [SELECT * FROM status_checks].  The query has no [ORDER BY]: [scan] is
    the order in which the engine returns the rows. *)
Definition get_status (scan : list Row -> list Row) (table : list Row)
  : Response :=
  mkResponse 200 (json_rows (scan table)).

End Status.

(** ** The CORS middlewares of the server bootstraps *)

Module Cors.

(** [s.includes(p)] *)
Definition includes (p s : string) : bool :=
  match Handshake.before p s with
  | Some _ => true
  | None => false
  end.

(** [s.trim()] *)
Definition trim (s : string) : string := Js.rtrim (Js.ltrim s).

(** [s.split(',').map(o => o.trim())] *)
Definition origins_of (s : string) : list string :=
  map trim (UrlSearchParams.split "," s).

(** [list.includes(origin)] *)
Definition listed (l : list string) (origin : string) : bool :=
  existsb (String.eqb origin) l.

(** The bootstrap with the cors package: [corsOptions.origin], [true] when
    it calls [callback(null, true)] and [false] when it calls back with
    the error [Not allowed by CORS]. *)
Definition origin_allowed (CORS_ORIGINS origin : option string) : bool :=
  if Js.falsy origin then true
  else match CORS_ORIGINS with
       | None => false
       | Some s => listed (origins_of s) (ExpressValidator.toString origin)
       end.

(** The middleware mounted on [/api] in that bootstrap: the callback path
    skips the check. *)
Definition api_passes (CORS_ORIGINS : option string) (path : string)
    (origin : option string) : bool :=
  if String.eqb path "/auth/twitter/callback" then true
  else origin_allowed CORS_ORIGINS origin.

(** The bootstrap with sessions: the list of allowed origins. *)
Definition allowedOrigins (CORS_ORIGINS FRONTEND_URL : option string)
  : list string :=
  let fixed :=
    [ "http://localhost:5173"; "http://localhost:3000"; "http://localhost:5000";
      "https://cat.blockmintlabs.com";
      "https://poetic-pothos-ea5bb5.netlify.app";
      "https://madcatsuite-production-7b53.up.railway.app" ] in
  let custom :=
    if Js.falsy CORS_ORIGINS then fixed
    else fixed ++ origins_of (ExpressValidator.toString CORS_ORIGINS) in
  if Js.truthy FRONTEND_URL
     && negb (listed custom (ExpressValidator.toString FRONTEND_URL))
  then custom ++ [ExpressValidator.toString FRONTEND_URL]
  else custom.

(** An origin that holds the name of a deployment platform. *)
Definition platform_origin (origin : string) : bool :=
  includes ".railway.app" origin || includes ".netlify.app" origin
  || includes ".vercel.app" origin || includes ".herokuapp.com" origin
  || includes ".render.com" origin || includes ".github.io" origin.

Definition health_check_origin (origin : string) : bool :=
  includes ".railway.app" origin || includes ".netlify.app" origin
  || includes ".vercel.app" origin || includes ".herokuapp.com" origin.

Definition isAllowed (NODE_ENV CORS_ORIGINS FRONTEND_URL origin : option string)
  : bool :=
  Js.falsy origin
  || listed (allowedOrigins CORS_ORIGINS FRONTEND_URL)
       (ExpressValidator.toString origin)
  || Users.strict_ne NODE_ENV (Some "production")
  || (Js.truthy origin && platform_origin (ExpressValidator.toString origin)).

(** The value the middleware gives to [Access-Control-Allow-Origin], [None]
    when it does not set the header. *)
Definition allow_origin_header
    (NODE_ENV CORS_ORIGINS FRONTEND_URL origin : option string)
  : option string :=
  if isAllowed NODE_ENV CORS_ORIGINS FRONTEND_URL origin then
    Some (Config.or_else origin "*")
  else if Js.truthy origin
          && health_check_origin (ExpressValidator.toString origin)
  then Some (ExpressValidator.toString origin)
  else None.

(** Comma-separated entries, as the variable is written. *)
Fixpoint join_commas (entries : list string) : string :=
  match entries with
  | [] => EmptyString
  | [e] => e
  | e :: entries' => e +:+ "," +:+ join_commas entries'
  end.

End Cors.

(** ** More concrete requests *)

Module MoreSamples.

Import Http.

Definition alice : Fields := Samples.registration "42" "alice" Samples.wallet_a.

(** A display name of 200 letters followed by three spaces. *)
Definition spaced_name : Fields :=
  <["twitter_name" := Js.repeat "n" 200 +:+ "   "]> alice.


(** A status check sent by [client], and the row it leaves. *)
Definition check_in (client : string) : Fields :=
  <["client_name" := client]> ∅.

Definition check_row (uuid client : string) (now : Z) : Status.Row :=
  Status.mkRow uuid client now.

(** A production process whose [BACKEND_URL] is [backend]. *)
Definition production (backend : string) : Config.Env :=
  Config.mkEnv (Some "production") (Some backend) None
    (Some "consumer-key") (Some "consumer-secret") None None.

End MoreSamples.

(** * Properties *)

(** ** Strings *)

Module JsFacts.

Lemma app_nil_r (s : string) : s +:+ "" = s.
Proof. induction s as [|c s IH]; simpl; [reflexivity | now rewrite IH]. Qed.

Lemma app_assoc (s1 s2 s3 : string) : (s1 +:+ s2) +:+ s3 = s1 +:+ (s2 +:+ s3).
Proof. induction s1 as [|c s1 IH]; simpl; [reflexivity | now rewrite IH]. Qed.

Lemma app_length (s1 s2 : string) :
  String.length (s1 +:+ s2) = String.length s1 + String.length s2.
Proof. induction s1 as [|c s1 IH]; simpl; [reflexivity | now rewrite IH]. Qed.

Lemma app_eq_nil (s1 s2 : string) : s1 +:+ s2 = "" -> s1 = "" /\ s2 = "".
Proof. destruct s1; simpl; intros H; [now split | discriminate]. Qed.

Lemma app_eq_cons (s1 s2 : string) (c : ascii) (s : string) :
  s1 +:+ s2 = String c s ->
  (s1 = "" /\ s2 = String c s) \/ (exists s1', s1 = String c s1' /\ s = s1' +:+ s2).
Proof.
  destruct s1 as [|a s1]; simpl; intros H.
  - left. now split.
  - right. injection H as -> <-. now exists s1.
Qed.

Lemma all_app (p : ascii -> bool) (s1 s2 : string) :
  Js.all p (s1 +:+ s2) = Js.all p s1 && Js.all p s2.
Proof.
  induction s1 as [|c s1 IH]; simpl; [reflexivity |].
  now rewrite IH, andb_assoc.
Qed.

Lemma has_app (p : ascii -> bool) (s1 s2 : string) :
  Js.has p (s1 +:+ s2) = Js.has p s1 || Js.has p s2.
Proof.
  induction s1 as [|c s1 IH]; simpl; [reflexivity |].
  now rewrite IH, orb_assoc.
Qed.

Lemma all_has (p : ascii -> bool) (s : string) :
  Js.all p s = negb (Js.has (fun c => negb (p c)) s).
Proof.
  induction s as [|c s IH]; simpl; [reflexivity |].
  rewrite IH. now destruct (p c).
Qed.

Lemma repeat_length (c : ascii) (n : nat) : String.length (Js.repeat c n) = n.
Proof. induction n as [|n IH]; simpl; [reflexivity | now rewrite IH]. Qed.

Lemma all_repeat (p : ascii -> bool) (c : ascii) (n : nat) :
  p c = true -> Js.all p (Js.repeat c n) = true.
Proof. intros H. induction n as [|n IH]; simpl; [reflexivity | now rewrite H, IH]. Qed.

End JsFacts.

(** ** The derivative matcher decides the words of a pattern *)

Module RegexFacts.

Import Regex.

Lemma nullable_lang (r : re) : nullable r = true <-> lang r "".
Proof.
  split.
  - induction r as [| |p|r1 IH1 r2 IH2|r1 IH1 r2 IH2|r IH]; simpl; intros H;
      try discriminate.
    + constructor.
    + apply andb_true_iff in H as [H1 H2].
      change "" with ("" +:+ ""). constructor; auto.
    + apply orb_true_iff in H as [H|H]; [apply L_alt_l | apply L_alt_r]; auto.
    + constructor.
  - intros H. remember "" as s eqn:Es.
    induction H as [|p c Hp|r1 r2 s1 s2 _ IH1 _ IH2|r1 r2 s _ IH
                   |r1 r2 s _ IH|r|r s1 s2 _ _ _ _]; simpl; try reflexivity.
    + discriminate.
    + apply JsFacts.app_eq_nil in Es as [-> ->]. now rewrite IH1, IH2.
    + now rewrite IH.
    + rewrite IH by assumption. apply orb_true_r.
Qed.

Lemma deriv_sound (c : ascii) (r : re) :
  forall s, lang (deriv c r) s -> lang r (String c s).
Proof.
  induction r as [| |p|r1 IH1 r2 IH2|r1 IH1 r2 IH2|r IH]; simpl; intros s H.
  - inversion H.
  - inversion H.
  - destruct (p c) eqn:Hp; inversion H; subst. now constructor.
  - assert (Hcat : forall t, lang (Cat (deriv c r1) r2) t ->
                             lang (Cat r1 r2) (String c t)).
    { intros t Ht. inversion Ht; subst.
      change (String c (s1 +:+ s2)) with (String c s1 +:+ s2).
      constructor; auto. }
    destruct (nullable r1) eqn:Hn; [| now apply Hcat].
    inversion H; subst; [now apply Hcat |].
    change (String c s) with ("" +:+ String c s).
    constructor; [now apply nullable_lang | auto].
  - inversion H; subst; [apply L_alt_l | apply L_alt_r]; auto.
  - inversion H; subst.
    change (String c (s1 +:+ s2)) with (String c s1 +:+ s2).
    constructor; auto.
Qed.

Lemma deriv_complete (r : re) (w : string) :
  lang r w -> forall c s, w = String c s -> lang (deriv c r) s.
Proof.
  induction 1 as [|p a Hp|r1 r2 s1 s2 H1 IH1 H2 IH2|r1 r2 w H IH
                 |r1 r2 w H IH|r|r s1 s2 H1 IH1 H2 IH2]; intros c s E; simpl.
  - discriminate.
  - injection E as -> <-. rewrite Hp. constructor.
  - apply JsFacts.app_eq_cons in E as [[-> ->]|(s1' & -> & ->)].
    + apply nullable_lang in H1. rewrite H1. apply L_alt_r. now apply IH2.
    + assert (lang (Cat (deriv c r1) r2) (s1' +:+ s2))
        by (constructor; [now apply IH1 | assumption]).
      destruct (nullable r1); [now apply L_alt_l | assumption].
  - apply L_alt_l. now apply IH.
  - apply L_alt_r. now apply IH.
  - discriminate.
  - apply JsFacts.app_eq_cons in E as [[-> ->]|(s1' & -> & ->)].
    + now apply IH2.
    + constructor; [now apply IH1 | assumption].
Qed.

Lemma test_lang (r : re) (s : string) : test r s = true <-> lang r s.
Proof.
  revert r. induction s as [|c s IH]; intros r; simpl.
  - apply nullable_lang.
  - rewrite IH. split.
    + apply deriv_sound.
    + intros H. now apply (deriv_complete r (String c s)).
Qed.

(** Words of the shapes the route patterns are built from. *)

Lemma lang_class (p : ascii -> bool) (s : string) :
  lang (Class p) s <-> exists c, s = String c "" /\ p c = true.
Proof.
  split.
  - intros H. inversion H; subst. eauto.
  - intros (c & -> & Hp). now constructor.
Qed.

Lemma lang_cat (r1 r2 : re) (s : string) :
  lang (Cat r1 r2) s <-> exists s1 s2, s = s1 +:+ s2 /\ lang r1 s1 /\ lang r2 s2.
Proof.
  split.
  - intros H. inversion H; subst. eauto.
  - intros (s1 & s2 & -> & H1 & H2). now constructor.
Qed.

Lemma lang_star_class (p : ascii -> bool) (s : string) :
  lang (Star (Class p)) s <-> Js.all p s = true.
Proof.
  split.
  - intros H. remember (Star (Class p)) as r eqn:Er.
    induction H as [| | | | | |r s1 s2 H1 _ H2 IH2]; try discriminate.
    + reflexivity.
    + injection Er as ->. inversion H1; subst. simpl.
      rewrite H0. now apply IH2.
  - induction s as [|c s IH]; simpl; intros H.
    + constructor.
    + apply andb_true_iff in H as [Hc Hs].
      change (String c s) with (String c "" +:+ s).
      constructor; [now constructor | auto].
Qed.

Lemma lang_plus_class (p : ascii -> bool) (s : string) :
  lang (Plus (Class p)) s <-> s <> "" /\ Js.all p s = true.
Proof.
  unfold Plus. rewrite lang_cat. split.
  - intros (s1 & s2 & -> & H1 & H2).
    apply lang_class in H1 as (c & -> & Hc). apply lang_star_class in H2.
    simpl. rewrite Hc, H2. now split.
  - intros [Hne H]. destruct s as [|c s]; [congruence |].
    simpl in H. apply andb_true_iff in H as [Hc Hs].
    exists (String c ""), s. repeat split; [now constructor |].
    now apply lang_star_class.
Qed.

Lemma lang_rep_class (p : ascii -> bool) (n : nat) (s : string) :
  lang (Rep n (Class p)) s <-> String.length s = n /\ Js.all p s = true.
Proof.
  revert s. induction n as [|n IH]; intros s; simpl.
  - split.
    + intros H. inversion H; subst. now split.
    + intros [H _]. destruct s; [constructor | discriminate].
  - rewrite lang_cat. split.
    + intros (s1 & s2 & -> & H1 & H2).
      apply lang_class in H1 as (c & -> & Hc). apply IH in H2 as [Hl Ha].
      simpl. rewrite Hl, Hc, Ha. now split.
    + intros [Hl Ha]. destruct s as [|c s]; [discriminate |].
      simpl in Hl, Ha. apply andb_true_iff in Ha as [Hc Hs].
      exists (String c ""), s. repeat split; [now constructor |].
      apply IH. split; [lia | assumption].
Qed.

End RegexFacts.

(** ** Chains *)

Module ChainFacts.

Import ExpressValidator.

Lemma run_steps_fst (p : string) (l : list step) (v : option string) :
  fst (run_steps p l v) = sanitized l v.
Proof.
  revert v. induction l as [|[negated f m|f] l IH]; intros v; simpl.
  - reflexivity.
  - specialize (IH v). destruct (run_steps p l v). exact IH.
  - apply IH.
Qed.

Lemma run_steps_snd_nil (p : string) (l : list step) (v : option string) :
  snd (run_steps p l v) = [] <-> passes l v = true.
Proof.
  revert v. induction l as [|[negated f m|f] l IH]; intros v; simpl.
  - tauto.
  - specialize (IH v). destruct (run_steps p l v) as [v' errors]. simpl in *.
    destruct negated; destruct (f (toString v)); simpl;
      (tauto || (split; [discriminate | intros; discriminate])).
  - apply IH.
Qed.

Lemma run_steps_path (p : string) (l : list step) (v : option string) :
  Forall (fun e => path e = p) (snd (run_steps p l v)).
Proof.
  revert v. induction l as [|[negated f m|f] l IH]; intros v; simpl.
  - constructor.
  - specialize (IH v). destruct (run_steps p l v) as [v' errors]. simpl in *.
    destruct (if negated then f (toString v) else negb (f (toString v)));
      [constructor |]; auto.
  - apply IH.
Qed.

Lemma accepts_passes (c : chain) (v : option string) :
  accepts c v = true <->
  (optional c = true /\ v = None) \/ passes (steps c) v = true.
Proof.
  unfold accepts, run.
  destruct (optional c) eqn:Ho, v as [s|]; simpl;
    rewrite <- ?run_steps_snd_nil with (p := field c);
    try (destruct (snd (run_steps (field c) (steps c) _));
         intuition (discriminate || congruence)).
Qed.

Lemma run_fst (c : chain) (v : option string) :
  fst (run c v) =
    match optional c, v with
    | true, None => None
    | _, _ => sanitized (steps c) v
    end.
Proof.
  unfold run. destruct (optional c), v; simpl; try reflexivity;
    apply run_steps_fst.
Qed.

Lemma validate_cons (c : chain) (chains : list chain) (b : Http.Fields) :
  Http.validate (c :: chains) b =
    (fst (Http.validate chains
            (match fst (run c (b !! field c)) with
             | Some s => <[field c := s]> b
             | None => b
             end)),
     snd (run c (b !! field c))
     ++ snd (Http.validate chains
               (match fst (run c (b !! field c)) with
                | Some s => <[field c := s]> b
                | None => b
                end))).
Proof.
  simpl. destruct (run c (b !! field c)) as [v errors]. simpl.
  destruct (Http.validate chains _) as [b'' errors']. reflexivity.
Qed.

Lemma insert_same (b : Http.Fields) (f : string) :
  match b !! f with
  | Some s => <[f := s]> b
  | None => b
  end = b.
Proof. destruct (b !! f) eqn:H; [now apply insert_id | reflexivity]. Qed.

End ChainFacts.

(** ** The two validation arrays of the route file *)

Module ValidationFacts.

Import ExpressValidator Http Users.

(** What [validateRegistration] leaves in the body, and the errors it
    lists: each chain judges the submitted value of its own field, and only
    the chat handle is rewritten (trimmed). *)
Lemma validate_registration (b : Fields) :
  validate validateRegistration b =
    (match b !! "telegram_username" with
     | Some s => <["telegram_username" := Validator.trim s]> b
     | None => b
     end,
     snd (run validate_twitter_id (b !! "twitter_id"))
     ++ snd (run validate_twitter_username (b !! "twitter_username"))
     ++ snd (run validate_telegram_username (b !! "telegram_username"))
     ++ snd (run validate_wallet_address (b !! "wallet_address"))).
Proof.
  unfold validateRegistration.
  rewrite ChainFacts.validate_cons.
  assert (E1 : fst (run validate_twitter_id (b !! "twitter_id")) = b !! "twitter_id")
    by (rewrite ChainFacts.run_fst; reflexivity).
  change (field validate_twitter_id) with "twitter_id".
  rewrite E1, ChainFacts.insert_same.
  rewrite ChainFacts.validate_cons.
  assert (E2 : fst (run validate_twitter_username (b !! "twitter_username"))
               = b !! "twitter_username")
    by (rewrite ChainFacts.run_fst; destruct (b !! "twitter_username"); reflexivity).
  change (field validate_twitter_username) with "twitter_username".
  rewrite E2, ChainFacts.insert_same.
  rewrite ChainFacts.validate_cons.
  assert (E3 : fst (run validate_telegram_username (b !! "telegram_username"))
               = option_map Validator.trim (b !! "telegram_username"))
    by (rewrite ChainFacts.run_fst; reflexivity).
  change (field validate_telegram_username) with "telegram_username".
  rewrite E3.
  rewrite ChainFacts.validate_cons.
  change (field validate_wallet_address) with "wallet_address".
  assert (E4 : forall b' : Fields,
             fst (run validate_wallet_address (b' !! "wallet_address"))
             = b' !! "wallet_address")
    by (intros b'; rewrite ChainFacts.run_fst; reflexivity).
  rewrite E4, ChainFacts.insert_same. simpl validate.
  rewrite app_nil_r.
  destruct (b !! "telegram_username") as [s|] eqn:Ht; simpl; [|reflexivity].
  rewrite lookup_insert_ne by discriminate. reflexivity.
Qed.

(** Character classes of the patterns, against the digits they stand for. *)

Lemma In_existsb (c : ascii) (l : list ascii) :
  In c l <-> existsb (Ascii.eqb c) l = true.
Proof.
  rewrite existsb_exists. split.
  - intros H. exists c. split; [assumption | apply Ascii.eqb_refl].
  - intros (x & Hx & E). apply Ascii.eqb_eq in E. now subst.
Qed.

Lemma hex_spec (c : ascii) : hex c = true <-> Spec.hex_digit c.
Proof.
  unfold Spec.hex_digit. rewrite In_existsb.
  assert (E : hex c = existsb (Ascii.eqb c) (Js.chars "0123456789abcdefABCDEF"))
    by (destruct c as [[] [] [] [] [] [] [] []]; reflexivity).
  now rewrite E.
Qed.

Lemma digit_spec (c : ascii) : Validator.digit c = true <-> Spec.decimal_digit c.
Proof.
  unfold Spec.decimal_digit. rewrite In_existsb.
  assert (E : Validator.digit c = existsb (Ascii.eqb c) (Js.chars "0123456789"))
    by (destruct c as [[] [] [] [] [] [] [] []]; reflexivity).
  now rewrite E.
Qed.

Lemma all_Forall (p : ascii -> bool) (P : ascii -> Prop) (s : string) :
  (forall c, p c = true <-> P c) ->
  Js.all p s = true <-> Forall P (Js.chars s).
Proof.
  intros HP. induction s as [|c s IH]; simpl.
  - split; [constructor | reflexivity].
  - rewrite andb_true_iff, IH, HP. split.
    + intros [H1 H2]. now constructor.
    + intros H. inversion H; subst. now split.
Qed.

Lemma is_char_eq (a c : ascii) : Js.is_char a c = true <-> c = a.
Proof. unfold Js.is_char. rewrite Ascii.eqb_eq. split; congruence. Qed.

Lemma lang_chr (a : ascii) (s : string) :
  Regex.lang (Regex.Chr a) s <-> s = String a "".
Proof.
  unfold Regex.Chr. rewrite RegexFacts.lang_class. split.
  - intros (c & -> & H). apply is_char_eq in H. now subst.
  - intros ->. exists a. split; [reflexivity | now apply is_char_eq].
Qed.

(** [/^0x[a-fA-F0-9]{40}$/] matches the wallet form of the specification. *)
Lemma wallet_pattern_spec (s : string) :
  Validator.matches wallet_pattern s = true <-> Spec.wallet_form s.
Proof.
  unfold Validator.matches, wallet_pattern, Spec.wallet_form.
  rewrite RegexFacts.test_lang, RegexFacts.lang_cat. split.
  - intros (s1 & s2 & -> & H1 & H2).
    apply lang_chr in H1 as ->.
    apply RegexFacts.lang_cat in H2 as (s3 & t & -> & H3 & H4).
    apply lang_chr in H3 as ->.
    apply RegexFacts.lang_rep_class in H4 as [Hl Ha].
    split; [simpl; now rewrite Hl |].
    exists t. split; [reflexivity |].
    now apply (all_Forall hex Spec.hex_digit t hex_spec).
  - intros (Hl & t & -> & Ht).
    exists "0", ("x" +:+ t). repeat split; [now apply lang_chr |].
    apply RegexFacts.lang_cat. exists "x", t.
    repeat split; [now apply lang_chr |].
    apply RegexFacts.lang_rep_class. split.
    + simpl in Hl. lia.
    + now apply (all_Forall hex Spec.hex_digit t hex_spec).
Qed.

Lemma accepts_wallet_address (v : option string) :
  accepts validate_wallet_address v = true <->
  exists s, v = Some s /\ Spec.wallet_form s.
Proof.
  rewrite ChainFacts.accepts_passes. simpl.
  split.
  - intros [[H _]|H]; [discriminate |].
    rewrite !andb_true_iff in H. destruct H as (H1 & H2 & H3 & _).
    destruct v as [s|]; [|discriminate].
    exists s. split; [reflexivity |]. now apply wallet_pattern_spec.
  - intros (s & -> & H). right.
    pose proof H as [Hl _]. apply wallet_pattern_spec in H.
    simpl. unfold Validator.isEmpty, Validator.isLength.
    rewrite H, Hl. reflexivity.
Qed.

Lemma lang_opt (r : Regex.re) (s : string) :
  Regex.lang (Regex.Opt r) s <-> s = "" \/ Regex.lang r s.
Proof.
  unfold Regex.Opt. split.
  - intros H. inversion H; subst; [left | right]; auto.
    match goal with E : Regex.lang Regex.Eps _ |- _ => now inversion E end.
  - intros [->|H]; [apply Regex.L_alt_l; constructor | now apply Regex.L_alt_r].
Qed.

Lemma sign_spec (c : ascii) :
  Validator.sign c = true <-> c = "+"%char \/ c = "-"%char.
Proof.
  unfold Validator.sign. now rewrite orb_true_iff, !is_char_eq.
Qed.

(** [^[+-]?([0-9]*[.])?[0-9]+$] *)
Lemma numeric_spec (s : string) :
  Validator.isNumeric s = true <-> Spec.numeric_form s.
Proof.
  unfold Validator.isNumeric, Validator.numeric, Spec.numeric_form.
  rewrite RegexFacts.test_lang, RegexFacts.lang_cat. split.
  - intros (sgn & rest & -> & Hs & Hr).
    apply RegexFacts.lang_cat in Hr as (int & frac & -> & Hi & Hf).
    exists sgn, int, frac. split; [reflexivity |].
    apply lang_opt in Hs. apply lang_opt in Hi.
    apply RegexFacts.lang_plus_class in Hf as [Hne Hf].
    repeat split.
    + destruct Hs as [->|Hs]; [now left | right].
      apply RegexFacts.lang_class in Hs as (c & -> & Hc).
      apply sign_spec in Hc as [->| ->]; auto.
    + destruct Hi as [->|Hi]; [now left | right].
      apply RegexFacts.lang_cat in Hi as (d & p & -> & Hd & Hp).
      apply lang_chr in Hp as ->. apply RegexFacts.lang_star_class in Hd.
      exists d. split; [reflexivity |].
      now apply (all_Forall Validator.digit Spec.decimal_digit d digit_spec).
    + assumption.
    + now apply (all_Forall Validator.digit Spec.decimal_digit frac digit_spec).
  - intros (sgn & int & frac & -> & Hs & Hi & Hne & Hf).
    exists sgn, (int +:+ frac). repeat split.
    + apply lang_opt. destruct Hs as [->|[->| ->]]; [now left | right | right];
        apply RegexFacts.lang_class; eexists; split; try reflexivity;
        now apply sign_spec; auto.
    + apply RegexFacts.lang_cat. exists int, frac. repeat split.
      * apply lang_opt. destruct Hi as [->|(d & -> & Hd)]; [now left | right].
        apply RegexFacts.lang_cat. exists d, ".". repeat split.
        -- apply RegexFacts.lang_star_class.
           now apply (all_Forall Validator.digit Spec.decimal_digit d digit_spec).
        -- now apply lang_chr.
      * apply RegexFacts.lang_plus_class. split; [assumption |].
        now apply (all_Forall Validator.digit Spec.decimal_digit frac digit_spec).
Qed.

Lemma isLength_spec (min : nat) (max : nat) (s : string) :
  Validator.isLength min (Some max) s = true <->
  min <= String.length s <= max.
Proof.
  unfold Validator.isLength.
  rewrite andb_true_iff, !Nat.leb_le. tauto.
Qed.

Lemma isEmpty_spec (s : string) : Validator.isEmpty s = true <-> s = "".
Proof.
  unfold Validator.isEmpty. rewrite Nat.eqb_eq.
  destruct s; simpl; split; (reflexivity || discriminate).
Qed.

Lemma accepts_twitter_id (v : option string) :
  accepts validate_twitter_id v = true <->
  exists s, v = Some s /\ 1 <= String.length s <= 20 /\ Spec.numeric_form s.
Proof.
  rewrite ChainFacts.accepts_passes. simpl.
  rewrite !andb_true_iff, isLength_spec, numeric_spec. split.
  - intros [[H _]|(H1 & H2 & H3 & _)]; [discriminate |].
    destruct v as [s|]; [|simpl in H3; lia].
    exists s. auto.
  - intros (s & -> & Hl & Hn). right. simpl.
    split; [destruct s; [simpl in Hl; lia | reflexivity] | auto].
Qed.

Lemma accepts_telegram_username (v : option string) :
  accepts validate_telegram_username v = true <->
  exists s, v = Some s /\ 1 <= String.length s <= 50.
Proof.
  rewrite ChainFacts.accepts_passes. simpl.
  rewrite !andb_true_iff, isLength_spec. split.
  - intros [[H _]|(H1 & H2 & _)]; [discriminate |].
    destruct v as [s|]; [|simpl in H2; lia].
    exists s. auto.
  - intros (s & -> & Hl). right. simpl.
    split; [destruct s; [simpl in Hl; lia | reflexivity] | auto].
Qed.

Lemma accepts_absent_twitter_username :
  accepts validate_twitter_username None = true.
Proof. reflexivity. Qed.

End ValidationFacts.

(** ** Field validation of the registration route *)

Module RegistrationFields.

Import ExpressValidator Http Users.

Lemma reports_app (p : string) (l1 l2 : list ValidationError) :
  reports p (l1 ++ l2) = reports p l1 || reports p l2.
Proof. unfold reports. apply existsb_app. Qed.

Lemma reports_same_path (p f : string) (errors : list ValidationError) :
  Forall (fun e => path e = f) errors ->
  reports p errors = String.eqb f p && negb (is_nil errors).
Proof.
  unfold reports. induction 1 as [|e errors He _ IH]; simpl.
  - now rewrite andb_false_r.
  - rewrite He, IH, andb_true_r.
    destruct (String.eqb f p); reflexivity.
Qed.

Lemma reports_run (p : string) (c : chain) (v : option string) :
  reports p (snd (run c v)) =
    String.eqb (field c) p && negb (accepts c v).
Proof.
  assert (Hn : accepts c v = is_nil (snd (run c v)))
    by (unfold accepts; destruct (snd (run c v)); reflexivity).
  rewrite Hn. apply reports_same_path.
  unfold run. destruct (optional c), v; simpl;
    try apply ChainFacts.run_steps_path. constructor.
Qed.

(** The errors of a registration name a field exactly when its chain
    rejects the submitted value. *)
Lemma reports_registration (p : string) (b : Fields) :
  reports p (snd (validate validateRegistration b)) =
    (String.eqb "twitter_id" p
       && negb (accepts validate_twitter_id (b !! "twitter_id")))
    || (String.eqb "twitter_username" p
          && negb (accepts validate_twitter_username (b !! "twitter_username")))
    || (String.eqb "telegram_username" p
          && negb (accepts validate_telegram_username (b !! "telegram_username")))
    || (String.eqb "wallet_address" p
          && negb (accepts validate_wallet_address (b !! "wallet_address"))).
Proof.
  rewrite ValidationFacts.validate_registration. unfold snd at 1.
  rewrite !reports_app, !reports_run, !orb_assoc. reflexivity.
Qed.

Lemma chars_app (s1 s2 : string) :
  Js.chars (s1 +:+ s2) = Js.chars s1 ++ Js.chars s2.
Proof. induction s1 as [|c s1 IH]; simpl; [reflexivity | now rewrite IH]. Qed.

Lemma chars_length (s : string) : length (Js.chars s) = String.length s.
Proof. induction s as [|c s IH]; simpl; [reflexivity | now rewrite IH]. Qed.

Lemma chars_drop (n : nat) (s : string) :
  Js.chars (Js.drop n s) = skipn n (Js.chars s).
Proof.
  revert s. induction n as [|n IH]; intros [|c s]; simpl; auto.
Qed.

End RegistrationFields.

(** ** Claims on field validation *)

Module FieldClaims.

Import ExpressValidator Http Users.

(** C5. The wallet-address chain of the registration route accepts a
    submitted value exactly when it has 42 characters, [0x] followed by 40
    hex digits, and the errors of a registration name [wallet_address] for
    every other value; in particular every string of 41 or of 43 characters
    is rejected, and so is every string of 42 characters with a character
    after the first two that is not a hex digit.  An absent value is
    rejected. *)
Theorem wallet_address_validation (s : string) :
  (accepts validate_wallet_address (Some s) = true <-> Spec.wallet_form s)
  /\ accepts validate_wallet_address None = false
  /\ (forall b : Fields,
        b !! "wallet_address" = Some s ->
        reports "wallet_address" (snd (validate validateRegistration b))
        = negb (accepts validate_wallet_address (Some s)))
  /\ (String.length s = 41 \/ String.length s = 43 ->
      accepts validate_wallet_address (Some s) = false)
  /\ (String.length s = 42 ->
      (exists c, In c (Js.chars (Js.drop 2 s)) /\ ~ Spec.hex_digit c) ->
      accepts validate_wallet_address (Some s) = false).
Proof.
  assert (Hiff : accepts validate_wallet_address (Some s) = true
                 <-> Spec.wallet_form s).
  { rewrite ValidationFacts.accepts_wallet_address. split.
    - intros (s' & E & H). now injection E as ->.
    - intros H. now exists s. }
  split; [exact Hiff |]. split; [reflexivity |]. split; [| split].
  - intros b Hb. rewrite RegistrationFields.reports_registration, Hb. reflexivity.
  - intros Hl. apply not_true_is_false. intros H.
    apply Hiff in H as [H _]. lia.
  - intros _ (c & Hc & Hn). apply not_true_is_false. intros H.
    apply Hiff in H as (_ & t & -> & Ht).
    simpl in Hc. rewrite List.Forall_forall in Ht. auto.
Qed.

Lemma wallet_address_validation_witness :
  accepts validate_wallet_address (Some Samples.wallet_a) = true
  /\ accepts validate_wallet_address (Some ("0x" +:+ Js.repeat "a" 39)) = false
  /\ accepts validate_wallet_address (Some ("0x" +:+ Js.repeat "g" 40)) = false.
Proof.
  split; [| split].
  - apply (proj1 (wallet_address_validation Samples.wallet_a)).
    split; [reflexivity |].
    exists (Js.repeat "a" 40). split; [reflexivity |].
    apply List.Forall_forall. intros c Hc.
    assert (c = "a"%char) as ->
      by (vm_compute in Hc; repeat (destruct Hc as [Hc|Hc]; [now symmetry |]); contradiction).
    vm_compute. tauto.
  - apply (proj1 (proj2 (proj2 (proj2 (wallet_address_validation _))))).
    left. reflexivity.
  - apply (proj2 (proj2 (proj2 (proj2 (wallet_address_validation _))))).
    + reflexivity.
    + exists "g"%char. split; [vm_compute; tauto |].
      vm_compute. intros H. repeat (destruct H as [H|H]; [discriminate H |]). exact H.
Defined.

(** C6, as stated, fails: the identifier chain accepts [-1] and [1.5],
    which hold a character that is not a digit, and a registration with
    such an identifier is stored. *)
Lemma twitter_id_sign_accepted :
  accepts validate_twitter_id (Some "-1") = true
  /\ accepts validate_twitter_id (Some "1.5") = true
  /\ ~ Spec.digits_only "-1"
  /\ ~ Spec.digits_only "1.5"
  /\ exists row,
       snd (register 0 Pg.empty (Samples.registration "-1" "alice" Samples.wallet_a))
       = json (json_user "User registered successfully" row)
       /\ Pg.twitter_id row = "-1".
Proof.
  repeat split; try reflexivity.
  - intros [_ H]. inversion H as [|? ? Hc _]; subst.
    vm_compute in Hc. repeat (destruct Hc as [Hc|Hc]; [discriminate Hc |]). exact Hc.
  - intros [_ H]. inversion H as [|? ? _ H']; subst.
    inversion H' as [|? ? Hc _]; subst.
    vm_compute in Hc. repeat (destruct Hc as [Hc|Hc]; [discriminate Hc |]). exact Hc.
  - eexists. split; reflexivity.
Qed.

(** C6, amended. The identifier chain accepts exactly the strings of 1 to
    20 characters that [isNumeric] takes for a number: an optional sign,
    optionally digits and a decimal point, then at least one digit.  Every
    string of 1 to 20 digits is accepted; an accepted string holds nothing
    but digits, [+], [-] and [.]; [abc123] is rejected and the 15 digits
    [123456789012345] are accepted.  An absent value is rejected. *)
Theorem twitter_id_validation (s : string) :
  (accepts validate_twitter_id (Some s) = true <->
   1 <= String.length s <= 20 /\ Spec.numeric_form s)
  /\ (Spec.digits_only s -> accepts validate_twitter_id (Some s) = true)
  /\ (accepts validate_twitter_id (Some s) = true ->
      Forall (fun c => Spec.decimal_digit c \/ c = "+"%char \/ c = "-"%char
                       \/ c = "."%char) (Js.chars s))
  /\ accepts validate_twitter_id (Some "abc123") = false
  /\ accepts validate_twitter_id (Some "123456789012345") = true
  /\ accepts validate_twitter_id None = false.
Proof.
  assert (Hiff : accepts validate_twitter_id (Some s) = true <->
                 1 <= String.length s <= 20 /\ Spec.numeric_form s).
  { rewrite ValidationFacts.accepts_twitter_id. split.
    - intros (s' & E & H). now injection E as ->.
    - intros H. now exists s. }
  split; [exact Hiff |]. repeat split; try reflexivity.
  - intros [Hl Hd]. apply Hiff. split; [assumption |].
    exists "", "", s. repeat split; auto.
    intros ->. simpl in Hl. lia.
  - intros H. apply Hiff in H as (_ & sgn & int & frac & -> & Hs & Hi & _ & Hf).
    rewrite !RegistrationFields.chars_app, !Forall_app. repeat split.
    + destruct Hs as [->|[->| ->]]; simpl;
        [constructor | constructor; [auto | constructor]
        | constructor; [auto | constructor]].
    + destruct Hi as [->|(d & -> & Hd)]; [constructor |].
      rewrite RegistrationFields.chars_app, Forall_app. split.
      * eapply List.Forall_impl; [| exact Hd]. intros c Hc. simpl. auto.
      * simpl. constructor; [auto | constructor].
    + eapply List.Forall_impl; [| exact Hf]. intros c Hc. simpl. auto.
Qed.

Lemma twitter_id_validation_witness :
  accepts validate_twitter_id (Some "42") = true
  /\ Forall (fun c => Spec.decimal_digit c \/ c = "+"%char \/ c = "-"%char
                      \/ c = "."%char) (Js.chars "-1").
Proof.
  split.
  - apply (proj1 (proj2 (twitter_id_validation "42"))).
    split; [simpl; lia |].
    repeat constructor; vm_compute; tauto.
  - apply (proj1 (proj2 (proj2 (twitter_id_validation "-1")))).
    reflexivity.
Defined.

End FieldClaims.

(** ** The table *)

Module PgFacts.

Import Pg.

Lemma insert_desc_perm (r : Row) (l : list Row) :
  Permutation (insert_desc r l) (r :: l).
Proof.
  induction l as [|x l IH]; simpl.
  - apply Permutation_refl.
  - destruct (created_at x <? created_at r)%Z.
    + apply Permutation_refl.
    + apply Permutation_trans with (x :: r :: l).
      * now apply perm_skip.
      * apply perm_swap.
Qed.

(** The listing query returns the rows of the table, all of them and
    nothing else. *)
Lemma select_all_desc_perm (db : Db) :
  Permutation (select_all_desc db) (user_profiles db).
Proof.
  unfold select_all_desc.
  induction (user_profiles db) as [|r l IH]; simpl.
  - apply Permutation_refl.
  - apply Permutation_trans with (r :: fold_right insert_desc [] l).
    + apply insert_desc_perm.
    + now apply perm_skip.
Qed.

Lemma insert_desc_sorted (r : Row) (l : list Row) :
  StronglySorted Spec.newer_or_equal l ->
  StronglySorted Spec.newer_or_equal (insert_desc r l).
Proof.
  induction 1 as [|x l Hs IH Hx]; simpl.
  - repeat constructor.
  - destruct (created_at x <? created_at r)%Z eqn:E.
    + apply Z.ltb_lt in E. constructor; [now constructor |].
      constructor; [unfold Spec.newer_or_equal; lia |].
      eapply List.Forall_impl; [| exact Hx].
      unfold Spec.newer_or_equal. intros y Hy. lia.
    + apply Z.ltb_ge in E. constructor; [assumption |].
      apply (Permutation_Forall (Permutation_sym (insert_desc_perm r l))).
      constructor; [exact E | exact Hx].
Qed.

Lemma select_all_desc_sorted (db : Db) :
  StronglySorted Spec.newer_or_equal (select_all_desc db).
Proof.
  unfold select_all_desc.
  induction (user_profiles db) as [|r l IH]; simpl.
  - constructor.
  - now apply insert_desc_sorted.
Qed.

Lemma db_alice_eq : Samples.db_alice = mkDb [Samples.alice_row] 2.
Proof. vm_compute. reflexivity. Qed.

Lemma eq_param_true (column : string) (param : option string) :
  eq_param column param = true <-> param = Some column.
Proof.
  unfold eq_param. destruct param as [s|]; [|split; discriminate].
  rewrite String.eqb_eq. split; congruence.
Qed.

Lemma filter_nil {A : Type} (f : A -> bool) (l : list A) :
  List.filter f l = [] <-> forall x, In x l -> f x = false.
Proof.
  induction l as [|a l IH]; simpl.
  - split; [intros _ x [] | reflexivity].
  - destruct (f a) eqn:E.
    + split; [discriminate |]. intros H. specialize (H a (or_introl eq_refl)). congruence.
    + rewrite IH. split.
      * intros H x [<-|Hx]; auto.
      * intros H x Hx. apply H. now right.
Qed.

Lemma bind_params_none (params : list (option string)) :
  bind_params params = None <->
  forall s, In (Some s) params -> has_nul s = false.
Proof.
  unfold bind_params.
  destruct (existsb _ params) eqn:E.
  - split; [discriminate |]. intros H.
    apply existsb_exists in E as ([s|] & Hin & Hs); [| discriminate].
    rewrite (H s Hin) in Hs. discriminate.
  - split; [| reflexivity]. intros _ s Hin.
    destruct (has_nul s) eqn:Hs; [| reflexivity].
    enough (existsb (fun p => match p with
                              | Some s0 => has_nul s0
                              | None => false
                              end) params = true) by congruence.
    apply existsb_exists. now exists (Some s).
Qed.

Lemma bind_params_some (params : list (option string)) (e : Error) :
  bind_params params = Some e -> e = character_not_in_repertoire.
Proof.
  unfold bind_params. destruct (existsb _ params); congruence.
Qed.

Lemma has_nul_free (s : string) : has_nul s = false <-> Spec.nul_free s.
Proof.
  unfold has_nul, Spec.nul_free. induction s as [|c s IH].
  - split; [intros _ [] | reflexivity].
  - change (Js.has (Js.is_char Ascii.zero) (String c s))
      with (Ascii.eqb Ascii.zero c || Js.has (Js.is_char Ascii.zero) s).
    change (Js.chars (String c s)) with (c :: Js.chars s).
    rewrite orb_false_iff, IH. split.
    + intros [Hc Hs] [E|Hin]; [| now apply Hs].
      subst c. now rewrite Ascii.eqb_refl in Hc.
    + intros H. split.
      * destruct (Ascii.eqb Ascii.zero c) eqn:E; [| reflexivity].
        apply Ascii.eqb_eq in E. destruct H. now left.
      * intros Hin. apply H. now right.
Qed.

(** The part of the table the SELECT keeps. *)
Lemma select_existing_found (db : Db) (i t w : string) :
  has_nul i || has_nul t || has_nul w = false ->
  exists found,
    select_existing db (Some i) (Some t) (Some w) = inr found
    /\ forall r, In r found <->
                 In r (user_profiles db) /\ Spec.shares_field i t w r.
Proof.
  intros Hn. apply orb_false_elim in Hn as [Hn Hw].
  apply orb_false_elim in Hn as [Hi Ht].
  unfold select_existing.
  assert (B : bind_params [Some i; Some t; Some w] = None).
  { apply bind_params_none. intros s [[= <-]|[[= <-]|[[= <-]|[]]]]; assumption. }
  rewrite B. eexists. split; [reflexivity |].
  intros r. rewrite filter_In, !orb_true_iff, !eq_param_true.
  unfold Spec.shares_field.
  split; (intros [Hr H]; split; [exact Hr |]);
    destruct H as [[H|H]|H] || destruct H as [H|[H|H]];
    (injection H as H || idtac); auto; subst; auto.
Qed.

Lemma select_existing_nil (db : Db) (i t w : string) :
  has_nul i || has_nul t || has_nul w = false ->
  (forall r, In r (user_profiles db) -> ~ Spec.shares_field i t w r) ->
  select_existing db (Some i) (Some t) (Some w) = inr [].
Proof.
  intros Hn Hfree.
  destruct (select_existing_found db i t w Hn) as (found & E & Hf).
  rewrite E. f_equal. destruct found as [|x l]; [reflexivity |].
  destruct (proj1 (Hf x) (or_introl eq_refl)) as [Hx Hs].
  destruct (Hfree x Hx Hs).
Qed.

(** Text holding the code unit 0 makes the SELECT fail. *)
Lemma select_existing_refused (db : Db) (i t w : string) :
  has_nul i || has_nul t || has_nul w = true ->
  select_existing db (Some i) (Some t) (Some w)
  = inl character_not_in_repertoire.
Proof.
  intros Hn. unfold select_existing, bind_params. simpl existsb.
  rewrite orb_false_r, orb_assoc, Hn. reflexivity.
Qed.

Lemma violated_constraint_none (rows : list Row) (r : Row) :
  violated_constraint rows r = None <->
  forall x, In x rows ->
            ~ Spec.shares_field (twitter_id r) (telegram_username r) (wallet_address r) x.
Proof.
  unfold violated_constraint, Spec.shares_field.
  destruct (existsb (fun x => String.eqb (twitter_id x) (twitter_id r)) rows) eqn:E1;
    [| destruct (existsb (fun x => String.eqb (telegram_username x) (telegram_username r))
                   rows) eqn:E2;
       [| destruct (existsb (fun x => String.eqb (wallet_address x) (wallet_address r))
                      rows) eqn:E3 ] ].
  1-3: split; [discriminate |]; intros H; exfalso.
  1-3: match goal with E : existsb _ _ = true |- _ =>
         apply existsb_exists in E as (x & Hx & E); apply String.eqb_eq in E;
         apply (H x Hx); auto end.
  split; [| reflexivity]. intros _ x Hx [F|[F|F]].
  - assert (existsb (fun x => String.eqb (twitter_id x) (twitter_id r)) rows = true);
      [| congruence].
    apply existsb_exists. exists x. split; [assumption | now apply String.eqb_eq].
  - assert (existsb (fun x => String.eqb (telegram_username x) (telegram_username r)) rows
            = true); [| congruence].
    apply existsb_exists. exists x. split; [assumption | now apply String.eqb_eq].
  - assert (existsb (fun x => String.eqb (wallet_address x) (wallet_address r)) rows
            = true); [| congruence].
    apply existsb_exists. exists x. split; [assumption | now apply String.eqb_eq].
Qed.

Lemma varchar_fits (n : nat) (s : string) :
  String.length s <= n -> varchar n s = inr s.
Proof.
  intros H. unfold varchar. apply Nat.leb_le in H. now rewrite H.
Qed.

Lemma varchar_null_fits (n : nat) (v : option string) :
  (forall s, v = Some s -> String.length s <= n) -> varchar_null n v = inr v.
Proof.
  intros H. destruct v as [s|]; simpl; [| reflexivity].
  now rewrite varchar_fits by auto.
Qed.

(** An insert that violates no constraint stores one row, with the next id
    and the time of the statement in both timestamps. *)
Lemma insert_user_profile_ok (now : Z) (db : Db) (i t w : string)
    (u n : option string) :
  bind_params [Some i; u; n; Some t; Some w] = None ->
  String.length i <= 100 -> String.length t <= 100 -> String.length w <= 42 ->
  (forall s, u = Some s -> String.length s <= 100) ->
  (forall s, n = Some s -> String.length s <= 200) ->
  (forall x, In x (user_profiles db) -> ~ Spec.shares_field i t w x) ->
  insert_user_profile now db (Some i) u n (Some t) (Some w) =
    (mkDb (user_profiles db
             ++ [mkRow (user_profiles_id_seq db) w i u n t now now])
          (S (user_profiles_id_seq db)),
     inr (mkRow (user_profiles_id_seq db) w i u n t now now)).
Proof.
  intros Hb Hi Ht Hw Hu Hn Hfree. unfold insert_user_profile. rewrite Hb.
  rewrite (varchar_null_fits 42 (Some w)) by (intros ? [= <-]; exact Hw).
  rewrite (varchar_null_fits 100 (Some i)) by (intros ? [= <-]; exact Hi).
  rewrite (varchar_null_fits 100 u Hu), (varchar_null_fits 200 n Hn).
  rewrite (varchar_null_fits 100 (Some t)) by (intros ? [= <-]; exact Ht).
  simpl not_null. cbv iota zeta.
  assert (Ev : violated_constraint (user_profiles db)
                 (mkRow (user_profiles_id_seq db) w i u n t now now) = None)
    by (apply violated_constraint_none; exact Hfree).
  now rewrite Ev.
Qed.

(** Whatever the outcome, a failed insert leaves the rows as they were. *)
Lemma insert_user_profile_failed (now : Z) (db db' : Db)
    (p1 p2 p3 p4 p5 : option string) (e : Error) :
  insert_user_profile now db p1 p2 p3 p4 p5 = (db', inl e) ->
  user_profiles db' = user_profiles db.
Proof.
  unfold insert_user_profile.
  destruct (bind_params _); [intros [= <- _]; reflexivity |].
  destruct (varchar_null 42 p5); [intros [= <- _]; reflexivity |].
  destruct (varchar_null 100 p1); [intros [= <- _]; reflexivity |].
  destruct (varchar_null 100 p2); [intros [= <- _]; reflexivity |].
  destruct (varchar_null 200 p3); [intros [= <- _]; reflexivity |].
  destruct (varchar_null 100 p4); [intros [= <- _]; reflexivity |].
  destruct (not_null "wallet_address" _); [intros [= <- _]; reflexivity |].
  destruct (not_null "twitter_id" _); [intros [= <- _]; reflexivity |].
  destruct (not_null "telegram_username" _); [intros [= <- _]; reflexivity |].
  destruct (violated_constraint _ _); [intros [= <- _]; reflexivity | discriminate].
Qed.

(** A successful insert adds the returned row at the end. *)
Lemma insert_user_profile_stored (now : Z) (db db' : Db)
    (p1 p2 p3 p4 p5 : option string) (r : Row) :
  insert_user_profile now db p1 p2 p3 p4 p5 = (db', inr r) ->
  db' = mkDb (user_profiles db ++ [r]) (S (user_profiles_id_seq db)).
Proof.
  unfold insert_user_profile.
  destruct (bind_params _); [discriminate |].
  destruct (varchar_null 42 p5); [discriminate |].
  destruct (varchar_null 100 p1); [discriminate |].
  destruct (varchar_null 100 p2); [discriminate |].
  destruct (varchar_null 200 p3); [discriminate |].
  destruct (varchar_null 100 p4); [discriminate |].
  destruct (not_null "wallet_address" _); [discriminate |].
  destruct (not_null "twitter_id" _); [discriminate |].
  destruct (not_null "telegram_username" _); [discriminate |].
  destruct (violated_constraint _ _); [discriminate |].
  now intros [= <- <-].
Qed.

(** Text holding the code unit 0 makes the INSERT fail before anything
    is drawn or stored. *)
Lemma insert_user_profile_refused (now : Z) (db : Db)
    (p1 p2 p3 p4 p5 : option string) (e : Error) :
  bind_params [p1; p2; p3; p4; p5] = Some e ->
  insert_user_profile now db p1 p2 p3 p4 p5
  = (db, inl character_not_in_repertoire).
Proof.
  intros H. unfold insert_user_profile. rewrite H.
  now rewrite (bind_params_some _ _ H).
Qed.

End PgFacts.

(** ** The registration handler *)

Module RegisterFacts.

Import ExpressValidator Http Users.

Lemma ltrim_length (s : string) : String.length (Js.ltrim s) <= String.length s.
Proof.
  induction s as [|c s IH]; simpl; [lia |].
  destruct (Js.is_space c); simpl; lia.
Qed.

Lemma rtrim_length (s : string) : String.length (Js.rtrim s) <= String.length s.
Proof.
  induction s as [|c s IH]; simpl; [lia |].
  destruct (Js.rtrim s); [destruct (Js.is_space c) |]; simpl in *; lia.
Qed.

Lemma trim_length (s : string) :
  String.length (Validator.trim s) <= String.length s.
Proof.
  unfold Validator.trim.
  pose proof (rtrim_length (Js.ltrim s)). pose proof (ltrim_length s). lia.
Qed.

(** The handler, read off after the chains have run: the body it
    destructures is the submitted one with the chat handle trimmed. *)
Lemma register_with_eq (interleave : Pg.Db -> Pg.Db) (now : Z) (db : Pg.Db)
    (b : Fields) :
  register_with interleave now db b =
    let errors := snd (validate validateRegistration b) in
    let twitter_id := b !! "twitter_id" in
    let telegram_username :=
      option_map Validator.trim (b !! "telegram_username") in
    let wallet_address := b !! "wallet_address" in
    if negb (is_nil errors) then (db, Taxonomy.ValidationFailed errors)
    else if Js.falsy twitter_id || Js.falsy telegram_username
            || Js.falsy wallet_address
    then (db, Taxonomy.MissingRequiredFields)
    else
      match Pg.select_existing db twitter_id telegram_username wallet_address
      with
      | inl error => (db, register_catch error)
      | inr existingUser =>
          if 0 <? length existingUser then (db, Taxonomy.AlreadyRegistered)
          else
            match Pg.insert_user_profile now (interleave db) twitter_id
                    (b !! "twitter_username") (b !! "twitter_name")
                    telegram_username wallet_address
            with
            | (db', inr row) =>
                (db', json (json_user "User registered successfully" row))
            | (db', inl error) => (db', register_catch error)
            end
      end.
Proof.
  unfold register_with. rewrite ValidationFacts.validate_registration.
  cbv zeta. unfold snd at 1.
  destruct (b !! "telegram_username") as [t|] eqn:Ht; simpl option_map.
  - rewrite lookup_insert_eq, !lookup_insert_ne by discriminate. reflexivity.
  - rewrite Ht. reflexivity.
Qed.

Lemma accepts_twitter_username_length (v : option string) :
  accepts validate_twitter_username v = true ->
  forall s, v = Some s -> String.length s <= 25.
Proof.
  intros H s ->. apply ChainFacts.accepts_passes in H as [[_ H]|H]; [discriminate |].
  simpl in H. apply andb_true_iff in H as [H _].
  apply ValidationFacts.isLength_spec in H. lia.
Qed.

Lemma accepts_is_nil (c : chain) (v : option string) :
  accepts c v = true <-> snd (run c v) = [].
Proof.
  unfold accepts. destruct (snd (run c v)); split; (reflexivity || discriminate).
Qed.

(** No error is listed exactly when every chain accepts its field. *)
Lemma registration_valid (b : Fields) :
  snd (validate validateRegistration b) = [] <->
  accepts validate_twitter_id (b !! "twitter_id") = true
  /\ accepts validate_twitter_username (b !! "twitter_username") = true
  /\ accepts validate_telegram_username (b !! "telegram_username") = true
  /\ accepts validate_wallet_address (b !! "wallet_address") = true.
Proof.
  rewrite ValidationFacts.validate_registration. unfold snd at 1.
  rewrite !accepts_is_nil. split.
  - intros H. apply app_eq_nil in H as [H1 H].
    apply app_eq_nil in H as [H2 H]. apply app_eq_nil in H as [H3 H4]. auto.
  - intros (-> & -> & -> & ->). reflexivity.
Qed.

(** The three required fields of a registration without errors. *)
Lemma registration_valid_fields (b : Fields) (i t w : string) :
  b !! "twitter_id" = Some i ->
  b !! "telegram_username" = Some t ->
  b !! "wallet_address" = Some w ->
  snd (validate validateRegistration b) = [] ->
  1 <= String.length i <= 20 /\ 1 <= String.length t <= 50
  /\ String.length w = 42
  /\ forall u, b !! "twitter_username" = Some u -> String.length u <= 25.
Proof.
  intros Hi Ht Hw H. apply registration_valid in H as (H1 & H2 & H3 & H4).
  rewrite Hi in H1. rewrite Ht in H3. rewrite Hw in H4.
  apply ValidationFacts.accepts_twitter_id in H1 as (? & [= <-] & H1 & _).
  apply ValidationFacts.accepts_telegram_username in H3 as (? & [= <-] & H3).
  apply ValidationFacts.accepts_wallet_address in H4 as (? & [= <-] & H4 & _).
  repeat split; try lia.
  now apply accepts_twitter_username_length.
Qed.

Lemma falsy_Some (s : string) : Js.falsy (Some s) = false <-> s <> "".
Proof. destruct s; simpl; split; congruence. Qed.

(** *** Text the storage layer takes *)

Lemma has_step (p : ascii -> bool) (c : ascii) (s : string) :
  Js.has p (String c s) = p c || Js.has p s.
Proof. reflexivity. Qed.

Lemma has_ltrim (p : ascii -> bool) (s : string) :
  Js.has p s = false -> Js.has p (Js.ltrim s) = false.
Proof.
  induction s as [|c s IH]; [reflexivity |].
  rewrite has_step. intros H. apply orb_false_elim in H as [Hc Hs].
  change (Js.ltrim (String c s))
    with (if Js.is_space c then Js.ltrim s else String c s).
  destruct (Js.is_space c); [now apply IH |].
  now rewrite has_step, Hc, Hs.
Qed.

Lemma has_rtrim (p : ascii -> bool) (s : string) :
  Js.has p s = false -> Js.has p (Js.rtrim s) = false.
Proof.
  induction s as [|c s IH]; [reflexivity |].
  rewrite has_step. intros H. apply orb_false_elim in H as [Hc Hs].
  specialize (IH Hs).
  change (Js.rtrim (String c s))
    with (match Js.rtrim s with
          | EmptyString =>
              if Js.is_space c then EmptyString else String c EmptyString
          | r => String c r
          end).
  destruct (Js.rtrim s) as [|c' r].
  - destruct (Js.is_space c); [reflexivity |].
    now rewrite has_step, Hc.
  - now rewrite has_step, Hc, IH.
Qed.

Lemma has_nul_trim (t : string) :
  Pg.has_nul t = false -> Pg.has_nul (Validator.trim t) = false.
Proof.
  unfold Pg.has_nul, Validator.trim. intros H.
  now apply has_rtrim, has_ltrim.
Qed.

Lemma nul_free_app (s1 s2 : string) :
  Spec.nul_free s1 -> Spec.nul_free s2 -> Spec.nul_free (s1 +:+ s2).
Proof.
  unfold Spec.nul_free. rewrite RegistrationFields.chars_app, in_app_iff. tauto.
Qed.

Lemma nul_free_Forall (P : ascii -> Prop) (s : string) :
  ~ P Ascii.zero -> Forall P (Js.chars s) -> Spec.nul_free s.
Proof.
  intros HP H Hin. apply HP.
  exact (proj1 (List.Forall_forall P (Js.chars s)) H _ Hin).
Qed.

Lemma decimal_digit_zero : ~ Spec.decimal_digit Ascii.zero.
Proof.
  unfold Spec.decimal_digit. simpl. intros H.
  repeat (destruct H as [H|H]; [discriminate H |]). exact H.
Qed.

Lemma hex_digit_zero : ~ Spec.hex_digit Ascii.zero.
Proof.
  unfold Spec.hex_digit. simpl. intros H.
  repeat (destruct H as [H|H]; [discriminate H |]). exact H.
Qed.

Lemma numeric_form_nul_free (s : string) :
  Spec.numeric_form s -> Spec.nul_free s.
Proof.
  intros (sgn & int & frac & -> & Hs & Hi & _ & Hf).
  repeat apply nul_free_app.
  - destruct Hs as [-> | [-> | ->]]; simpl; intros H;
      repeat (destruct H as [H|H]; [discriminate H |]); exact H.
  - destruct Hi as [->|(d & -> & Hd)]; [intros [] |].
    apply nul_free_app.
    + exact (nul_free_Forall _ _ decimal_digit_zero Hd).
    + simpl. intros [H|[]]. discriminate H.
  - exact (nul_free_Forall _ _ decimal_digit_zero Hf).
Qed.

Lemma wallet_form_nul_free (s : string) :
  Spec.wallet_form s -> Spec.nul_free s.
Proof.
  intros (_ & t & -> & Ht). apply nul_free_app.
  - simpl. intros [H|[H|[]]]; discriminate H.
  - exact (nul_free_Forall _ _ hex_digit_zero Ht).
Qed.

Lemma all_excludes (p q : ascii -> bool) (s : string) :
  (forall c, p c = true -> q c = false) ->
  Js.all p s = true -> Js.has q s = false.
Proof.
  intros Hpq. induction s as [|c s IH]; [reflexivity |].
  change (Js.all p (String c s)) with (p c && Js.all p s).
  rewrite has_step. intros H. apply andb_prop in H as [Hc Hs].
  now rewrite (Hpq c Hc), (IH Hs).
Qed.

Lemma accepts_twitter_username_nul (v : option string) :
  accepts validate_twitter_username v = true ->
  forall s, v = Some s -> Pg.has_nul s = false.
Proof.
  intros H s ->. apply ChainFacts.accepts_passes in H as [[_ H]|H]; [discriminate |].
  simpl in H. rewrite !andb_true_iff in H. destruct H as (_ & Hm & _).
  unfold Validator.matches, username_pattern in Hm.
  apply RegexFacts.test_lang, RegexFacts.lang_plus_class in Hm as [_ Hm].
  apply (all_excludes word_char (Js.is_char Ascii.zero) s); [| exact Hm].
  intros c Hc. unfold Js.is_char.
  destruct (Ascii.eqb Ascii.zero c) eqn:E; [| reflexivity].
  apply Ascii.eqb_eq in E. subst c. discriminate Hc.
Qed.

(** The fields the chains check by a pattern hold no code unit 0. *)
Lemma registration_valid_nul (b : Fields) (i t w : string) :
  b !! "twitter_id" = Some i ->
  b !! "telegram_username" = Some t ->
  b !! "wallet_address" = Some w ->
  snd (validate validateRegistration b) = [] ->
  Pg.has_nul i = false /\ Pg.has_nul w = false
  /\ forall u, b !! "twitter_username" = Some u -> Pg.has_nul u = false.
Proof.
  intros Hi Ht Hw H. apply registration_valid in H as (H1 & H2 & H3 & H4).
  rewrite Hi in H1. rewrite Hw in H4.
  apply ValidationFacts.accepts_twitter_id in H1 as (? & [= <-] & _ & H1).
  apply ValidationFacts.accepts_wallet_address in H4 as (? & [= <-] & H4).
  split; [apply PgFacts.has_nul_free; now apply numeric_form_nul_free |].
  split; [apply PgFacts.has_nul_free; now apply wallet_form_nul_free |].
  now apply accepts_twitter_username_nul.
Qed.

(** A request past the chains and the guard, with a chat handle the
    storage layer takes: the SELECT runs, and the answer follows what it
    finds. *)
Lemma register_with_selected (interleave : Pg.Db -> Pg.Db) (now : Z)
    (db : Pg.Db) (b : Fields) (i t w : string) :
  b !! "twitter_id" = Some i ->
  b !! "telegram_username" = Some t ->
  b !! "wallet_address" = Some w ->
  snd (validate validateRegistration b) = [] ->
  Validator.trim t <> "" ->
  Pg.has_nul (Validator.trim t) = false ->
  exists found : list Pg.Row,
    (forall r, In r found <->
               In r (Pg.user_profiles db)
               /\ Spec.shares_field i (Validator.trim t) w r)
    /\ register_with interleave now db b =
       if 0 <? length found then (db, Taxonomy.AlreadyRegistered)
       else
         match Pg.insert_user_profile now (interleave db) (Some i)
                 (b !! "twitter_username") (b !! "twitter_name")
                 (Some (Validator.trim t)) (Some w)
         with
         | (db', inr row) =>
             (db', json (json_user "User registered successfully" row))
         | (db', inl error) => (db', register_catch error)
         end.
Proof.
  intros Hi Ht Hw Hv Hne Hnul.
  destruct (registration_valid_fields b i t w Hi Ht Hw Hv)
    as (Hli & Hlt & Hlw & Hlu).
  destruct (registration_valid_nul b i t w Hi Ht Hw Hv) as (Hni & Hnw & _).
  assert (F : Js.falsy (Some i) || Js.falsy (Some (Validator.trim t))
              || Js.falsy (Some w) = false).
  { rewrite !orb_false_iff. repeat split; apply falsy_Some;
      [intros -> | assumption | intros ->]; simpl in *; lia. }
  assert (N : Pg.has_nul i || Pg.has_nul (Validator.trim t) || Pg.has_nul w
              = false) by now rewrite Hni, Hnul, Hnw.
  destruct (PgFacts.select_existing_found db i (Validator.trim t) w N)
    as (found & E & Hf).
  exists found. split; [exact Hf |].
  rewrite register_with_eq. cbv zeta.
  rewrite Hv, Hi, Ht, Hw. simpl option_map. simpl is_nil. simpl negb.
  cbv iota. rewrite F, E. reflexivity.
Qed.

(** A chat handle that holds the code unit 0 stops the request at the
    SELECT. *)
Lemma register_with_refused (interleave : Pg.Db -> Pg.Db) (now : Z)
    (db : Pg.Db) (b : Fields) (i t w : string) :
  b !! "twitter_id" = Some i ->
  b !! "telegram_username" = Some t ->
  b !! "wallet_address" = Some w ->
  snd (validate validateRegistration b) = [] ->
  Validator.trim t <> "" ->
  Pg.has_nul (Validator.trim t) = true ->
  register_with interleave now db b
  = (db, status_json 500
           (json_error (Pg.message Pg.character_not_in_repertoire))).
Proof.
  intros Hi Ht Hw Hv Hne Hnul.
  destruct (registration_valid_fields b i t w Hi Ht Hw Hv)
    as (Hli & Hlt & Hlw & Hlu).
  assert (F : Js.falsy (Some i) || Js.falsy (Some (Validator.trim t))
              || Js.falsy (Some w) = false).
  { rewrite !orb_false_iff. repeat split; apply falsy_Some;
      [intros -> | assumption | intros ->]; simpl in *; lia. }
  rewrite register_with_eq. cbv zeta.
  rewrite Hv, Hi, Ht, Hw. simpl option_map. simpl is_nil. simpl negb.
  cbv iota. rewrite F.
  rewrite PgFacts.select_existing_refused
    by (rewrite Hnul, orb_true_r; reflexivity).
  reflexivity.
Qed.

(** No request removes or changes a row: the rows after it are the rows
    before it, followed by at most the one it stored. *)
Lemma register_rows (now : Z) (db : Pg.Db) (b : Fields) :
  exists l, Pg.user_profiles (fst (register now db b))
            = Pg.user_profiles db ++ l.
Proof.
  unfold register. rewrite register_with_eq. cbv zeta.
  destruct (negb _); [exists []; simpl; now rewrite app_nil_r |].
  destruct (_ || _); [exists []; simpl; now rewrite app_nil_r |].
  destruct (Pg.select_existing _ _ _ _) as [e|found];
    [exists []; simpl; now rewrite app_nil_r |].
  destruct (0 <? length found); [exists []; simpl; now rewrite app_nil_r |].
  destruct (Pg.insert_user_profile _ _ _ _ _ _ _) as [db' [e|row]] eqn:E.
  - exists []. simpl. rewrite app_nil_r.
    exact (PgFacts.insert_user_profile_failed _ _ _ _ _ _ _ _ _ E).
  - exists [row]. simpl.
    now rewrite (PgFacts.insert_user_profile_stored _ _ _ _ _ _ _ _ _ E).
Qed.

Lemma later_rows (db db' : Pg.Db) :
  Reach.later db db' ->
  forall r, In r (Pg.user_profiles db) -> In r (Pg.user_profiles db').
Proof.
  induction 1 as [|now db' b H IH]; intros r Hr; [exact Hr |].
  destruct (register_rows now db' b) as [l ->].
  apply in_or_app. left. now apply IH.
Qed.

End RegisterFacts.

(** ** Claims on registration *)

Module RegistrationClaims.

Import ExpressValidator Http Users.

(** C1, as stated, fails on requests that pass the validators and share
    no field with any row: a chat handle of spaces only is stopped by the
    required-fields guard; a display name of 201 characters does not fit
    its column and the insert fails with a 500; a chat handle that differs
    from a stored one by a leading space is stored trimmed, so it is found
    as a duplicate; and a chat handle or a display name that holds the code
    unit 0 is refused by the storage layer, which the handler answers with
    a 500. *)
Lemma valid_registration_rejected :
  (snd (validate validateRegistration Samples.blank_handle) = []
   /\ register 0 Pg.empty Samples.blank_handle
      = (Pg.empty, Taxonomy.MissingRequiredFields))
  /\ (snd (validate validateRegistration Samples.long_name) = []
      /\ snd (register 0 Pg.empty Samples.long_name)
         = status_json 500
             (json_error "value too long for type character varying(200)")
      /\ Pg.user_profiles (fst (register 0 Pg.empty Samples.long_name)) = [])
  /\ (snd (validate validateRegistration Samples.spaced_handle) = []
      /\ (forall r, In r (Pg.user_profiles Samples.db_alice) ->
                    ~ Spec.shares_field "43" " alice" Samples.wallet_b r)
      /\ register 6 Samples.db_alice Samples.spaced_handle
         = (Samples.db_alice, Taxonomy.AlreadyRegistered))
  /\ (snd (validate validateRegistration Samples.nul_handle) = []
      /\ register 0 Pg.empty Samples.nul_handle
         = (Pg.empty,
            status_json 500
              (json_error (Pg.message Pg.character_not_in_repertoire))))
  /\ (snd (validate validateRegistration Samples.nul_name) = []
      /\ register 0 Pg.empty Samples.nul_name
         = (Pg.empty,
            status_json 500
              (json_error (Pg.message Pg.character_not_in_repertoire)))).
Proof.
  repeat split; try (vm_compute; reflexivity).
  rewrite PgFacts.db_alice_eq. simpl Pg.user_profiles.
  intros r [<-|[]] [H|[H|H]]; vm_compute in H; discriminate H.
Qed.

(** C1, amended. A registration that lists no validation error, whose
    chat handle is not empty once trimmed, whose chat handle and display
    name hold no code unit 0, whose display name (when given) has at most
    200 characters, and whose identifier, trimmed chat handle and wallet
    address each differ from those of every stored row, stores exactly one
    new row: the submitted fields with the chat handle trimmed, the next
    id, and the time of the request in both timestamps.  The response is
    the success response carrying that row, and every successful admin
    listing contains it from then on, whatever registration requests are
    served in between. *)
Theorem registration_succeeds (now : Z) (db : Pg.Db) (b : Fields)
    (i t w : string) :
  b !! "twitter_id" = Some i ->
  b !! "telegram_username" = Some t ->
  b !! "wallet_address" = Some w ->
  snd (validate validateRegistration b) = [] ->
  Validator.trim t <> "" ->
  Spec.nul_free t ->
  (forall n, b !! "twitter_name" = Some n ->
             String.length n <= 200 /\ Spec.nul_free n) ->
  (forall r, In r (Pg.user_profiles db) ->
             ~ Spec.shares_field i (Validator.trim t) w r) ->
  let row := Pg.mkRow (Pg.user_profiles_id_seq db) w i
               (b !! "twitter_username") (b !! "twitter_name")
               (Validator.trim t) now now in
  register now db b =
    (Pg.mkDb (Pg.user_profiles db ++ [row]) (S (Pg.user_profiles_id_seq db)),
     json (json_user "User registered successfully" row))
  /\ In row (Pg.select_all_desc (fst (register now db b)))
  /\ forall db',
       Reach.later (fst (register now db b)) db' ->
       forall env credentials listed count message,
         users env db' credentials = json (json_users listed count message) ->
         In row listed.
Proof.
  intros Hi Ht Hw Hv Hne Hnt Hn Hfree row.
  destruct (RegisterFacts.registration_valid_fields b i t w Hi Ht Hw Hv)
    as (Hli & Hlt & Hlw & Hlu).
  destruct (RegisterFacts.registration_valid_nul b i t w Hi Ht Hw Hv)
    as (Hni & Hnw & Hnu).
  assert (Hnt' : Pg.has_nul (Validator.trim t) = false)
    by (apply RegisterFacts.has_nul_trim; now apply PgFacts.has_nul_free).
  assert (E : register now db b =
              (Pg.mkDb (Pg.user_profiles db ++ [row]) (S (Pg.user_profiles_id_seq db)),
               json (json_user "User registered successfully" row))).
  { unfold register.
    destruct (RegisterFacts.register_with_selected (fun d => d) now db b i t w
                Hi Ht Hw Hv Hne Hnt') as (found & Hf & ->).
    destruct found as [|x l];
      [| destruct (proj1 (Hf x) (or_introl eq_refl)) as [Hx Hs];
         destruct (Hfree x Hx Hs)].
    simpl Nat.ltb. cbv iota.
    rewrite PgFacts.insert_user_profile_ok; try assumption; try lia;
      try reflexivity.
    - apply PgFacts.bind_params_none.
      intros s [[= <-]|[Hs|[Hs|[[= <-]|[[= <-]|[]]]]]]; try assumption.
      + now apply Hnu.
      + apply PgFacts.has_nul_free. now apply Hn.
    - pose proof (RegisterFacts.trim_length t). lia.
    - intros s Hs. specialize (Hlu s Hs). lia.
    - intros s Hs. now apply Hn. }
  split; [exact E |]. rewrite E. simpl fst.
  set (db1 := Pg.mkDb (Pg.user_profiles db ++ [row])
                (S (Pg.user_profiles_id_seq db))).
  assert (Hrow : In row (Pg.user_profiles db1))
    by (simpl; apply in_or_app; right; now left).
  split.
  - exact (Permutation_in row
             (Permutation_sym (PgFacts.select_all_desc_perm db1)) Hrow).
  - intros db' Hlater env credentials listed count message. unfold users.
    destruct (validate validateAdmin credentials) as [body errors].
    destruct (negb (is_nil errors)); [discriminate |].
    destruct (strict_ne _ _ || strict_ne _ _); [discriminate |].
    intros [= <- _ _].
    apply (Permutation_in row
             (Permutation_sym (PgFacts.select_all_desc_perm db'))).
    exact (RegisterFacts.later_rows db1 db' Hlater row Hrow).
Qed.

Lemma registration_succeeds_witness :
  register 5 Pg.empty (Samples.registration "42" "alice" Samples.wallet_a)
  = (Pg.mkDb [Pg.mkRow 1 Samples.wallet_a "42" None None "alice" 5 5] 2,
     json (json_user "User registered successfully"
             (Pg.mkRow 1 Samples.wallet_a "42" None None "alice" 5 5)))
  /\ In (Pg.mkRow 1 Samples.wallet_a "42" None None "alice" 5 5)
       [Pg.mkRow 2 Samples.wallet_b "43" None None "bob" 6 6;
        Pg.mkRow 1 Samples.wallet_a "42" None None "alice" 5 5].
Proof.
  pose proof (registration_succeeds 5 Pg.empty
                (Samples.registration "42" "alice" Samples.wallet_a)
                "42" "alice" Samples.wallet_a
                eq_refl eq_refl eq_refl eq_refl
                ltac:(discriminate)
                (proj1 (PgFacts.has_nul_free "alice") eq_refl)
                ltac:(intros n H; discriminate H)
                ltac:(intros r [])) as (H1 & _ & H3).
  split; [exact H1 |].
  apply (H3 (fst (register 6
                    (fst (register 5 Pg.empty
                            (Samples.registration "42" "alice" Samples.wallet_a)))
                    (Samples.registration "43" "bob" Samples.wallet_b)))
            ltac:(apply Reach.later_register; apply Reach.later_now)
            (Samples.env "admin" "password1")
            (Samples.credentials "admin" "password1")
            _ 2 "Retrieved 2 registered users").
  vm_compute. reflexivity.
Defined.

Lemma f_equal_pair_rows (r : Pg.Db * Response) (db : Pg.Db) (resp : Response) :
  r = (db, resp) ->
  snd r = resp /\ Pg.user_profiles (fst r) = Pg.user_profiles db.
Proof. intros ->. split; reflexivity. Qed.

(** C2, as stated, fails: a request that takes the identifier of a stored
    row is answered by the required-fields guard when its chat handle is
    spaces only (the validators let it through), with the validation errors
    when its wallet address is malformed, and with a 500 when its chat
    handle holds the code unit 0, which makes the SELECT fail; none of
    these answers is the duplicate error. *)
Lemma colliding_registration_other_error :
  (exists r, In r (Pg.user_profiles Samples.db_alice) /\ Pg.twitter_id r = "42")
  /\ snd (validate validateRegistration Samples.same_id_blank_handle) = []
  /\ register 6 Samples.db_alice Samples.same_id_blank_handle
     = (Samples.db_alice, Taxonomy.MissingRequiredFields)
  /\ ~ Taxonomy.DuplicateIdentity Taxonomy.MissingRequiredFields
  /\ (exists details,
        register 6 Samples.db_alice Samples.same_id_bad_wallet
        = (Samples.db_alice, Taxonomy.ValidationFailed details)
        /\ ~ Taxonomy.DuplicateIdentity (Taxonomy.ValidationFailed details))
  /\ snd (validate validateRegistration Samples.same_id_nul_handle) = []
  /\ register 6 Samples.db_alice Samples.same_id_nul_handle
     = (Samples.db_alice,
        status_json 500 (json_error (Pg.message Pg.character_not_in_repertoire)))
  /\ ~ Taxonomy.DuplicateIdentity
        (status_json 500 (json_error (Pg.message Pg.character_not_in_repertoire))).
Proof.
  split; [exists Samples.alice_row; rewrite PgFacts.db_alice_eq;
          split; [left; reflexivity | reflexivity] |].
  split; [vm_compute; reflexivity |]. split; [vm_compute; reflexivity |].
  split; [intros [H|H]; discriminate H |].
  split; [eexists; split; [vm_compute; reflexivity |];
          intros [H|H]; discriminate H |].
  split; [vm_compute; reflexivity |]. split; [vm_compute; reflexivity |].
  intros [H|H]; discriminate H.
Qed.

(** C2, amended. For a registration that lists no validation error and
    whose chat handle is not empty once trimmed and holds no code unit 0:
    when its identifier, its trimmed chat handle or its wallet address
    equals that field of a stored row, whatever the other two, the answer
    is the 400 duplicate error and the table is left as it was; and when
    the SELECT finds nothing but the INSERT raises a unique-constraint
    violation, the answer is again a 400 duplicate error, and the rows are
    those the INSERT found. *)
Theorem duplicate_identity_rejected (interleave : Pg.Db -> Pg.Db) (now : Z)
    (db : Pg.Db) (b : Fields) (i t w : string) :
  b !! "twitter_id" = Some i ->
  b !! "telegram_username" = Some t ->
  b !! "wallet_address" = Some w ->
  snd (validate validateRegistration b) = [] ->
  Validator.trim t <> "" ->
  Spec.nul_free t ->
  ((exists r, In r (Pg.user_profiles db)
              /\ Spec.shares_field i (Validator.trim t) w r) ->
   register_with interleave now db b = (db, Taxonomy.AlreadyRegistered))
  /\ (forall db' constraint,
        (forall r, In r (Pg.user_profiles db) ->
                   ~ Spec.shares_field i (Validator.trim t) w r) ->
        Pg.insert_user_profile now (interleave db) (Some i)
          (b !! "twitter_username") (b !! "twitter_name")
          (Some (Validator.trim t)) (Some w)
        = (db', inl (Pg.unique_violation constraint)) ->
        register_with interleave now db b
        = (db', Taxonomy.AlreadyRegisteredAtInsert)
        /\ Pg.user_profiles db' = Pg.user_profiles (interleave db))
  /\ Taxonomy.DuplicateIdentity Taxonomy.AlreadyRegistered
  /\ Taxonomy.DuplicateIdentity Taxonomy.AlreadyRegisteredAtInsert
  /\ status Taxonomy.AlreadyRegistered = 400
  /\ status Taxonomy.AlreadyRegisteredAtInsert = 400.
Proof.
  intros Hi Ht Hw Hv Hne Hnt.
  assert (Hnt' : Pg.has_nul (Validator.trim t) = false)
    by (apply RegisterFacts.has_nul_trim; now apply PgFacts.has_nul_free).
  destruct (RegisterFacts.register_with_selected interleave now db b i t w
              Hi Ht Hw Hv Hne Hnt') as (found & Hf & ->).
  split; [| split; [| repeat split; [now left | now right]]].
  - intros (r & Hr & Hs).
    destruct found as [|x l]; [| reflexivity].
    destruct (proj2 (Hf r) (conj Hr Hs)).
  - intros db' constraint Hfree Hins.
    split; [| exact (PgFacts.insert_user_profile_failed _ _ _ _ _ _ _ _ _ Hins)].
    destruct found as [|x l];
      [| destruct (proj1 (Hf x) (or_introl eq_refl)) as [Hx Hs];
         destruct (Hfree x Hx Hs)].
    simpl Nat.ltb. cbv iota. rewrite Hins. reflexivity.
Qed.

Lemma duplicate_identity_rejected_witness :
  register 6 Samples.db_alice Samples.same_id
  = (Samples.db_alice, Taxonomy.AlreadyRegistered)
  /\ snd (register_with Samples.bob_gets_in 7 Samples.db_alice Samples.late_bob)
     = Taxonomy.AlreadyRegisteredAtInsert
  /\ Pg.user_profiles
       (fst (register_with Samples.bob_gets_in 7 Samples.db_alice Samples.late_bob))
     = Pg.user_profiles (Samples.bob_gets_in Samples.db_alice).
Proof.
  split; [| apply (f_equal_pair_rows
                     (register_with Samples.bob_gets_in 7 Samples.db_alice
                        Samples.late_bob)
                     (Pg.mkDb (Pg.user_profiles (Samples.bob_gets_in Samples.db_alice)) 4)
                     Taxonomy.AlreadyRegisteredAtInsert)].
  - apply (proj1 (duplicate_identity_rejected (fun d => d) 6 Samples.db_alice
                    Samples.same_id "42" "bob" Samples.wallet_b
                    eq_refl eq_refl eq_refl eq_refl
                    ltac:(discriminate)
                    (proj1 (PgFacts.has_nul_free "bob") eq_refl))).
    exists Samples.alice_row. rewrite PgFacts.db_alice_eq.
    split; [left; reflexivity | left; reflexivity].
  - apply (proj1 (proj2 (duplicate_identity_rejected Samples.bob_gets_in 7
                    Samples.db_alice Samples.late_bob "44" "bob"
                    ("0x" +:+ Js.repeat "c" 40)
                    eq_refl eq_refl eq_refl eq_refl
                    ltac:(discriminate)
                    (proj1 (PgFacts.has_nul_free "bob") eq_refl)))
             _ "uq_user_profiles_telegram_username").
    + rewrite PgFacts.db_alice_eq. simpl Pg.user_profiles.
      intros r [<-|[]] [H|[H|H]]; vm_compute in H; discriminate H.
    + vm_compute. reflexivity.
Defined.

(** C7, as stated, fails: a chat handle of spaces only passes its chain.
    With the other fields valid the request is answered by the
    required-fields guard, whose single message is not a validation error
    with details; with a malformed identifier the validation errors name
    the identifier and not the chat handle. *)
Lemma blank_chat_handle_not_reported :
  Validator.trim "   " = ""
  /\ register 0 Pg.empty Samples.blank_handle
     = (Pg.empty, Taxonomy.MissingRequiredFields)
  /\ (forall details,
        Taxonomy.MissingRequiredFields <> Taxonomy.ValidationFailed details)
  /\ exists details,
       register 0 Pg.empty Samples.blank_handle_bad_id
       = (Pg.empty, Taxonomy.ValidationFailed details)
       /\ reports "telegram_username" details = false.
Proof.
  split; [reflexivity |]. split; [reflexivity |].
  split; [intros details H; discriminate H |].
  eexists. split; reflexivity.
Qed.

(** C7, amended. A registration whose chat handle is empty once trimmed
    is rejected with status 400 and the table is left as it was.  When a
    validator of some chain fails the answer is the validation error with
    its details, and these name the chat handle when it is absent or the
    empty string; otherwise (spaces only, every chain satisfied) the
    answer is the single message of the required-fields guard. *)
Theorem empty_chat_handle_rejected (interleave : Pg.Db -> Pg.Db) (now : Z)
    (db : Pg.Db) (b : Fields) :
  Validator.trim (toString (b !! "telegram_username")) = "" ->
  let errors := snd (validate validateRegistration b) in
  fst (register_with interleave now db b) = db
  /\ status (snd (register_with interleave now db b)) = 400
  /\ (errors <> [] ->
      snd (register_with interleave now db b) = Taxonomy.ValidationFailed errors)
  /\ (errors = [] ->
      snd (register_with interleave now db b) = Taxonomy.MissingRequiredFields)
  /\ (Js.falsy (b !! "telegram_username") = true ->
      snd (register_with interleave now db b) = Taxonomy.ValidationFailed errors
      /\ reports "telegram_username" errors = true).
Proof.
  intros Hblank errors.
  assert (Hfalsy : Js.falsy (option_map Validator.trim (b !! "telegram_username"))
                   = true).
  { destruct (b !! "telegram_username") as [t|]; simpl in *; [| reflexivity].
    now rewrite Hblank. }
  assert (Hreg : register_with interleave now db b =
                 if negb (is_nil errors) then (db, Taxonomy.ValidationFailed errors)
                 else (db, Taxonomy.MissingRequiredFields)).
  { rewrite RegisterFacts.register_with_eq. cbv zeta. fold errors.
    rewrite Hfalsy, orb_true_r. reflexivity. }
  rewrite Hreg.
  assert (Hrep : Js.falsy (b !! "telegram_username") = true ->
                 reports "telegram_username" errors = true).
  { intros Hf. unfold errors.
    rewrite RegistrationFields.reports_registration.
    destruct (b !! "telegram_username") as [[|c t]|]; try discriminate Hf;
      vm_compute; repeat rewrite orb_true_r; reflexivity. }
  clearbody errors. destruct errors as [|e errors']; simpl.
  - split; [reflexivity |]. split; [reflexivity |].
    split; [intros H; congruence |]. split; [reflexivity |].
    intros Hf. specialize (Hrep Hf). discriminate Hrep.
  - split; [reflexivity |]. split; [reflexivity |].
    split; [reflexivity |]. split; [discriminate |].
    intros Hf. split; [reflexivity | now apply Hrep].
Qed.

Lemma empty_chat_handle_rejected_witness :
  register_with (fun d => d) 0 Pg.empty Samples.blank_handle
  = (Pg.empty, Taxonomy.MissingRequiredFields)
  /\ reports "telegram_username"
       (snd (validate validateRegistration
               (Samples.registration "42" "" Samples.wallet_a))) = true.
Proof.
  pose proof (empty_chat_handle_rejected (fun d => d) 0 Pg.empty
                Samples.blank_handle eq_refl) as (H1 & _ & _ & H4 & _).
  pose proof (empty_chat_handle_rejected (fun d => d) 0 Pg.empty
                (Samples.registration "42" "" Samples.wallet_a) eq_refl)
    as (_ & _ & _ & _ & H5).
  split.
  - rewrite (surjective_pairing (register_with _ _ _ _)), H1, (H4 eq_refl).
    reflexivity.
  - exact (proj2 (H5 eq_refl)).
Defined.

End RegistrationClaims.

(** ** The admin listing *)

Module UsersFacts.

Import ExpressValidator Http Users.

(** What [validateAdmin] leaves in the body, and the errors it lists: the
    user name is rewritten (trimmed, then escaped), the password is not. *)
Lemma validate_admin (b : Fields) :
  validate validateAdmin b =
    (match b !! "username" with
     | Some u => <["username" := Validator.escape (Validator.trim u)]> b
     | None => b
     end,
     snd (run validate_username (b !! "username"))
     ++ snd (run validate_password (b !! "password"))).
Proof.
  unfold validateAdmin.
  rewrite ChainFacts.validate_cons.
  assert (E1 : fst (run validate_username (b !! "username"))
               = option_map (fun u => Validator.escape (Validator.trim u))
                   (b !! "username"))
    by (rewrite ChainFacts.run_fst; destruct (b !! "username"); reflexivity).
  change (field validate_username) with "username".
  rewrite E1.
  rewrite ChainFacts.validate_cons.
  change (field validate_password) with "password".
  assert (E2 : forall b' : Fields,
             fst (run validate_password (b' !! "password")) = b' !! "password")
    by (intros b'; rewrite ChainFacts.run_fst; reflexivity).
  rewrite E2, ChainFacts.insert_same. simpl validate. rewrite app_nil_r.
  destruct (b !! "username") as [u|] eqn:Hu; simpl; [| reflexivity].
  rewrite lookup_insert_ne by discriminate. reflexivity.
Qed.

Lemma accepts_username (v : option string) :
  accepts validate_username v = true <->
  exists s, v = Some s /\ 3 <= String.length s <= 50.
Proof.
  rewrite ChainFacts.accepts_passes. simpl.
  rewrite !andb_true_iff, ValidationFacts.isLength_spec. split.
  - intros [[H _]|(H1 & H2 & _)]; [discriminate |].
    destruct v as [s|]; [| simpl in H2; lia].
    exists s. auto.
  - intros (s & -> & Hl). right. simpl.
    split; [destruct s; [simpl in Hl; lia | reflexivity] | auto].
Qed.

Lemma accepts_password (v : option string) :
  accepts validate_password v = true <->
  exists s, v = Some s /\ 8 <= String.length s.
Proof.
  rewrite ChainFacts.accepts_passes. simpl.
  unfold Validator.isLength. rewrite !andb_true_iff, Nat.leb_le. split.
  - intros [[H _]|(H1 & (H2 & _) & _)]; [discriminate |].
    destruct v as [s|]; [| simpl in H2; lia].
    exists s. auto.
  - intros (s & -> & Hl). right. simpl.
    split; [destruct s; [simpl in Hl; lia | reflexivity] | auto].
Qed.

Lemma admin_valid (b : Fields) :
  snd (validate validateAdmin b) = [] <->
  (exists u, b !! "username" = Some u /\ 3 <= String.length u <= 50)
  /\ (exists p, b !! "password" = Some p /\ 8 <= String.length p).
Proof.
  rewrite validate_admin. unfold snd at 1.
  rewrite <- accepts_username, <- accepts_password, !RegisterFacts.accepts_is_nil.
  split.
  - intros H. apply app_eq_nil in H. exact H.
  - intros [-> ->]. reflexivity.
Qed.

(** The listing response for a table. *)
Lemma users_eq (env : Config.Env) (db : Pg.Db) (b : Fields) :
  users env db b =
    let errors := snd (validate validateAdmin b) in
    let username :=
      option_map (fun u => Validator.escape (Validator.trim u)) (b !! "username") in
    let password := b !! "password" in
    if negb (is_nil errors) then Taxonomy.ValidationFailed errors
    else if strict_ne username (Config.ADMIN_USERNAME env)
            || strict_ne password (Config.ADMIN_PASSWORD env)
    then Taxonomy.Unauthorized
    else json (json_users (Pg.select_all_desc db)
                 (length (Pg.select_all_desc db))
                 ("Retrieved " +:+ pretty (length (Pg.select_all_desc db))
                  +:+ " registered users")).
Proof.
  unfold users. rewrite validate_admin. cbv zeta. unfold snd at 1.
  destruct (b !! "username") as [u|] eqn:Hu; simpl option_map.
  - rewrite lookup_insert_eq, lookup_insert_ne by discriminate. reflexivity.
  - rewrite Hu. reflexivity.
Qed.

Lemma strict_ne_false (a b : option string) : strict_ne a b = false <-> a = b.
Proof.
  unfold strict_ne. destruct a as [x|], b as [y|]; try (split; congruence).
  rewrite negb_false_iff, String.eqb_eq. split; congruence.
Qed.

(** *** [trim] and [escape] *)

Lemma has_false (p : ascii -> bool) (s : string) :
  (forall c, p c = false) -> Js.has p s = false.
Proof.
  intros H. induction s as [|c s IH]; simpl; [reflexivity | now rewrite H, IH].
Qed.

Lemma has_weaken (p q : ascii -> bool) (s : string) :
  (forall c, p c = true -> q c = true) ->
  Js.has q s = false -> Js.has p s = false.
Proof.
  intros H. induction s as [|c s IH]; simpl; [reflexivity |].
  intros Hq. apply orb_false_iff in Hq as [Hc Hs].
  rewrite (IH Hs), orb_false_r.
  destruct (p c) eqn:E; [| reflexivity]. apply H in E. congruence.
Qed.

Lemma replaceAll_absent (c : ascii) (r s : string) :
  Js.has (Js.is_char c) s = false -> Js.replaceAll c r s = s.
Proof.
  induction s as [|a s IH]; simpl; [reflexivity |].
  intros H. apply orb_false_iff in H as [Ha Hs].
  unfold Js.is_char in Ha. rewrite Ascii.eqb_sym in Ha.
  now rewrite Ha, (IH Hs).
Qed.

Lemma has_replaceAll (q : ascii -> bool) (c : ascii) (r s : string) :
  Js.has q (Js.replaceAll c r s)
  = Js.has (fun x => if Ascii.eqb x c then Js.has q r else q x) s.
Proof.
  induction s as [|a s IH]; simpl; [reflexivity |].
  destruct (Ascii.eqb a c); simpl.
  - now rewrite JsFacts.has_app, IH.
  - now rewrite IH.
Qed.

(** No character that [escape] replaces, other than the ampersand, is left
    in its result. *)
Lemma escape_clean (s : string) :
  Js.has Spec.escaped_for_good (Validator.escape s) = false.
Proof.
  unfold Validator.escape. rewrite !has_replaceAll.
  apply has_false. intros c.
  destruct c as [[] [] [] [] [] [] [] []]; reflexivity.
Qed.

(** A string without any of the replaced characters is left as it is. *)
Lemma escape_id (s : string) :
  Js.has Spec.escaped s = false -> Validator.escape s = s.
Proof.
  intros H. unfold Validator.escape.
  assert (Hc : forall a, Spec.escaped a = true ->
                         Js.has (Js.is_char a) s = false).
  { intros a Ha. apply (has_weaken _ Spec.escaped); [| exact H].
    intros c Hc. apply ValidationFacts.is_char_eq in Hc as ->. exact Ha. }
  repeat (rewrite (replaceAll_absent _ _ s) by (apply Hc; reflexivity)).
  reflexivity.
Qed.

Lemma ltrim_spaces (l x : string) :
  Js.all Js.is_space l = true -> Js.ltrim (l +:+ x) = Js.ltrim x.
Proof.
  induction l as [|c l IH]; simpl; [reflexivity |].
  intros H. apply andb_true_iff in H as [Hc Hl]. now rewrite Hc, IH.
Qed.

Lemma rtrim_all_spaces (r : string) :
  Js.all Js.is_space r = true -> Js.rtrim r = "".
Proof.
  induction r as [|c r IH]; simpl; [reflexivity |].
  intros H. apply andb_true_iff in H as [Hc Hr]. now rewrite (IH Hr), Hc.
Qed.

Lemma rtrim_spaces (x r : string) :
  Js.all Js.is_space r = true -> Js.rtrim (x +:+ r) = Js.rtrim x.
Proof.
  intros H. induction x as [|c x IH]; simpl.
  - now apply rtrim_all_spaces.
  - now rewrite IH.
Qed.

(** Whitespace around a name that has none of its own is all that [trim]
    removes. *)
Lemma trim_padded (u a : string) :
  Spec.padded u a -> Spec.bare a -> Validator.trim u = a.
Proof.
  intros (l & r & -> & Hl & Hr) [Hla Hra]. unfold Validator.trim.
  rewrite (ltrim_spaces l _ Hl).
  destruct a as [|c a].
  - simpl. clear - Hr. induction r as [|c r IH]; simpl; [reflexivity |].
    simpl in Hr. apply andb_true_iff in Hr as [Hc Hr']. rewrite Hc. auto.
  - assert (Hc : Js.is_space c = false).
    { destruct (Js.is_space c) eqn:E; [| reflexivity]. exfalso.
      simpl in Hla. rewrite E in Hla.
      pose proof (RegisterFacts.ltrim_length a) as Hlen.
      rewrite Hla in Hlen. simpl in Hlen. lia. }
    change (Js.ltrim (String c a +:+ r)) with
      (if Js.is_space c then Js.ltrim (a +:+ r) else String c a +:+ r).
    rewrite Hc. now rewrite (rtrim_spaces _ r Hr).
Qed.

End UsersFacts.

(** ** Claims on the admin listing *)

Module AdminClaims.

Import ExpressValidator Http Users.

(** C4, as stated, fails: with the two configured secrets submitted as
    they are, the listing is refused with a validation error when the
    password has fewer than 8 characters, and with the unauthorized answer
    when the user name holds a character that [escape] replaces; and a
    wrong password of fewer than 8 characters is answered with the
    validation error, not with the unauthorized answer. *)
Lemma configured_secrets_not_listed :
  (exists details,
     users (Samples.env "admin" "secret") Samples.db_alice
       (Samples.credentials "admin" "secret")
     = Taxonomy.ValidationFailed details)
  /\ users (Samples.env Samples.markup_name "password1") Samples.db_alice
       (Samples.credentials Samples.markup_name "password1")
     = Taxonomy.Unauthorized
  /\ (exists details,
        users (Samples.env "admin" "password1") Samples.db_alice
          (Samples.credentials "admin" "wrong")
        = Taxonomy.ValidationFailed details).
Proof.
  split; [eexists; reflexivity |]. split; [reflexivity |].
  eexists; reflexivity.
Qed.

(** C4, amended. A listing request whose user name has 3 to 50 characters
    and whose password has at least 8 passes validation; for such a
    request, when the user name, trimmed and escaped, and the password as
    submitted equal the two configured secrets, the answer lists all rows
    of the table, newest first by [created_at], with their count; when
    either differs the answer is the one unauthorized response, the same
    for a wrong user name and a wrong password, carrying no row.  A request
    that fails validation gets the validation error. *)
Theorem listing_gated (env : Config.Env) (db : Pg.Db) (b : Fields) :
  let errors := snd (validate validateAdmin b) in
  let username :=
    option_map (fun u => Validator.escape (Validator.trim u)) (b !! "username") in
  let password := b !! "password" in
  (errors = [] <->
   (exists u, b !! "username" = Some u /\ 3 <= String.length u <= 50)
   /\ (exists p, b !! "password" = Some p /\ 8 <= String.length p))
  /\ (errors <> [] -> users env db b = Taxonomy.ValidationFailed errors)
  /\ (errors = [] ->
      username = Config.ADMIN_USERNAME env ->
      password = Config.ADMIN_PASSWORD env ->
      exists rows message,
        users env db b = json (json_users rows (length rows) message)
        /\ Permutation rows (Pg.user_profiles db)
        /\ StronglySorted Spec.newer_or_equal rows)
  /\ (errors = [] ->
      username <> Config.ADMIN_USERNAME env
      \/ password <> Config.ADMIN_PASSWORD env ->
      users env db b = Taxonomy.Unauthorized).
Proof.
  intros errors username password.
  split; [apply UsersFacts.admin_valid |].
  pose proof (UsersFacts.users_eq env db b) as E. cbv zeta in E.
  fold errors username password in E.
  split; [| split].
  - intros Hne. rewrite E. destruct errors; [congruence | reflexivity].
  - intros Hv Hu Hp. rewrite E, Hv. simpl.
    rewrite (proj2 (UsersFacts.strict_ne_false _ _) Hu),
            (proj2 (UsersFacts.strict_ne_false _ _) Hp). simpl.
    eexists _, _. split; [reflexivity |].
    split; [apply PgFacts.select_all_desc_perm | apply PgFacts.select_all_desc_sorted].
  - intros Hv Hne. rewrite E, Hv. simpl.
    destruct (strict_ne username (Config.ADMIN_USERNAME env)) eqn:E1;
      [reflexivity |].
    destruct (strict_ne password (Config.ADMIN_PASSWORD env)) eqn:E2;
      [reflexivity |].
    apply UsersFacts.strict_ne_false in E1, E2. tauto.
Qed.

Lemma listing_gated_witness :
  (exists rows message,
     users (Samples.env "admin" "password1") Samples.db_alice
       (Samples.credentials "admin" "password1")
     = json (json_users rows (length rows) message)
     /\ Permutation rows (Pg.user_profiles Samples.db_alice)
     /\ StronglySorted Spec.newer_or_equal rows)
  /\ users (Samples.env "admin" "password1") Samples.db_alice
       (Samples.credentials "admin" "password2")
     = Taxonomy.Unauthorized
  /\ users (Samples.env "admin" "password1") Samples.db_alice
       (Samples.credentials "nimda" "password1")
     = Taxonomy.Unauthorized.
Proof.
  split; [| split].
  - apply (proj1 (proj2 (proj2
             (listing_gated (Samples.env "admin" "password1") Samples.db_alice
                (Samples.credentials "admin" "password1")))));
      reflexivity.
  - apply (proj2 (proj2 (proj2
             (listing_gated (Samples.env "admin" "password1") Samples.db_alice
                (Samples.credentials "admin" "password2")))));
      [reflexivity | right; discriminate].
  - apply (proj2 (proj2 (proj2
             (listing_gated (Samples.env "admin" "password1") Samples.db_alice
                (Samples.credentials "nimda" "password1")))));
      [reflexivity | left; discriminate].
Defined.

(** C10, as stated, fails: the configured name [a&amp;b] holds an
    ampersand, a character that [escape] replaces, and the submitted name
    [a&b] authenticates against it; and the name [admin] followed by 46
    spaces differs from the configured [admin] by surrounding whitespace
    only, yet is refused by the length validator before any comparison. *)
Lemma ampersand_name_authenticates :
  Js.has Spec.escaped Samples.entity_name = true
  /\ status (users (Samples.env Samples.entity_name "password1") Samples.db_alice
               (Samples.credentials "a&b" "password1")) = 200
  /\ Spec.padded Samples.padded_51 "admin"
  /\ exists details,
       users (Samples.env "admin" "password1") Samples.db_alice
         (Samples.credentials Samples.padded_51 "password1")
       = Taxonomy.ValidationFailed details.
Proof.
  split; [reflexivity |]. split; [reflexivity |]. split.
  - exists "", (Js.repeat " " 46). repeat split; reflexivity.
  - eexists. reflexivity.
Qed.

(** C10, amended. Among the requests that pass validation, the listing is
    granted exactly when the submitted user name, trimmed and then escaped,
    equals the configured user name and the submitted password, unchanged,
    equals the configured password.  So a submitted name of 3 to 50
    characters that is the configured name with whitespace around it
    authenticates, given the configured password (of at least 8
    characters), when the configured name has no whitespace at its ends and
    none of the replaced characters; and when the configured name holds one
    of the replaced characters other than the ampersand, no request
    authenticates. *)
Theorem username_compared_sanitized (env : Config.Env) (db : Pg.Db) :
  (forall b : Fields,
     snd (validate validateAdmin b) = [] ->
     (status (users env db b) = 200 <->
      option_map (fun u => Validator.escape (Validator.trim u)) (b !! "username")
      = Config.ADMIN_USERNAME env
      /\ b !! "password" = Config.ADMIN_PASSWORD env))
  /\ (forall (a p u : string) (b : Fields),
        Config.ADMIN_USERNAME env = Some a ->
        Config.ADMIN_PASSWORD env = Some p ->
        Spec.padded u a -> Spec.bare a -> Js.has Spec.escaped a = false ->
        3 <= String.length u <= 50 -> 8 <= String.length p ->
        b !! "username" = Some u -> b !! "password" = Some p ->
        status (users env db b) = 200)
  /\ (forall a : string,
        Config.ADMIN_USERNAME env = Some a ->
        Js.has Spec.escaped_for_good a = true ->
        forall b : Fields, status (users env db b) <> 200).
Proof.
  assert (H1 : forall b : Fields,
             snd (validate validateAdmin b) = [] ->
             (status (users env db b) = 200 <->
              option_map (fun u => Validator.escape (Validator.trim u))
                (b !! "username") = Config.ADMIN_USERNAME env
              /\ b !! "password" = Config.ADMIN_PASSWORD env)).
  { intros b Hv. rewrite UsersFacts.users_eq. cbv zeta. rewrite Hv. simpl.
    rewrite <- !UsersFacts.strict_ne_false.
    destruct (strict_ne _ (Config.ADMIN_USERNAME env));
      destruct (strict_ne _ (Config.ADMIN_PASSWORD env)); simpl;
      split; intros H; try discriminate H; try reflexivity;
      try (destruct H; discriminate); auto. }
  split; [exact H1 |]. split.
  - intros a p u b Ha Hp Hpad Hbare Hesc Hlu Hlp Hu Hpw.
    apply H1.
    + apply UsersFacts.admin_valid. split; eauto.
    + rewrite Hu, Hpw, Ha, Hp. simpl.
      now rewrite (UsersFacts.trim_padded u a Hpad Hbare), (UsersFacts.escape_id a Hesc).
  - intros a Ha Hbad b.
    rewrite UsersFacts.users_eq. cbv zeta.
    destruct (is_nil (snd (validate validateAdmin b))); simpl; [| discriminate].
    rewrite Ha.
    destruct (b !! "username") as [u|]; simpl; [| discriminate].
    destruct (String.eqb (Validator.escape (Validator.trim u)) a) eqn:E;
      simpl; [| discriminate].
    apply String.eqb_eq in E. subst a.
    rewrite UsersFacts.escape_clean in Hbad. discriminate Hbad.
Qed.

Lemma username_compared_sanitized_witness :
  status (users (Samples.env "admin" "password1") Samples.db_alice
            (Samples.credentials "  admin " "password1")) = 200
  /\ status (users (Samples.env Samples.markup_name "password1") Samples.db_alice
               (Samples.credentials Samples.markup_name "password1")) <> 200.
Proof.
  split.
  - apply (proj1 (proj2 (username_compared_sanitized
                           (Samples.env "admin" "password1") Samples.db_alice))
             "admin" "password1" "  admin "); try reflexivity.
    + exists "  ", " ". repeat split; reflexivity.
    + split; reflexivity.
    + simpl. lia.
    + simpl. lia.
  - apply (proj2 (proj2 (username_compared_sanitized
                           (Samples.env Samples.markup_name "password1")
                           Samples.db_alice))
             Samples.markup_name); reflexivity.
Defined.

End AdminClaims.

(** ** The handshake *)

Module HandshakeFacts.

Import Http Handshake.

Lemma storage_get_set (storage : TokenStorage) (k v : string) :
  storage_get (storage_set storage k v) k = Some v.
Proof. unfold storage_get, storage_set. apply lookup_insert_eq. Qed.

Lemma storage_get_delete (storage : TokenStorage) (k : string) :
  storage_get (storage_delete storage k) k = None.
Proof.
  unfold storage_get, storage_delete.
  destruct storage as [m|]; simpl; [apply lookup_delete_eq | reflexivity].
Qed.

Lemma falsy_false (v : option string) :
  Js.falsy v = false <-> exists s, v = Some s /\ s <> "".
Proof.
  destruct v as [[|c r]|]; simpl.
  - split; [discriminate | intros (s & [= <-] & H); congruence].
  - split; [| reflexivity]. intros _. eexists. split; [reflexivity | discriminate].
  - split; [discriminate | intros (s & H & _); discriminate H].
Qed.

(** The initiation route, outcome by outcome of the one call it makes. *)
Lemma auth_twitter_eq (env : Config.Env) (fetch : Outgoing -> FetchResult)
    (storage : TokenStorage) (consumer : Config.Consumer) :
  Config.oauth env = Some consumer ->
  auth_twitter env fetch storage =
    match fetch (request_token_call env consumer) with
    | Rejected message => (storage, Taxonomy.UpstreamUnavailable_rejected message)
    | Responded status text _ =>
        if negb (ok status) then (storage, Taxonomy.UpstreamUnavailable_status text)
        else
          let oauth_token :=
            UrlSearchParams.get (UrlSearchParams.parse text) "oauth_token" in
          let oauth_token_secret :=
            UrlSearchParams.get (UrlSearchParams.parse text) "oauth_token_secret" in
          if Js.falsy oauth_token || Js.falsy oauth_token_secret
          then (storage, Taxonomy.MalformedUpstreamResponse)
          else (storage_set storage (ExpressValidator.toString oauth_token)
                  (ExpressValidator.toString oauth_token_secret),
                json (json_auth_url
                        (Config.TWITTER_AUTHORIZE_URL +:+ "?oauth_token="
                         +:+ ExpressValidator.toString oauth_token)))
    end.
Proof. intros H. unfold auth_twitter. rewrite H. reflexivity. Qed.

(** A token is handed out only after it was stored with a secret. *)
Lemma auth_twitter_stores (env : Config.Env) (fetch : Outgoing -> FetchResult)
    (storage0 storage : TokenStorage) (token : string) :
  auth_twitter env fetch storage0
  = (storage, json (json_auth_url
                      (Config.TWITTER_AUTHORIZE_URL +:+ "?oauth_token=" +:+ token))) ->
  exists secret, secret <> "" /\ token <> ""
                 /\ storage = storage_set storage0 token secret.
Proof.
  unfold auth_twitter.
  destruct (Config.oauth env) as [consumer|]; [| discriminate].
  destruct (fetch _) as [message|status text js]; [discriminate |].
  destruct (negb (ok status)); [discriminate |].
  destruct (Js.falsy (UrlSearchParams.get _ "oauth_token")
            || Js.falsy (UrlSearchParams.get _ "oauth_token_secret")) eqn:F;
    [discriminate |].
  apply orb_false_iff in F as [F1 F2].
  apply falsy_false in F1 as (t & E1 & Ht), F2 as (s & E2 & Hs).
  rewrite E1, E2. simpl ExpressValidator.toString.
  intros [= <- H]. subst t.
  exists s. auto.
Qed.

Lemma error_not_completed (env : Config.Env) (code : string) :
  ~ Taxonomy.HandshakeCompleted env (error_redirect env code).
Proof.
  intros (userData & H). unfold error_redirect, redirect_to in H.
  injection H as H. apply String.app_inj in H.
  simpl in H. injection H as H. vm_compute in H. discriminate H.
Qed.

(** The callback route: stopped by the parameter guard, stopped by the
    lookup, or past both with the entry deleted. *)
Lemma callback_missing_params (env : Config.Env)
    (fetch : Outgoing -> FetchResult) (storage : TokenStorage) (q : Fields) :
  Js.falsy (q !! "oauth_token") || Js.falsy (q !! "oauth_verifier") = true ->
  auth_twitter_callback env fetch storage q
  = (storage, error_redirect env "missing_oauth_params").
Proof. intros H. unfold auth_twitter_callback. now rewrite H. Qed.

Lemma callback_unknown_token (env : Config.Env)
    (fetch : Outgoing -> FetchResult) (storage : TokenStorage) (q : Fields)
    (token : string) :
  q !! "oauth_token" = Some token -> token <> "" ->
  Js.falsy (q !! "oauth_verifier") = false ->
  Js.falsy (storage_get storage token) = true ->
  auth_twitter_callback env fetch storage q
  = (storage, Taxonomy.UnknownOrExpiredToken env).
Proof.
  intros Ht Hne Hv Hs. unfold auth_twitter_callback.
  rewrite Ht, Hv. simpl ExpressValidator.toString.
  rewrite (proj2 (RegisterFacts.falsy_Some token) Hne). simpl orb. cbv iota.
  now rewrite Hs.
Qed.

Lemma callback_known_token (env : Config.Env)
    (fetch : Outgoing -> FetchResult) (storage : TokenStorage) (q : Fields)
    (token : string) :
  q !! "oauth_token" = Some token -> token <> "" ->
  Js.falsy (q !! "oauth_verifier") = false ->
  Js.falsy (storage_get storage token) = false ->
  fst (auth_twitter_callback env fetch storage q) = storage_delete storage token
  /\ (Taxonomy.HandshakeCompleted env (snd (auth_twitter_callback env fetch storage q))
      \/ exists code,
           snd (auth_twitter_callback env fetch storage q) = error_redirect env code).
Proof.
  intros Ht Hne Hv Hs. unfold auth_twitter_callback.
  rewrite Ht, Hv. simpl ExpressValidator.toString.
  rewrite (proj2 (RegisterFacts.falsy_Some token) Hne). simpl orb. cbv iota.
  rewrite Hs.
  destruct (Config.oauth env) as [consumer|]; [| split; [reflexivity | eauto]].
  destruct (fetch (access_token_call _ _ _ _)) as [m|status text js];
    [split; [reflexivity | eauto] |].
  destruct (negb (ok status)); [split; [reflexivity | eauto] |].
  destruct (Js.falsy _ || Js.falsy _); [split; [reflexivity | eauto] |].
  destruct (fetch (user_info_call _ _ _)) as [m|userStatus userText userJson];
    [split; [reflexivity | eauto] |].
  destruct (negb (ok userStatus)); [split; [reflexivity | eauto] |].
  destruct userJson as [userData|]; [| split; [reflexivity | eauto]].
  split; [reflexivity |]. left. exists userData. reflexivity.
Qed.

End HandshakeFacts.

(** ** Claims on the handshake *)

Module HandshakeClaims.

Import Http Handshake.

(** C8, as stated, fails: a 200 answer that holds both fields, the token
    with an empty value, is answered as a malformed response and nothing is
    stored. *)
Lemma empty_token_is_malformed :
  UrlSearchParams.get (UrlSearchParams.parse "oauth_token=&oauth_token_secret=sec")
    "oauth_token" = Some ""
  /\ UrlSearchParams.get (UrlSearchParams.parse "oauth_token=&oauth_token_secret=sec")
       "oauth_token_secret" = Some "sec"
  /\ auth_twitter (Samples.env "admin" "password1") Samples.provider_empty_token None
     = (None, Taxonomy.MalformedUpstreamResponse).
Proof. repeat split. Qed.

(** C8, amended. With provider credentials configured the initiation
    route makes one signed call to the request-token endpoint.  If the call
    is rejected, or answered with a status outside 200..299, the route
    answers 500 with the upstream failure and stores nothing; if the answer
    lacks the token or the secret, or holds an empty value for either, it
    answers 500 as a malformed response and stores nothing; otherwise it
    stores the secret under the token and answers with the authorization
    address followed by [?oauth_token=] and the token. *)
Theorem request_token_outcomes (env : Config.Env)
    (fetch : Outgoing -> FetchResult) (storage : TokenStorage)
    (consumer : Config.Consumer) :
  Config.oauth env = Some consumer ->
  let call := request_token_call env consumer in
  (forall message,
     fetch call = Rejected message ->
     auth_twitter env fetch storage
     = (storage, Taxonomy.UpstreamUnavailable_rejected message))
  /\ (forall status text js,
        fetch call = Responded status text js ->
        ~ 200 <= status <= 299 ->
        auth_twitter env fetch storage
        = (storage, Taxonomy.UpstreamUnavailable_status text))
  /\ (forall status text js,
        fetch call = Responded status text js ->
        200 <= status <= 299 ->
        Js.falsy (UrlSearchParams.get (UrlSearchParams.parse text) "oauth_token")
        = true
        \/ Js.falsy (UrlSearchParams.get (UrlSearchParams.parse text)
                       "oauth_token_secret") = true ->
        auth_twitter env fetch storage
        = (storage, Taxonomy.MalformedUpstreamResponse))
  /\ (forall status text js token secret,
        fetch call = Responded status text js ->
        200 <= status <= 299 ->
        UrlSearchParams.get (UrlSearchParams.parse text) "oauth_token"
        = Some token ->
        UrlSearchParams.get (UrlSearchParams.parse text) "oauth_token_secret"
        = Some secret ->
        token <> "" -> secret <> "" ->
        auth_twitter env fetch storage
        = (storage_set storage token secret,
           json (json_auth_url
                   (Config.TWITTER_AUTHORIZE_URL +:+ "?oauth_token=" +:+ token)))
        /\ storage_get (storage_set storage token secret) token = Some secret).
Proof.
  intros Ho call.
  pose proof (HandshakeFacts.auth_twitter_eq env fetch storage consumer Ho) as E.
  fold call in E.
  assert (Hok : forall status, ok status = true <-> 200 <= status <= 299).
  { intros status. unfold ok. rewrite andb_true_iff, !Nat.leb_le. tauto. }
  split; [| split; [| split]].
  - intros message Hf. now rewrite E, Hf.
  - intros status text js Hf Hs. rewrite E, Hf.
    destruct (ok status) eqn:Eo; [apply Hok in Eo; tauto | reflexivity].
  - intros status text js Hf Hs Hm. rewrite E, Hf.
    rewrite (proj2 (Hok status) Hs). simpl negb. cbv iota zeta.
    destruct Hm as [-> | ->]; [reflexivity | now rewrite orb_true_r].
  - intros status text js token secret Hf Hs Ht Hsec Hnt Hns.
    split; [| apply HandshakeFacts.storage_get_set].
    rewrite E, Hf. rewrite (proj2 (Hok status) Hs). simpl negb. cbv iota zeta.
    rewrite Ht, Hsec.
    rewrite (proj2 (RegisterFacts.falsy_Some token) Hnt),
            (proj2 (RegisterFacts.falsy_Some secret) Hns).
    reflexivity.
Qed.

Lemma request_token_outcomes_witness :
  auth_twitter (Samples.env "admin" "password1") Samples.provider None
  = (Some {[ "tok" := "sec" ]},
     json (json_auth_url "https://api.twitter.com/oauth/authorize?oauth_token=tok"))
  /\ auth_twitter (Samples.env "admin" "password1") Samples.provider_refuses None
     = (None, Taxonomy.UpstreamUnavailable_status "Could not authenticate you.")
  /\ auth_twitter (Samples.env "admin" "password1") Samples.provider_down None
     = (None, Taxonomy.UpstreamUnavailable_rejected
                "request to https://api.twitter.com/oauth/request_token failed").
Proof.
  split; [| split].
  - apply (proj1 (proj2 (proj2 (proj2
             (request_token_outcomes (Samples.env "admin" "password1")
                Samples.provider None
                (Config.mkConsumer "consumer-key" "consumer-secret") eq_refl)))
             200
             "oauth_token=tok&oauth_token_secret=sec&oauth_callback_confirmed=true"
             None "tok" "sec" eq_refl ltac:(lia) eq_refl eq_refl
             ltac:(discriminate) ltac:(discriminate))).
  - apply (proj1 (proj2
             (request_token_outcomes (Samples.env "admin" "password1")
                Samples.provider_refuses None
                (Config.mkConsumer "consumer-key" "consumer-secret") eq_refl))
             401 "Could not authenticate you." None eq_refl ltac:(lia)).
  - apply (proj1
             (request_token_outcomes (Samples.env "admin" "password1")
                Samples.provider_down None
                (Config.mkConsumer "consumer-key" "consumer-secret") eq_refl)
             _ eq_refl).
Defined.

(** C3, as stated, fails: a first callback that carries the stored token
    and no verifier is stopped by the parameter guard, which removes
    nothing; a second callback with the same token and a verifier then
    finds the secret and completes the handshake. *)
Lemma token_kept_without_verifier :
  storage_get Samples.storage_tok "tok" = Some "sec"
  /\ auth_twitter_callback (Samples.env "admin" "password1") Samples.provider
       Samples.storage_tok (Samples.token_only_query "tok")
     = (Samples.storage_tok,
        error_redirect (Samples.env "admin" "password1") "missing_oauth_params")
  /\ snd (auth_twitter_callback (Samples.env "admin" "password1") Samples.provider
            Samples.storage_tok (Samples.callback_query "tok" "ver"))
     = redirect_to
         "http://localhost:5173?auth=success&twitter_id=7&twitter_username=alice&twitter_name=Alice&profile_image=https%3A%2F%2Fpbs.twimg.com%2Fa.png"
  /\ snd (auth_twitter_callback (Samples.env "admin" "password1") Samples.provider
            Samples.storage_tok (Samples.callback_query "tok" "ver"))
     <> Taxonomy.UnknownOrExpiredToken (Samples.env "admin" "password1").
Proof.
  split; [reflexivity |]. split; [reflexivity |]. split; [reflexivity |].
  intros H. vm_compute in H. discriminate H.
Qed.

(** C3, amended. For a request token handed out by the initiation route,
    two callbacks with that token complete the handshake at most once.
    When the first carries a verifier, the entry is deleted by that call
    before the access-token exchange and whatever the exchange gives, and a
    lookup of the token then finds nothing; when the second carries a
    verifier too, it is answered with the unknown-token redirect and
    leaves the cache as it found it.  A callback whose token has no entry
    never completes the handshake and leaves the cache alone; with both
    parameters present it is answered with that redirect. *)
Theorem request_token_single_use (env : Config.Env)
    (fetch0 fetch1 fetch2 : Outgoing -> FetchResult)
    (storage0 storage : TokenStorage) (token : string) (q1 q2 : Fields) :
  auth_twitter env fetch0 storage0
  = (storage, json (json_auth_url
                      (Config.TWITTER_AUTHORIZE_URL +:+ "?oauth_token=" +:+ token))) ->
  q1 !! "oauth_token" = Some token ->
  q2 !! "oauth_token" = Some token ->
  let first := auth_twitter_callback env fetch1 storage q1 in
  let second := auth_twitter_callback env fetch2 (fst first) q2 in
  ~ (Taxonomy.HandshakeCompleted env (snd first)
     /\ Taxonomy.HandshakeCompleted env (snd second))
  /\ (Js.falsy (q1 !! "oauth_verifier") = false ->
      fst first = storage_delete storage token
      /\ storage_get (fst first) token = None
      /\ (Js.falsy (q2 !! "oauth_verifier") = false ->
          second = (fst first, Taxonomy.UnknownOrExpiredToken env)))
  /\ (forall fetch (storage' : TokenStorage) (q : Fields) (token' : string),
        q !! "oauth_token" = Some token' ->
        storage_get storage' token' = None ->
        (token' <> "" -> Js.falsy (q !! "oauth_verifier") = false ->
         auth_twitter_callback env fetch storage' q
         = (storage', Taxonomy.UnknownOrExpiredToken env))
        /\ fst (auth_twitter_callback env fetch storage' q) = storage'
        /\ ~ Taxonomy.HandshakeCompleted env
              (snd (auth_twitter_callback env fetch storage' q))).
Proof.
  intros Hinit Hq1 Hq2 first second.
  destruct (HandshakeFacts.auth_twitter_stores env fetch0 storage0 storage token Hinit)
    as (secret & Hsec & Htok & ->).
  assert (Hget : Js.falsy (storage_get (storage_set storage0 token secret) token)
                 = false).
  { rewrite HandshakeFacts.storage_get_set.
    now apply RegisterFacts.falsy_Some. }
  assert (Hunknown : forall fetch (storage' : TokenStorage) (q : Fields) token',
             q !! "oauth_token" = Some token' -> token' <> "" ->
             Js.falsy (q !! "oauth_verifier") = false ->
             storage_get storage' token' = None ->
             auth_twitter_callback env fetch storage' q
             = (storage', Taxonomy.UnknownOrExpiredToken env)).
  { intros fetch storage' q token' Hq Hne Hv Hnone.
    apply (HandshakeFacts.callback_unknown_token env fetch storage' q token');
      try assumption.
    now rewrite Hnone. }
  assert (Hfirst : Js.falsy (q1 !! "oauth_verifier") = false ->
                   fst first = storage_delete (storage_set storage0 token secret) token).
  { intros Hv.
    apply (HandshakeFacts.callback_known_token env fetch1 _ q1 token);
      assumption. }
  split; [| split].
  3: { intros fetch storage' q token' Hq Hnone.
       split; [intros Hne Hv; now apply (Hunknown fetch storage' q token') |].
       destruct (Js.falsy (q !! "oauth_token") || Js.falsy (q !! "oauth_verifier"))
         eqn:Hg.
       - rewrite (HandshakeFacts.callback_missing_params env fetch storage' q Hg).
         split; [reflexivity | apply HandshakeFacts.error_not_completed].
       - apply orb_false_iff in Hg as [Hg1 Hg2]. rewrite Hq in Hg1.
         apply RegisterFacts.falsy_Some in Hg1.
         rewrite (Hunknown fetch storage' q token' Hq Hg1 Hg2 Hnone).
         split; [reflexivity | apply HandshakeFacts.error_not_completed]. }
  - intros [H1 H2].
    destruct (Js.falsy (q1 !! "oauth_verifier")) eqn:Hv1.
    + unfold first in H1.
      rewrite HandshakeFacts.callback_missing_params in H1
        by (rewrite Hv1; apply orb_true_r).
      exact (HandshakeFacts.error_not_completed env _ H1).
    + destruct (Js.falsy (q2 !! "oauth_verifier")) eqn:Hv2.
      * unfold second in H2.
        rewrite HandshakeFacts.callback_missing_params in H2
          by (rewrite Hv2; apply orb_true_r).
        exact (HandshakeFacts.error_not_completed env _ H2).
      * unfold second in H2.
        rewrite (Hunknown fetch2 (fst first) q2 token Hq2 Htok Hv2) in H2.
        -- exact (HandshakeFacts.error_not_completed env _ H2).
        -- rewrite (Hfirst eq_refl). apply HandshakeFacts.storage_get_delete.
  - intros Hv1. split; [exact (Hfirst Hv1) |].
    assert (Hgone : storage_get (fst first) token = None)
      by (rewrite (Hfirst Hv1); apply HandshakeFacts.storage_get_delete).
    split; [exact Hgone |].
    intros Hv2. unfold second.
    apply (Hunknown fetch2 (fst first) q2 token); assumption.
Qed.

Lemma request_token_single_use_witness :
  auth_twitter_callback (Samples.env "admin" "password1") Samples.provider
    (fst (auth_twitter_callback (Samples.env "admin" "password1")
            Samples.provider_refuses Samples.storage_tok
            (Samples.callback_query "tok" "ver")))
    (Samples.callback_query "tok" "ver")
  = (Some ∅, Taxonomy.UnknownOrExpiredToken (Samples.env "admin" "password1")).
Proof.
  pose proof (request_token_single_use (Samples.env "admin" "password1")
                Samples.provider Samples.provider_refuses Samples.provider
                None Samples.storage_tok "tok"
                (Samples.callback_query "tok" "ver")
                (Samples.callback_query "tok" "ver")
                eq_refl eq_refl eq_refl) as (_ & H & _).
  destruct (H eq_refl) as (_ & _ & H2).
  rewrite (H2 eq_refl). reflexivity.
Defined.

End HandshakeClaims.

(** ** The leaderboard *)

Module LeaderboardClaims.

Import Http Users.

(** C9.  The module does not get as far as mounting the route.  The first
    statement that reads [router], the registration of [/top-raiders] on
    line 29, runs before the declaration of [router] on line 149 and
    throws: the import of the module fails and none of its registrations
    answers a request, the one of line 153 included.  Without the three
    registrations that precede the declaration the import succeeds and
    [GET /top-raiders] is answered by the registration of line 153, whose
    handler gives, whatever the request and the state, the same list of
    ten entries, ranked 1 to 10 in that order, with strictly decreasing
    scores. *)
Theorem top_raiders_not_mounted :
  Toplevel.import_ Toplevel.users_js
  = inl (Toplevel.before_initialization "router" 29)
  /\ (forall m p, Toplevel.answers Toplevel.users_js m p = None)
  /\ Toplevel.answers (skipn 3 Toplevel.users_js) "GET" "/top-raiders"
     = Some (Toplevel.mkRoute "GET" "/top-raiders" 153)
  /\ (forall (Req State : Type) (req : Req) (st : State),
        top_raiders req st = (st, json (json_data top_raiders_data)))
  /\ length top_raiders_data = 10
  /\ map rank top_raiders_data = seq 1 10
  /\ StronglySorted (fun x y => score y < score x) top_raiders_data.
Proof.
  split; [reflexivity |]. split; [reflexivity |]. split; [reflexivity |].
  split; [reflexivity |]. split; [reflexivity |]. split; [reflexivity |].
  repeat (constructor; [| repeat (constructor; [simpl; lia |]); constructor]).
  constructor.
Qed.

End LeaderboardClaims.

(** * Further properties of the routes *)

(** ** Registration *)

Module RegistrationLaws.

Import ExpressValidator Http Users.

Lemma word_char_spec (c : ascii) :
  word_char c = true <-> Shapes.word_character c.
Proof.
  unfold Shapes.word_character. rewrite ValidationFacts.In_existsb.
  assert (E : word_char c
              = existsb (Ascii.eqb c)
                  (Js.chars
                     "abcdefghijklmnopqrstuvwxyzABCDEFGHIJKLMNOPQRSTUVWXYZ0123456789_"))
    by (destruct c as [[] [] [] [] [] [] [] []]; reflexivity).
  now rewrite E.
Qed.

Lemma accepts_twitter_username (v : option string) :
  accepts validate_twitter_username v = true <->
  v = None
  \/ exists s, v = Some s /\ 1 <= String.length s <= 25
               /\ Js.all word_char s = true.
Proof.
  rewrite ChainFacts.accepts_passes. simpl. split.
  - intros [[_ H]|H]; [now left |].
    destruct v as [s|]; [| discriminate H]. right. exists s.
    simpl in H. rewrite !andb_true_iff in H. destruct H as (Hl & Hm & _).
    apply ValidationFacts.isLength_spec in Hl.
    unfold Validator.matches, username_pattern in Hm.
    apply RegexFacts.test_lang, RegexFacts.lang_plus_class in Hm as [_ Hm].
    repeat split; try lia. exact Hm.
  - intros [->|(s & -> & Hl & Hw)]; [left; now split | right]. simpl.
    rewrite !andb_true_iff. repeat split.
    + now apply ValidationFacts.isLength_spec.
    + unfold Validator.matches, username_pattern.
      apply RegexFacts.test_lang, RegexFacts.lang_plus_class. split.
      * intros ->. simpl in Hl. lia.
      * exact Hw.
Qed.

(** X1. The chain of the optional user name: an absent field is let
    through; a submitted one must have 1 to 25 characters, all of them
    letters, digits or underscores (the message of the length check says
    15, the check itself allows 25).  The empty string counts as submitted
    and is rejected. *)
Theorem twitter_username_validation (v : option string) :
  accepts validate_twitter_username v = true <->
  v = None
  \/ exists s, v = Some s /\ 1 <= String.length s <= 25
               /\ Forall Shapes.word_character (Js.chars s).
Proof.
  rewrite accepts_twitter_username. split.
  - intros [->|(s & -> & Hl & Hw)]; [now left | right]. exists s.
    repeat split; try lia.
    now apply (ValidationFacts.all_Forall word_char Shapes.word_character s
                 word_char_spec).
  - intros [->|(s & -> & Hl & Hw)]; [now left | right]. exists s.
    repeat split; try lia.
    now apply (ValidationFacts.all_Forall word_char Shapes.word_character s
                 word_char_spec).
Qed.

(** *** What an insert does *)

Lemma varchar_length (n : nat) (s s' : string) :
  Pg.varchar n s = inr s' -> String.length s' <= n.
Proof.
  unfold Pg.varchar. destruct (String.length s <=? n) eqn:E.
  - intros [= <-]. now apply Nat.leb_le.
  - destruct (Js.all _ _); [| discriminate]. intros [= <-].
    clear E. revert s. induction n as [|n IH]; intros [|c s]; simpl; try lia.
    specialize (IH s). lia.
Qed.

Lemma insert_user_profile_inv (now : Z) (db db' : Pg.Db)
    (p1 p2 p3 p4 p5 : option string) (row : Pg.Row) :
  Pg.insert_user_profile now db p1 p2 p3 p4 p5 = (db', inr row) ->
  Pg.violated_constraint (Pg.user_profiles db) row = None
  /\ db' = Pg.mkDb (Pg.user_profiles db ++ [row])
             (S (Pg.user_profiles_id_seq db)).
Proof.
  unfold Pg.insert_user_profile.
  destruct (Pg.bind_params _); [discriminate |].
  destruct (Pg.varchar_null 42 p5); [discriminate |].
  destruct (Pg.varchar_null 100 p1); [discriminate |].
  destruct (Pg.varchar_null 100 p2); [discriminate |].
  destruct (Pg.varchar_null 200 p3); [discriminate |].
  destruct (Pg.varchar_null 100 p4); [discriminate |].
  destruct (Pg.not_null "wallet_address" _); [discriminate |].
  destruct (Pg.not_null "twitter_id" _); [discriminate |].
  destruct (Pg.not_null "telegram_username" _); [discriminate |].
  destruct (Pg.violated_constraint _ _) eqn:V; [discriminate |].
  intros [= <- <-]. split; [exact V | reflexivity].
Qed.

Lemma varchar_null_error (n : nat) (v : option string) (e : Pg.Error) :
  Pg.varchar_null n v = inl e -> e = Pg.string_data_right_truncation n.
Proof.
  destruct v as [s|]; simpl; [| discriminate]. unfold Pg.varchar.
  destruct (String.length s <=? n); [discriminate |].
  destruct (Js.all _ _); [discriminate |]. now intros [= <-].
Qed.

(** Every request served alone takes one of the seven ways. *)
Lemma register_outcome (now : Z) (db : Pg.Db) (b : Fields) :
  Reach.outcome now db b (register now db b).
Proof.
  destruct (snd (validate validateRegistration b)) as [|e errors] eqn:Hv.
  2: { unfold register. rewrite RegisterFacts.register_with_eq. cbv zeta.
       rewrite Hv. simpl. rewrite <- Hv. constructor. rewrite Hv. discriminate. }
  destruct (Js.falsy (b !! "twitter_id")
            || Js.falsy (option_map Validator.trim (b !! "telegram_username"))
            || Js.falsy (b !! "wallet_address")) eqn:G.
  { unfold register. rewrite RegisterFacts.register_with_eq. cbv zeta.
    rewrite Hv, G. simpl. now apply Reach.out_missing. }
  apply orb_false_iff in G as [G Gw]. apply orb_false_iff in G as [Gi Gt].
  apply HandshakeFacts.falsy_false in Gi as (i & Hi & _).
  apply HandshakeFacts.falsy_false in Gw as (w & Hw & _).
  destruct (b !! "telegram_username") as [t|] eqn:Ht; [| discriminate Gt].
  simpl in Gt. apply RegisterFacts.falsy_Some in Gt.
  destruct (Pg.has_nul (Validator.trim t)) eqn:Hnul.
  { unfold register.
    rewrite (RegisterFacts.register_with_refused _ now db b i t w
               Hi Ht Hw Hv Gt Hnul).
    now apply (Reach.out_refused now db b i t w). }
  unfold register.
  destruct (RegisterFacts.register_with_selected (fun d => d) now db b i t w
              Hi Ht Hw Hv Gt Hnul) as (found & Hf & ->).
  destruct found as [|x l].
  2: { simpl. destruct (proj1 (Hf x) (or_introl eq_refl)) as [Hx Hs].
       now apply (Reach.out_duplicate now db b i t w x). }
  assert (Hfree : forall r, In r (Pg.user_profiles db) ->
                            ~ Spec.shares_field i (Validator.trim t) w r)
    by (intros r Hr Hs; exact (proj2 (Hf r) (conj Hr Hs))).
  simpl Nat.ltb. cbv iota.
  destruct (RegisterFacts.registration_valid_fields b i t w Hi Ht Hw Hv)
    as (Hli & Hlt & Hlw & Hlu).
  destruct (RegisterFacts.registration_valid_nul b i t w Hi Ht Hw Hv)
    as (Hni & Hnw & Hnu).
  assert (Hname : (forall n, b !! "twitter_name" = Some n -> Pg.has_nul n = false)
                  \/ exists n, b !! "twitter_name" = Some n
                               /\ Pg.has_nul n = true).
  { destruct (b !! "twitter_name") as [n|]; [| left; discriminate].
    destruct (Pg.has_nul n) eqn:E; [right; eauto | left; congruence]. }
  destruct Hname as [Hnn | (n & Hn & Hnn)].
  2: { rewrite (PgFacts.insert_user_profile_refused _ _ _ _ _ _ _
                  Pg.character_not_in_repertoire).
       - now apply (Reach.out_name_refused now db b i t w n).
       - rewrite Hn. unfold Pg.bind_params. simpl existsb.
         rewrite Hnn, !orb_true_r. reflexivity. }
  assert (Hb : Pg.bind_params [Some i; b !! "twitter_username";
                               b !! "twitter_name"; Some (Validator.trim t);
                               Some w] = None).
  { apply PgFacts.bind_params_none.
    intros s [[= <-]|[Hs|[Hs|[[= <-]|[[= <-]|[]]]]]]; auto. }
  unfold Pg.insert_user_profile. rewrite Hb.
  rewrite (PgFacts.varchar_null_fits 42 (Some w)) by (intros ? [= <-]; lia).
  rewrite (PgFacts.varchar_null_fits 100 (Some i)) by (intros ? [= <-]; lia).
  rewrite (PgFacts.varchar_null_fits 100 (b !! "twitter_username"))
    by (intros u Hu; specialize (Hlu u Hu); lia).
  destruct (Pg.varchar_null 200 (b !! "twitter_name")) as [e|cn] eqn:En.
  - rewrite (varchar_null_error _ _ _ En).
    rewrite (varchar_null_error _ _ _ En) in En.
    now apply (Reach.out_failed now db b i t w
                 (Pg.string_data_right_truncation 200)).
  - rewrite (PgFacts.varchar_null_fits 100 (Some (Validator.trim t)))
      by (intros ? [= <-]; pose proof (RegisterFacts.trim_length t); lia).
    simpl Pg.not_null. cbv iota zeta.
    assert (V : Pg.violated_constraint (Pg.user_profiles db)
                  (Pg.mkRow (Pg.user_profiles_id_seq db) w i
                     (b !! "twitter_username") cn (Validator.trim t) now now)
                = None)
      by (apply PgFacts.violated_constraint_none; exact Hfree).
    rewrite V.
    now apply (Reach.out_stored now db b i t w cn).
Qed.

(** *** Trimming *)

Lemma ltrim_head (s : string) :
  Js.ltrim s = ""
  \/ exists c r, Js.ltrim s = String c r /\ Js.is_space c = false.
Proof.
  induction s as [|c s IH]; simpl; [now left |].
  destruct (Js.is_space c) eqn:E; [exact IH | right; eauto].
Qed.

Lemma rtrim_idem (x : string) : Js.rtrim (Js.rtrim x) = Js.rtrim x.
Proof.
  induction x as [|c x IH]; simpl; [reflexivity |].
  destruct (Js.rtrim x) as [|a R] eqn:E.
  - destruct (Js.is_space c) eqn:Ec; simpl; [reflexivity | now rewrite Ec].
  - simpl in *. now rewrite IH.
Qed.

Lemma rtrim_keeps_head (c : ascii) (r : string) :
  Js.is_space c = false -> exists r', Js.rtrim (String c r) = String c r'.
Proof.
  intros Hc. simpl. destruct (Js.rtrim r); [rewrite Hc |]; eauto.
Qed.

(** What [trim] returns has no whitespace at either end. *)
Lemma trim_bare (s : string) : Spec.bare (Validator.trim s).
Proof.
  unfold Spec.bare, Validator.trim. split; [| apply rtrim_idem].
  destruct (ltrim_head s) as [->|(c & r & -> & Hc)]; [reflexivity |].
  destruct (rtrim_keeps_head c r Hc) as (r' & ->). simpl. now rewrite Hc.
Qed.

(** *** One request *)

(** X2. A registration is stored whole or not at all: the answer is 200
    with the stored row, and the table has that one row more, carrying the
    next id and the time of the request; or the answer is 400 or 500 and
    the rows are as they were. *)
Theorem register_all_or_nothing (now : Z) (db : Pg.Db) (b : Fields) :
  (exists row,
     snd (register now db b) = json (json_user "User registered successfully" row)
     /\ Pg.user_profiles (fst (register now db b)) = Pg.user_profiles db ++ [row]
     /\ Pg.id row = Pg.user_profiles_id_seq db
     /\ Pg.created_at row = now /\ Pg.updated_at row = now)
  \/ ((status (snd (register now db b)) = 400
       \/ status (snd (register now db b)) = 500)
      /\ Pg.user_profiles (fst (register now db b)) = Pg.user_profiles db).
Proof.
  destruct (register_outcome now db b).
  - right. split; [now left | reflexivity].
  - right. split; [now left | reflexivity].
  - right. split; [now right | reflexivity].
  - right. split; [now left | reflexivity].
  - right. split; [now right | reflexivity].
  - left. exists row. repeat split.
  - right. split; [now right | reflexivity].
Qed.

(** X3. A registration that was stored cannot be stored again: the same
    request, at any later time, is answered with the duplicate error and
    leaves the table as the first one left it. *)
Theorem register_replay_refused (now now' : Z) (db : Pg.Db) (b : Fields) :
  status (snd (register now db b)) = 200 ->
  register now' (fst (register now db b)) b
  = (fst (register now db b), Taxonomy.AlreadyRegistered).
Proof.
  intros H200.
  destruct (register_outcome now db b)
    as [Hv|Hv Hg|i t w Hi Ht Hw Hv Hne Hnul
        |i t w r Hi Ht Hw Hv Hne Hnul Hr Hs
        |i t w n Hi Ht Hw Hv Hne Hnul Hfree Hn Hnn
        |i t w cn Hi Ht Hw Hv Hne Hnul Hnn Hfree Hn row
        |i t w e Hi Ht Hw Hv Hne Hnul Hnn Hn];
    try discriminate H200.
  simpl fst.
  set (db1 := Pg.mkDb (Pg.user_profiles db ++ [row])
                (S (Pg.user_profiles_id_seq db))).
  unfold register.
  destruct (RegisterFacts.register_with_selected (fun d => d) now' db1 b i t w
              Hi Ht Hw Hv Hne Hnul) as (found & Hf & ->).
  destruct found as [|x l]; [| reflexivity].
  assert (Hin : In row []); [| destruct Hin].
  apply Hf. split.
  - simpl. apply in_or_app. right. now left.
  - left. reflexivity.
Qed.

(** *** The table across requests *)

Lemma NoDup_map_snoc {A B : Type} (f : A -> B) (l : list A) (x : A) :
  List.NoDup (map f l) -> (forall y, In y l -> f y <> f x) ->
  List.NoDup (map f (l ++ [x])).
Proof.
  induction l as [|a l IH]; simpl; intros Hnd Hx.
  - constructor; [intros [] | constructor].
  - inversion Hnd as [|? ? Hin Hnd']; subst. constructor.
    + rewrite map_app, in_app_iff. simpl. intros [H|[H|[]]]; [now apply Hin |].
      apply (Hx a); auto.
    + apply IH; auto.
Qed.

Lemma unique_columns_snoc (rows : list Pg.Row) (row : Pg.Row) :
  Reach.unique_columns rows ->
  Pg.violated_constraint rows row = None ->
  Reach.unique_columns (rows ++ [row]).
Proof.
  intros (H1 & H2 & H3) V.
  pose proof (proj1 (PgFacts.violated_constraint_none rows row) V) as Hfree.
  unfold Spec.shares_field in Hfree.
  repeat split; apply NoDup_map_snoc; try assumption;
    intros y Hy E; apply (Hfree y Hy); auto.
Qed.

Lemma register_with_unique (interleave : Pg.Db -> Pg.Db) (now : Z)
    (db : Pg.Db) (b : Fields) :
  Reach.unique_columns (Pg.user_profiles db) ->
  Reach.unique_columns (Pg.user_profiles (interleave db)) ->
  Reach.unique_columns
    (Pg.user_profiles (fst (register_with interleave now db b))).
Proof.
  intros Hdb Hil. rewrite RegisterFacts.register_with_eq. cbv zeta.
  destruct (negb (is_nil _)); [exact Hdb |].
  destruct (_ || _ || _); [exact Hdb |].
  destruct (Pg.select_existing _ _ _ _) as [e|found]; [exact Hdb |].
  destruct (0 <? _); [exact Hdb |].
  destruct (Pg.insert_user_profile _ _ _ _ _ _ _) as [db' [e|row]] eqn:Hins.
  - pose proof (PgFacts.insert_user_profile_failed _ _ _ _ _ _ _ _ _ Hins) as E.
    simpl. now rewrite E.
  - apply insert_user_profile_inv in Hins as (V & ->).
    simpl. now apply unique_columns_snoc.
Qed.

(** X4. The three unique columns stay unique.  If no two rows share an
    identifier, a chat handle or a wallet address, neither before the
    request nor after what other requests commit between its SELECT and
    its INSERT, then none do after the request, whatever it submits. *)
Theorem unique_columns_kept (interleave : Pg.Db -> Pg.Db) (now : Z)
    (db : Pg.Db) (b : Fields) :
  Reach.unique_columns (Pg.user_profiles db) ->
  Reach.unique_columns (Pg.user_profiles (interleave db)) ->
  Reach.unique_columns
    (Pg.user_profiles (fst (register_with interleave now db b))).
Proof. apply register_with_unique. Qed.

Lemma unique_columns_empty : Reach.unique_columns [].
Proof. repeat split; constructor. Qed.

(** X5. In every table built by registrations served one after another,
    no two rows share an id, an identifier, a chat handle or a wallet
    address, and every id is below the next value of the sequence. *)
Theorem reachable_keys (db : Pg.Db) :
  Reach.reachable db ->
  List.NoDup (map Pg.id (Pg.user_profiles db))
  /\ Forall (fun r => 1 <= Pg.id r < Pg.user_profiles_id_seq db)
       (Pg.user_profiles db)
  /\ Reach.unique_columns (Pg.user_profiles db).
Proof.
  intros Hreach.
  assert (Hseq : 1 <= Pg.user_profiles_id_seq db).
  { induction Hreach as [|now db b _ IH]; [simpl; lia |].
    destruct (register_outcome now db b); simpl; lia. }
  induction Hreach as [|now db b Hreach IH].
  - simpl. repeat split; constructor.
  - assert (Hseq0 : 1 <= Pg.user_profiles_id_seq db).
    { clear - Hreach. induction Hreach as [|now db b _ IH]; [simpl; lia |].
      destruct (register_outcome now db b); simpl; lia. }
    destruct (IH Hseq0) as (Hid & Hlt & Hu). clear IH.
    split; [| split].
    + destruct (register_outcome now db b); simpl; try assumption.
      apply (NoDup_map_snoc Pg.id); [assumption |].
      intros y Hy. rewrite List.Forall_forall in Hlt. specialize (Hlt y Hy).
      simpl. lia.
    + destruct (register_outcome now db b); simpl; try assumption.
      apply Forall_app. split.
      * eapply List.Forall_impl; [| exact Hlt]. simpl. intros r Hr. lia.
      * constructor; [simpl; lia | constructor].
    + now apply (register_with_unique (fun d => d)).
Qed.

(** X6. Every row of a table built by registrations has the shape the
    chains and the columns enforce: a wallet address of [0x] and 40 hex
    digits, an identifier of 1 to 20 characters in numeric form, a chat
    handle of 1 to 50 characters without whitespace at its ends, a user
    name (when there is one) of 1 to 25 word characters, a display name
    (when there is one) of at most 200 characters, and equal
    timestamps. *)
Theorem reachable_rows_well_formed (db : Pg.Db) :
  Reach.reachable db -> Forall Reach.well_formed (Pg.user_profiles db).
Proof.
  induction 1 as [|now db b _ IH]; [constructor |].
  destruct (register_outcome now db b)
    as [Hv|Hv Hg|i t w Hi Ht Hw Hv Hne Hnul
        |i t w r Hi Ht Hw Hv Hne Hnul Hr Hs
        |i t w n Hi Ht Hw Hv Hne Hnul Hfree Hn Hnn
        |i t w cn Hi Ht Hw Hv Hne Hnul Hnn Hfree Hn row
        |i t w e Hi Ht Hw Hv Hne Hnul Hnn Hn];
    simpl; try assumption.
  apply Forall_app. split; [assumption |]. constructor; [| constructor].
  pose proof (proj1 (RegisterFacts.registration_valid b) Hv) as (A1 & A2 & A3 & A4).
  rewrite Hi in A1. rewrite Ht in A3. rewrite Hw in A4.
  apply ValidationFacts.accepts_twitter_id in A1 as (? & [= <-] & Hli & Hnum).
  apply ValidationFacts.accepts_telegram_username in A3 as (? & [= <-] & Hlt).
  apply ValidationFacts.accepts_wallet_address in A4 as (? & [= <-] & Hwf).
  unfold Reach.well_formed, row. simpl.
  split; [exact Hwf |]. split; [split; assumption |].
  split; [split; [exact Hne | split; [| apply trim_bare]] |].
  { pose proof (RegisterFacts.trim_length t). lia. }
  split; [| split; [| reflexivity]].
  - intros u Hu. rewrite Hu in A2.
    apply accepts_twitter_username in A2 as [A2|(s & [= <-] & Hl & Hwc)];
      [discriminate A2 | now split].
  - intros n ->. destruct (b !! "twitter_name") as [n0|]; simpl in Hn;
      [| discriminate Hn].
    destruct (Pg.varchar 200 n0) as [e|n1] eqn:E; [discriminate Hn |].
    injection Hn as <-. exact (varchar_length 200 n0 n1 E).
Qed.

(** X7. The display name is the one field no chain checks, and its
    column holds 200 characters.  For a registration that is otherwise
    accepted and collides with no row, and whose chat handle and display
    name hold no code unit 0, a display name of more than 200 characters
    makes the INSERT fail: the answer is 500 with the message of the
    storage layer and no row is stored.  When all that exceeds the 200
    characters is spaces, the name is stored cut to 200 characters. *)
Theorem display_name_bound (now : Z) (db : Pg.Db) (b : Fields)
    (i t w n : string) :
  b !! "twitter_id" = Some i ->
  b !! "telegram_username" = Some t ->
  b !! "wallet_address" = Some w ->
  b !! "twitter_name" = Some n ->
  snd (validate validateRegistration b) = [] ->
  Validator.trim t <> "" ->
  Spec.nul_free t ->
  Spec.nul_free n ->
  (forall r, In r (Pg.user_profiles db) ->
             ~ Spec.shares_field i (Validator.trim t) w r) ->
  200 < String.length n ->
  (Js.all (Js.is_char " ") (Js.drop 200 n) = false ->
   snd (register now db b)
   = status_json 500
       (json_error "value too long for type character varying(200)")
   /\ fst (register now db b) = db)
  /\ (Js.all (Js.is_char " ") (Js.drop 200 n) = true ->
      exists row,
        snd (register now db b)
        = json (json_user "User registered successfully" row)
        /\ Pg.twitter_name row = Some (Js.take 200 n)).
Proof.
  intros Hi Ht Hw Hn Hv Hne Hnt Hnn Hfree Hlong.
  assert (Hleb : (String.length n <=? 200) = false) by (apply Nat.leb_gt; lia).
  assert (Hnt' : Pg.has_nul (Validator.trim t) = false)
    by (apply RegisterFacts.has_nul_trim; now apply PgFacts.has_nul_free).
  apply PgFacts.has_nul_free in Hnn.
  destruct (register_outcome now db b)
    as [Hv'|Hv' Hg|i' t' w' Hi' Ht' Hw' Hv' Hne' Hnul'
        |i' t' w' r Hi' Ht' Hw' Hv' Hne' Hnul' Hr Hs
        |i' t' w' n' Hi' Ht' Hw' Hv' Hne' Hnul' Hfree' Hn' Hnn'
        |i' t' w' cn Hi' Ht' Hw' Hv' Hne' Hnul' Hnn' Hfree' Hn' row
        |i' t' w' e Hi' Ht' Hw' Hv' Hne' Hnul' Hnn' Hn'].
  - congruence.
  - exfalso. rewrite Hi, Ht, Hw in Hg. simpl in Hg.
    destruct (RegisterFacts.registration_valid_fields b i t w Hi Ht Hw Hv)
      as (Hli & _ & Hlw & _).
    rewrite !orb_true_iff in Hg. destruct Hg as [[Hg|Hg]|Hg].
    + destruct i; [simpl in Hli; lia | discriminate Hg].
    + destruct (Validator.trim t); [congruence | discriminate Hg].
    + destruct w; [simpl in Hlw; lia | discriminate Hg].
  - exfalso. rewrite Ht in Ht'. injection Ht' as <-. congruence.
  - exfalso. rewrite Hi in Hi'. rewrite Ht in Ht'. rewrite Hw in Hw'.
    injection Hi' as <-. injection Ht' as <-. injection Hw' as <-.
    exact (Hfree r Hr Hs).
  - exfalso. rewrite Hn in Hn'. injection Hn' as <-. congruence.
  - rewrite Hn in Hn'. simpl in Hn'. unfold Pg.varchar in Hn'.
    rewrite Hleb in Hn'. split; intros Hsp; rewrite Hsp in Hn';
      [discriminate Hn' |].
    injection Hn' as <-. exists row. split; reflexivity.
  - rewrite Hn in Hn'. simpl in Hn'. unfold Pg.varchar in Hn'.
    rewrite Hleb in Hn'. split; intros Hsp; rewrite Hsp in Hn';
      [| discriminate Hn'].
    injection Hn' as <-. split; reflexivity.
Qed.



(** *** Instances *)

Lemma register_replay_refused_witness :
  register 9 Samples.db_alice MoreSamples.alice
  = (Samples.db_alice, Taxonomy.AlreadyRegistered).
Proof.
  apply (register_replay_refused 5 9 Pg.empty MoreSamples.alice).
  vm_compute. reflexivity.
Defined.

Lemma unique_columns_kept_witness :
  Reach.unique_columns
    (Pg.user_profiles
       (fst (register_with Samples.bob_gets_in 7 Samples.db_alice Samples.late_bob))).
Proof.
  apply unique_columns_kept.
  - rewrite PgFacts.db_alice_eq. simpl.
    repeat split; (constructor; [intros [] | constructor]).
  - vm_compute.
    repeat split;
      (constructor;
       [intros [H|[]]; discriminate H | constructor; [intros [] | constructor]]).
Defined.

Lemma reachable_keys_witness :
  List.NoDup (map Pg.id (Pg.user_profiles Samples.db_alice))
  /\ Forall (fun r => 1 <= Pg.id r < Pg.user_profiles_id_seq Samples.db_alice)
       (Pg.user_profiles Samples.db_alice)
  /\ Reach.unique_columns (Pg.user_profiles Samples.db_alice).
Proof.
  apply (reachable_keys Samples.db_alice).
  exact (Reach.reach_register 5 Pg.empty MoreSamples.alice Reach.reach_empty).
Defined.

Lemma reachable_rows_well_formed_witness :
  Forall Reach.well_formed (Pg.user_profiles Samples.db_alice).
Proof.
  apply (reachable_rows_well_formed Samples.db_alice).
  exact (Reach.reach_register 5 Pg.empty MoreSamples.alice Reach.reach_empty).
Defined.

Lemma display_name_bound_witness :
  (snd (register 0 Pg.empty Samples.long_name)
   = status_json 500
       (json_error "value too long for type character varying(200)")
   /\ fst (register 0 Pg.empty Samples.long_name) = Pg.empty)
  /\ exists row,
       snd (register 0 Pg.empty MoreSamples.spaced_name)
       = json (json_user "User registered successfully" row)
       /\ Pg.twitter_name row = Some (Js.repeat "n" 200).
Proof.
  split.
  - apply (proj1 (display_name_bound 0 Pg.empty Samples.long_name
                    "42" "alice" Samples.wallet_a (Js.repeat "n" 201)
                    eq_refl eq_refl eq_refl eq_refl eq_refl
                    ltac:(discriminate)
                    (proj1 (PgFacts.has_nul_free "alice") eq_refl)
                    (proj1 (PgFacts.has_nul_free (Js.repeat "n" 201)) eq_refl)
                    ltac:(intros r [])
                    ltac:(vm_compute; lia))).
    reflexivity.
  - apply (proj2 (display_name_bound 0 Pg.empty MoreSamples.spaced_name
                    "42" "alice" Samples.wallet_a (Js.repeat "n" 200 +:+ "   ")
                    eq_refl eq_refl eq_refl eq_refl eq_refl
                    ltac:(discriminate)
                    (proj1 (PgFacts.has_nul_free "alice") eq_refl)
                    (proj1 (PgFacts.has_nul_free (Js.repeat "n" 200 +:+ "   "))
                       eq_refl)
                    ltac:(intros r [])
                    ltac:(vm_compute; lia))).
    reflexivity.
Defined.


End RegistrationLaws.

(** ** Handshake *)

Module HandshakeLaws.

Import Http Handshake.

Lemma storage_get_delete_ne (storage : TokenStorage) (k t : string) :
  k <> t -> storage_get (storage_delete storage t) k = storage_get storage k.
Proof.
  intros Hne. unfold storage_get, storage_delete.
  destruct storage as [m|]; simpl; [| reflexivity].
  now apply lookup_delete_ne.
Qed.

Lemma storage_get_set_ne (storage : TokenStorage) (k t v : string) :
  k <> t -> storage_get (storage_set storage t v) k = storage_get storage k.
Proof.
  intros Hne. unfold storage_get, storage_set.
  rewrite lookup_insert_ne by congruence.
  destruct storage as [m|]; [reflexivity | apply lookup_empty].
Qed.

Lemma storage_get_delete_Some (storage : TokenStorage) (k t v : string) :
  storage_get (storage_delete storage t) k = Some v ->
  storage_get storage k = Some v.
Proof.
  destruct (String.eqb k t) eqn:E.
  - apply String.eqb_eq in E as ->.
    now rewrite HandshakeFacts.storage_get_delete.
  - apply String.eqb_neq in E. now rewrite storage_get_delete_ne.
Qed.

(** The cache after a callback: as it was, or without the token of the
    query. *)
Lemma callback_storage (env : Config.Env) (fetch : Outgoing -> FetchResult)
    (storage : TokenStorage) (q : Fields) :
  fst (auth_twitter_callback env fetch storage q) = storage
  \/ exists token, q !! "oauth_token" = Some token
                   /\ fst (auth_twitter_callback env fetch storage q)
                      = storage_delete storage token.
Proof.
  destruct (Js.falsy (q !! "oauth_token") || Js.falsy (q !! "oauth_verifier"))
    eqn:G.
  - left. now rewrite HandshakeFacts.callback_missing_params.
  - apply orb_false_iff in G as [G1 G2].
    apply HandshakeFacts.falsy_false in G1 as (token & Ht & Hne).
    destruct (Js.falsy (storage_get storage token)) eqn:S.
    + left. now rewrite (HandshakeFacts.callback_unknown_token env fetch storage q token).
    + right. exists token. split; [assumption |].
      now apply (HandshakeFacts.callback_known_token env fetch storage q token).
Qed.

(** X9. A callback never puts anything into the token cache, and the only
    entry it can remove is the one of the token it was called with: every
    entry found afterwards was there before with the same secret, and the
    entries of all other tokens are as they were. *)
Theorem callback_cache_effect (env : Config.Env)
    (fetch : Outgoing -> FetchResult) (storage : TokenStorage) (q : Fields) :
  (forall k v,
     storage_get (fst (auth_twitter_callback env fetch storage q)) k = Some v ->
     storage_get storage k = Some v)
  /\ (forall k,
        q !! "oauth_token" <> Some k ->
        storage_get (fst (auth_twitter_callback env fetch storage q)) k
        = storage_get storage k).
Proof.
  destruct (callback_storage env fetch storage q) as [->|(token & Ht & ->)].
  - split; auto.
  - split.
    + intros k v. apply storage_get_delete_Some.
    + intros k Hk. apply storage_get_delete_ne. congruence.
Qed.

Lemma callback_cache_effect_witness :
  storage_get
    (fst (auth_twitter_callback (Samples.env "admin" "password1")
            Samples.provider Samples.storage_tok
            (Samples.callback_query "other" "ver"))) "tok"
  = storage_get Samples.storage_tok "tok".
Proof.
  apply (proj2 (callback_cache_effect (Samples.env "admin" "password1")
                  Samples.provider Samples.storage_tok
                  (Samples.callback_query "other" "ver"))).
  vm_compute. discriminate.
Defined.


(** The codes the callback redirects with. *)
Lemma callback_answer (env : Config.Env) (fetch : Outgoing -> FetchResult)
    (storage : TokenStorage) (q : Fields) :
  (exists code,
     In code [ "missing_oauth_params"; "invalid_token"; "callback_failed";
               "access_token_failed"; "invalid_access_token";
               "user_info_failed" ]
     /\ snd (auth_twitter_callback env fetch storage q) = error_redirect env code)
  \/ Taxonomy.HandshakeCompleted env (snd (auth_twitter_callback env fetch storage q)).
Proof.
  unfold auth_twitter_callback.
  destruct (Js.falsy (q !! "oauth_token") || Js.falsy (q !! "oauth_verifier"));
    [left; eexists; split; [| reflexivity]; simpl; tauto |].
  destruct (Js.falsy (storage_get storage _));
    [left; eexists; split; [| reflexivity]; simpl; tauto |].
  destruct (Config.oauth env) as [consumer|];
    [| left; eexists; split; [| reflexivity]; simpl; tauto].
  destruct (fetch (access_token_call _ _ _ _)) as [m|status text js];
    [left; eexists; split; [| reflexivity]; simpl; tauto |].
  destruct (negb (ok status));
    [left; eexists; split; [| reflexivity]; simpl; tauto |].
  destruct (Js.falsy _ || Js.falsy _);
    [left; eexists; split; [| reflexivity]; simpl; tauto |].
  destruct (fetch (user_info_call _ _ _)) as [m|userStatus userText userJson];
    [left; eexists; split; [| reflexivity]; simpl; tauto |].
  destruct (negb (ok userStatus));
    [left; eexists; split; [| reflexivity]; simpl; tauto |].
  destruct userJson as [userData|];
    [| left; eexists; split; [| reflexivity]; simpl; tauto].
  right. exists userData. reflexivity.
Qed.

(** X10. Whatever the query, the cache and the provider, the callback
    answers with a 302 redirect to the frontend address: either with
    [?error=] and one of six codes, or with the profile parameters, which
    start with [auth=success]; it never answers with JSON. *)
Theorem callback_always_redirects (env : Config.Env)
    (fetch : Outgoing -> FetchResult) (storage : TokenStorage) (q : Fields) :
  exists tail,
    snd (auth_twitter_callback env fetch storage q)
    = mkResponse 302 (redirect (Config.FRONTEND_URL env +:+ "?" +:+ tail))
    /\ ((exists code,
           In code [ "missing_oauth_params"; "invalid_token"; "callback_failed";
                     "access_token_failed"; "invalid_access_token";
                     "user_info_failed" ]
           /\ tail = "error=" +:+ code)
        \/ (exists rest, tail = "auth=success&twitter_id=" +:+ rest)).
Proof.
  destruct (callback_answer env fetch storage q)
    as [(code & Hin & ->)|(userData & ->)].
  - exists ("error=" +:+ code). split; [reflexivity |]. left. eauto.
  - eexists. split; [reflexivity |]. right.
    unfold userParams, UrlSearchParams.toString.
    change (UrlSearchParams.encode "auth") with "auth".
    change (UrlSearchParams.encode "success") with "success".
    change (UrlSearchParams.encode "twitter_id") with "twitter_id".
    eexists. simpl. reflexivity.
Qed.

Lemma oauth_configured (env : Config.Env) :
  (exists consumer, Config.oauth env = Some consumer)
  <-> Js.falsy (Config.TWITTER_API_KEY env) = false
      /\ Js.falsy (Config.TWITTER_API_SECRET env) = false.
Proof.
  unfold Config.oauth.
  destruct (Config.TWITTER_API_KEY env) as [[|a k]|];
    destruct (Config.TWITTER_API_SECRET env) as [[|c s]|]; simpl;
    split; try (intros [H1 H2]; discriminate);
    try (intros [consumer H]; discriminate H); eauto.
Qed.

(** X11. The initiation route answers 500 and leaves the cache alone, or
    answers 200 with the authorization address of a token and has stored
    that token with its secret, both non-empty, other entries untouched.
    It answers 200 only when both provider credentials are configured;
    when the key or the secret is missing or empty it answers 500 whatever
    the provider would say. *)
Theorem initiation_effect (env : Config.Env) (fetch : Outgoing -> FetchResult)
    (storage : TokenStorage) :
  ((exists message,
      snd (auth_twitter env fetch storage) = status_json 500 (json_error message))
   /\ fst (auth_twitter env fetch storage) = storage)
  \/ (exists token secret,
        token <> "" /\ secret <> ""
        /\ Js.falsy (Config.TWITTER_API_KEY env) = false
        /\ Js.falsy (Config.TWITTER_API_SECRET env) = false
        /\ snd (auth_twitter env fetch storage)
           = json (json_auth_url
                     (Config.TWITTER_AUTHORIZE_URL +:+ "?oauth_token=" +:+ token))
        /\ storage_get (fst (auth_twitter env fetch storage)) token = Some secret
        /\ forall k, k <> token ->
                     storage_get (fst (auth_twitter env fetch storage)) k
                     = storage_get storage k).
Proof.
  destruct (Config.oauth env) as [consumer|] eqn:Ho.
  - rewrite (HandshakeFacts.auth_twitter_eq env fetch storage consumer Ho).
    destruct (fetch _) as [m|status text js]; [left; split; eauto |].
    destruct (negb (ok status)); [left; split; eauto |]. cbv zeta.
    destruct (Js.falsy (UrlSearchParams.get _ "oauth_token")
              || Js.falsy (UrlSearchParams.get _ "oauth_token_secret")) eqn:F;
      [left; split; eauto |].
    apply orb_false_iff in F as [F1 F2].
    apply HandshakeFacts.falsy_false in F1 as (t & E1 & Ht).
    apply HandshakeFacts.falsy_false in F2 as (s & E2 & Hs).
    rewrite E1, E2. simpl ExpressValidator.toString.
    right. exists t, s.
    destruct (proj1 (oauth_configured env) (ex_intro _ consumer Ho)) as [K1 K2].
    repeat split; try assumption.
    + apply HandshakeFacts.storage_get_set.
    + intros k Hk. simpl fst. now apply storage_get_set_ne.
  - left. unfold auth_twitter. rewrite Ho. split; eauto.
Qed.

(** X12. The handshake end to end.  With credentials configured, when
    the provider answers the request-token call with a token and a secret,
    the access-token call signed with that token, that secret and the
    verifier of the callback with an access token and its secret, and the
    profile call signed with these with a profile, then the callback that
    follows the initiation redirects to the frontend with the parameters of
    that profile, and the token is gone from the cache. *)
Theorem handshake_completes (env : Config.Env) (fetch : Outgoing -> FetchResult)
    (storage : TokenStorage) (consumer : Config.Consumer) (q : Fields)
    (status0 status1 status2 : nat) (text0 text1 text2 : string)
    (js0 js1 : option UserData) (userData : UserData)
    (token secret verifier access access_secret : string) :
  Config.oauth env = Some consumer ->
  fetch (request_token_call env consumer) = Responded status0 text0 js0 ->
  200 <= status0 <= 299 ->
  UrlSearchParams.get (UrlSearchParams.parse text0) "oauth_token" = Some token ->
  UrlSearchParams.get (UrlSearchParams.parse text0) "oauth_token_secret"
  = Some secret ->
  token <> "" -> secret <> "" ->
  q !! "oauth_token" = Some token ->
  q !! "oauth_verifier" = Some verifier -> verifier <> "" ->
  fetch (access_token_call consumer token secret verifier)
  = Responded status1 text1 js1 ->
  200 <= status1 <= 299 ->
  UrlSearchParams.get (UrlSearchParams.parse text1) "oauth_token" = Some access ->
  UrlSearchParams.get (UrlSearchParams.parse text1) "oauth_token_secret"
  = Some access_secret ->
  access <> "" -> access_secret <> "" ->
  fetch (user_info_call consumer access access_secret)
  = Responded status2 text2 (Some userData) ->
  200 <= status2 <= 299 ->
  let cache := fst (auth_twitter env fetch storage) in
  snd (auth_twitter_callback env fetch cache q)
  = redirect_to (Config.FRONTEND_URL env +:+ "?"
                 +:+ UrlSearchParams.toString (userParams userData))
  /\ storage_get (fst (auth_twitter_callback env fetch cache q)) token = None
  /\ forall k, k <> token ->
               storage_get (fst (auth_twitter_callback env fetch cache q)) k
               = storage_get storage k.
Proof.
  intros Ho F0 S0 T0 T0s Ht Hs Hq Hv Hvne F1 S1 T1 T1s Ha Has F2 S2 cache.
  assert (Hok : forall status, 200 <= status <= 299 -> ok status = true).
  { intros status H. unfold ok. rewrite andb_true_iff, !Nat.leb_le. tauto. }
  assert (Ecache : cache = storage_set storage token secret).
  { unfold cache.
    rewrite (HandshakeFacts.auth_twitter_eq env fetch storage consumer Ho), F0.
    rewrite (Hok _ S0). simpl negb. cbv iota zeta. rewrite T0, T0s.
    rewrite (proj2 (RegisterFacts.falsy_Some token) Ht),
            (proj2 (RegisterFacts.falsy_Some secret) Hs).
    reflexivity. }
  assert (E : auth_twitter_callback env fetch cache q
              = (storage_delete cache token,
                 redirect_to (Config.FRONTEND_URL env +:+ "?"
                              +:+ UrlSearchParams.toString (userParams userData)))).
  { unfold auth_twitter_callback. rewrite Hq, Hv.
    rewrite (proj2 (RegisterFacts.falsy_Some token) Ht),
            (proj2 (RegisterFacts.falsy_Some verifier) Hvne).
    simpl orb. cbv iota zeta. simpl ExpressValidator.toString.
    assert (Hget : storage_get cache token = Some secret)
      by (rewrite Ecache; apply HandshakeFacts.storage_get_set).
    rewrite Hget.
    rewrite (proj2 (RegisterFacts.falsy_Some secret) Hs). cbv iota.
    simpl ExpressValidator.toString.
    rewrite Ho, F1, (Hok _ S1). simpl negb. cbv iota. rewrite T1, T1s.
    rewrite (proj2 (RegisterFacts.falsy_Some access) Ha),
            (proj2 (RegisterFacts.falsy_Some access_secret) Has).
    simpl orb. cbv iota. simpl ExpressValidator.toString.
    rewrite F2, (Hok _ S2). reflexivity. }
  rewrite E. simpl fst. simpl snd. split; [reflexivity |]. split.
  - apply HandshakeFacts.storage_get_delete.
  - intros k Hk. rewrite storage_get_delete_ne by assumption.
    rewrite Ecache. now apply storage_get_set_ne.
Qed.

Lemma handshake_completes_witness :
  snd (auth_twitter_callback (Samples.env "admin" "password1")
         Samples.provider Samples.storage_tok
         (Samples.callback_query "tok" "ver"))
  = redirect_to
      ("http://localhost:5173?auth=success&twitter_id=7"
       +:+ "&twitter_username=alice&twitter_name=Alice"
       +:+ "&profile_image=https%3A%2F%2Fpbs.twimg.com%2Fa.png")
  /\ storage_get
       (fst (auth_twitter_callback (Samples.env "admin" "password1")
               Samples.provider Samples.storage_tok
               (Samples.callback_query "tok" "ver"))) "tok" = None.
Proof.
  destruct (handshake_completes (Samples.env "admin" "password1")
              Samples.provider None
              (Config.mkConsumer "consumer-key" "consumer-secret")
              (Samples.callback_query "tok" "ver")
              200 200 200
              "oauth_token=tok&oauth_token_secret=sec&oauth_callback_confirmed=true"
              "oauth_token=acc&oauth_token_secret=accsec&user_id=7&screen_name=alice"
              "{}" None None
              (mkUserData (Some "7") (Some "alice") (Some "Alice")
                 (Some "https://pbs.twimg.com/a.png"))
              "tok" "sec" "ver" "acc" "accsec") as (H1 & H2 & _).
  - reflexivity.
  - reflexivity.
  - lia.
  - vm_compute. reflexivity.
  - vm_compute. reflexivity.
  - discriminate.
  - discriminate.
  - vm_compute. reflexivity.
  - vm_compute. reflexivity.
  - discriminate.
  - reflexivity.
  - lia.
  - vm_compute. reflexivity.
  - vm_compute. reflexivity.
  - discriminate.
  - discriminate.
  - reflexivity.
  - lia.
  - split; [exact H1 | exact H2].
Defined.

End HandshakeLaws.

(** ** The callback address *)

Module CallbackUrlLaws.

Import Handshake.

#[local] Arguments String.append !_ _ / : simpl nomatch.

Lemma before_eq (p s : string) :
  before p s =
  if startsWith p s then Some EmptyString
  else match s with
       | EmptyString => None
       | String c s' => option_map (String c) (before p s')
       end.
Proof. destruct s; reflexivity. Qed.

Lemma startsWith_self (p r : string) : startsWith p (p +:+ r) = true.
Proof.
  induction p as [|a p IH]; simpl; [reflexivity |].
  now rewrite Ascii.eqb_refl, IH.
Qed.

Lemma startsWith_spec (p s : string) :
  startsWith p s = true -> exists r, s = p +:+ r.
Proof.
  revert s. induction p as [|a p IH]; intros s H.
  - now exists s.
  - destruct s as [|b s]; simpl in H; [discriminate |].
    apply andb_prop in H as [Hab Hp].
    apply Ascii.eqb_eq in Hab as ->.
    destruct (IH _ Hp) as [r ->]. now exists r.
Qed.

Lemma before_spec (p s d : string) :
  before p s = Some d -> exists r, s = d +:+ p +:+ r.
Proof.
  revert d. induction s as [|c s IH]; intros d H; rewrite before_eq in H.
  - destruct (startsWith p "") eqn:E; [| discriminate].
    injection H as <-. now apply startsWith_spec.
  - destruct (startsWith p (String c s)) eqn:E.
    + injection H as <-. now apply startsWith_spec.
    + destruct (before p s) as [d'|] eqn:E'; [| discriminate].
      injection H as <-. destruct (IH d' eq_refl) as [r ->]. now exists r.
Qed.

Lemma before_occurs (p s : string) :
  Shapes.occurs p s -> before p s <> None.
Proof.
  intros (l & r & ->). induction l as [|c l IH]; rewrite before_eq.
  - simpl. now rewrite startsWith_self.
  - destruct (startsWith p _); [discriminate |].
    simpl. destruct (before p (l +:+ p +:+ r)); [discriminate | contradiction].
Qed.

Lemma before_minimal (p d rest : string) :
  (forall l r, d +:+ p +:+ rest = l +:+ p +:+ r ->
               String.length d <= String.length l) ->
  before p (d +:+ p +:+ rest) = Some d.
Proof.
  induction d as [|c d IH]; intros Hmin; rewrite before_eq.
  - simpl. now rewrite startsWith_self.
  - destruct (startsWith p _) eqn:E.
    + apply startsWith_spec in E as [r E].
      specialize (Hmin "" r E). simpl in Hmin. lia.
    + simpl. rewrite IH; [reflexivity |].
      intros l r H. specialize (Hmin (String c l) r).
      simpl in Hmin. rewrite H in Hmin. specialize (Hmin eq_refl). lia.
Qed.

Lemma strip_cons (c : ascii) (s : string) :
  strip_slashes (String c s) =
  match strip_slashes s with
  | EmptyString =>
      if Js.is_char "/" c then EmptyString else String c EmptyString
  | r => String c r
  end.
Proof. reflexivity. Qed.

Lemma strip_ends (s : string) :
  strip_slashes s = s \/ Shapes.ends_with "/" s.
Proof.
  induction s as [|c s IH]; [now left |].
  destruct IH as [IH | [l ->]].
  - rewrite strip_cons, IH. destruct s as [|c' s'].
    + destruct (Js.is_char "/" c) eqn:E; [| now left].
      right. exists "". apply Ascii.eqb_eq in E as <-. reflexivity.
    + now left.
  - right. now exists (String c l).
Qed.

Lemma strip_all_slashes (sl : string) :
  Js.all (Js.is_char "/") sl = true -> strip_slashes sl = "".
Proof.
  induction sl as [|c sl IH]; [reflexivity |].
  intros H. apply andb_prop in H as [Hc Hs]. now rewrite strip_cons, IH, Hc.
Qed.

Lemma strip_app_slashes (x sl : string) :
  Js.all (Js.is_char "/") sl = true ->
  strip_slashes (x +:+ sl) = strip_slashes x.
Proof.
  intros H. induction x as [|c x IH].
  - now apply strip_all_slashes.
  - change (String c x +:+ sl) with (String c (x +:+ sl)).
    now rewrite !strip_cons, IH.
Qed.

Lemma strip_prefix (s : string) : exists sl, s = strip_slashes s +:+ sl.
Proof.
  induction s as [|c s [sl IH]]; [now exists "" |].
  rewrite strip_cons. destruct (strip_slashes s) as [|c' r].
  - simpl in IH. destruct (Js.is_char "/" c).
    + now exists (String c s).
    + exists s. reflexivity.
  - exists sl. simpl. now rewrite IH at 1.
Qed.

Lemma strip_app_keep (x y : string) :
  strip_slashes y <> "" -> strip_slashes (x +:+ y) = x +:+ strip_slashes y.
Proof.
  intros H. induction x as [|c x IH]; [reflexivity |].
  change (String c x +:+ y) with (String c (x +:+ y)).
  rewrite strip_cons, IH.
  change (String c x +:+ strip_slashes y)
    with (String c (x +:+ strip_slashes y)).
  destruct (x +:+ strip_slashes y) eqn:E; [| reflexivity].
  apply JsFacts.app_eq_nil in E as [_ E]. contradiction.
Qed.

Lemma strip_keeps_i (rest : string) :
  exists rest', strip_slashes (String "i" rest) = String "i" rest'.
Proof.
  rewrite strip_cons. destruct (strip_slashes rest); [now exists "" | eauto].
Qed.

Lemma base_outside_production (env : Config.Env) :
  Config.NODE_ENV env <> Some "production" ->
  callback_url env = "http://localhost:3001/api/auth/twitter/callback".
Proof.
  unfold callback_url. intros H.
  destruct (Config.NODE_ENV env) as [s|]; [| reflexivity].
  repeat match goal with
         | |- context [match ?x with _ => _ end] =>
             is_var x; destruct x; try reflexivity
         end.
  congruence.
Qed.

Lemma startsWith_app (p x y : string) :
  startsWith p x = true -> startsWith p (x +:+ y) = true.
Proof.
  revert x. induction p as [|a p IH]; intros x H; [reflexivity |].
  destruct x as [|b x]; simpl in *; [discriminate |].
  apply andb_prop in H as [-> H]. now rewrite IH.
Qed.

Lemma before_nil (p : string) : p <> "" -> before p "" = None.
Proof. destruct p; [contradiction | reflexivity]. Qed.

Lemma before_not_again (p s d : string) :
  p <> "" -> before p s = Some d -> before p d = None.
Proof.
  intros Hp. revert d. induction s as [|c s IH]; intros d H.
  - rewrite before_nil in H by assumption. discriminate.
  - rewrite before_eq in H. destruct (startsWith p (String c s)) eqn:E.
    + injection H as <-. now apply before_nil.
    + destruct (before p s) as [d'|] eqn:E'; [| discriminate].
      injection H as <-. rewrite before_eq.
      destruct (startsWith p (String c d')) eqn:E''.
      * destruct (before_spec _ _ _ E') as [r Hs].
        apply (startsWith_app _ _ (p +:+ r)) in E''.
        simpl in E''. rewrite <- Hs in E''. congruence.
      * now rewrite (IH d' eq_refl).
Qed.

Lemma callback_url_production (env : Config.Env) (u : string) :
  Config.NODE_ENV env = Some "production" ->
  Config.or_else (Config.BACKEND_URL env)
    "https://madcatsuite-production-7b53.up.railway.app" = u ->
  callback_url env =
  match before "/api" (strip_slashes u) with
  | Some domain => domain
  | None => strip_slashes u
  end +:+ "/api/auth/twitter/callback".
Proof. unfold callback_url. now intros -> ->. Qed.

Lemma api_not_nil : "/api" <> "".
Proof. discriminate. Qed.

(** X13.  The address handed to the provider as [oauth_callback] is always
    some base followed by [/api/auth/twitter/callback], and [/api] does not
    occur in that base, whatever the environment holds; outside production
    it is the address on localhost:3001, and in production without
    [BACKEND_URL] (unset or empty) it is the address on the fixed
    deployment. *)
Theorem callback_url_shape (env : Config.Env) :
  (exists base,
     callback_url env = base +:+ "/api/auth/twitter/callback"
     /\ ~ Shapes.occurs "/api" base)
  /\ (Config.NODE_ENV env <> Some "production" ->
      callback_url env = "http://localhost:3001/api/auth/twitter/callback")
  /\ (Config.NODE_ENV env = Some "production" ->
      Js.falsy (Config.BACKEND_URL env) = true ->
      callback_url env =
      "https://madcatsuite-production-7b53.up.railway.app/api/auth/twitter/callback").
Proof.
  split; [| split].
  - unfold callback_url.
    set (b := strip_slashes _).
    destruct (before "/api" b) as [d|] eqn:E.
    + exists d. split; [reflexivity |]. intros Ho.
      apply before_occurs in Ho.
      now rewrite (before_not_again _ _ _ api_not_nil E) in Ho.
    + exists b. split; [reflexivity |]. intros Ho.
      now apply before_occurs in Ho.
  - apply base_outside_production.
  - intros Hp Hb.
    rewrite (callback_url_production env
               "https://madcatsuite-production-7b53.up.railway.app" Hp).
    + reflexivity.
    + destruct (Config.BACKEND_URL env) as [[|c u]|];
        [reflexivity | discriminate | reflexivity].
Qed.

Lemma callback_url_shape_witness :
  callback_url (Samples.env "admin" "password1") =
  "http://localhost:3001/api/auth/twitter/callback"
  /\ callback_url (MoreSamples.production "") =
     "https://madcatsuite-production-7b53.up.railway.app/api/auth/twitter/callback".
Proof.
  split.
  - apply (proj1 (proj2 (callback_url_shape (Samples.env "admin" "password1")))).
    discriminate.
  - apply (proj2 (proj2 (callback_url_shape (MoreSamples.production "")))).
    + reflexivity.
    + reflexivity.
Defined.

(** X14.  In production, trailing slashes of [BACKEND_URL] do not reach the
    callback address: for a non-empty [d] that does not end in a slash and
    in which [/api] does not occur, [BACKEND_URL] set to [d] followed by any
    number of slashes gives [d/api/auth/twitter/callback]. *)
Theorem trailing_slashes_dropped (env : Config.Env) (d sl : string) :
  Config.NODE_ENV env = Some "production" ->
  Config.BACKEND_URL env = Some (d +:+ sl) ->
  d <> "" ->
  Js.all (Js.is_char "/") sl = true ->
  ~ Shapes.ends_with "/" d ->
  ~ Shapes.occurs "/api" d ->
  callback_url env = d +:+ "/api/auth/twitter/callback".
Proof.
  intros Hp Hb Hd Hsl Hend Hocc.
  rewrite (callback_url_production env (d +:+ sl) Hp).
  - rewrite strip_app_slashes by assumption.
    destruct (strip_ends d) as [-> | E]; [| contradiction].
    destruct (before "/api" d) as [x|] eqn:E; [| reflexivity].
    destruct Hocc. destruct (before_spec _ _ _ E) as [r ->]. now exists x, r.
  - rewrite Hb. destruct d; [contradiction | reflexivity].
Qed.

Lemma trailing_slashes_dropped_witness :
  callback_url (MoreSamples.production "https://madcat.example.com//") =
  "https://madcat.example.com/api/auth/twitter/callback".
Proof.
  apply (trailing_slashes_dropped
           (MoreSamples.production "https://madcat.example.com//")
           "https://madcat.example.com" "//").
  - reflexivity.
  - reflexivity.
  - discriminate.
  - reflexivity.
  - intros [l H].
    do 26 (destruct l as [|? l]; [discriminate H | injection H as _ H]).
    destruct l; discriminate H.
  - intros (l & r & H).
    do 23 (destruct l as [|? l]; [discriminate H | injection H as _ H]).
    destruct l as [|? l]; [discriminate H | injection H as _ H].
    destruct l as [|? l]; [discriminate H | injection H as _ H].
    destruct l as [|? l]; [discriminate H | injection H as _ H].
    destruct l; discriminate H.
Defined.

(** X15.  In production, a [BACKEND_URL] in which [/api] occurs is cut at
    its first occurrence: with [d] the part before it, the callback address
    is [d/api/auth/twitter/callback], whatever follows.  This holds as well
    when the occurrence lies in the host name, as in
    [https://api.example.com], which gives
    [https://api/auth/twitter/callback]. *)
Theorem backend_path_dropped (env : Config.Env) (d rest : string) :
  Config.NODE_ENV env = Some "production" ->
  Config.BACKEND_URL env = Some (d +:+ "/api" +:+ rest) ->
  (forall l r, d +:+ "/api" +:+ rest = l +:+ "/api" +:+ r ->
               String.length d <= String.length l) ->
  callback_url env = d +:+ "/api/auth/twitter/callback".
Proof.
  intros Hp Hb Hmin.
  rewrite (callback_url_production env (d +:+ "/api" +:+ rest) Hp).
  - destruct (strip_keeps_i rest) as [rest' Hi].
    assert (Hs : strip_slashes (d +:+ "/api" +:+ rest)
                 = d +:+ "/api" +:+ rest').
    { change (d +:+ "/api" +:+ rest)
        with (d +:+ ("/ap" +:+ String "i" rest)).
      rewrite <- JsFacts.app_assoc.
      rewrite strip_app_keep by (rewrite Hi; discriminate).
      rewrite Hi, JsFacts.app_assoc. reflexivity. }
    rewrite Hs, before_minimal; [reflexivity |].
    intros l r H. destruct (strip_prefix (d +:+ "/api" +:+ rest)) as [sl Hsl].
    apply (Hmin l (r +:+ sl)).
    rewrite Hsl at 1. rewrite Hs, H, !JsFacts.app_assoc. reflexivity.
  - rewrite Hb. destruct d; reflexivity.
Qed.

Lemma backend_path_dropped_witness :
  callback_url (MoreSamples.production "https://api.example.com") =
  "https://api/auth/twitter/callback".
Proof.
  apply (backend_path_dropped
           (MoreSamples.production "https://api.example.com")
           "https:/" ".example.com").
  - reflexivity.
  - reflexivity.
  - intros l r H.
    do 7 (destruct l as [|? l]; [discriminate H | injection H as _ H]).
    simpl. lia.
Defined.

End CallbackUrlLaws.

(** ** The status log *)

Module StatusLaws.

Import Status.

Lemma varchar_spaces (n : nat) (s s' : string) :
  Pg.varchar n s = inr s' ->
  String.length s' <= n
  /\ exists spaces, s = s' +:+ spaces /\ Js.all (Js.is_char " ") spaces = true.
Proof.
  unfold Pg.varchar. destruct (String.length s <=? n) eqn:L.
  - intros [= <-]. apply Nat.leb_le in L. split; [exact L |].
    exists "". now rewrite JsFacts.app_nil_r.
  - destruct (Js.all _ (Js.drop n s)) eqn:A; [| discriminate].
    intros [= <-]. apply Nat.leb_gt in L. split.
    + clear A. revert s L. induction n as [|n IH]; intros s L.
      * destruct s; simpl; lia.
      * destruct s as [|c s]; simpl in *; [lia |].
        specialize (IH s). lia.
    + exists (Js.drop n s). split; [| exact A].
      clear. revert s. induction n as [|n IH]; intros s.
      * destruct s; reflexivity.
      * destruct s as [|c s]; simpl; [reflexivity |]. now rewrite <- IH.
Qed.

Lemma existsb_id (table : list Row) (uuid : string) :
  existsb (fun r => String.eqb (id r) uuid) table = false ->
  ~ In uuid (map id table).
Proof.
  intros H Hin. apply in_map_iff in Hin as (r & <- & Hr).
  assert (E : existsb (fun r0 => String.eqb (id r0) (id r)) table = true).
  { apply existsb_exists. exists r. split; [exact Hr | apply String.eqb_refl]. }
  congruence.
Qed.

Lemma id_existsb (table : list Row) (uuid : string) :
  ~ In uuid (map id table) ->
  existsb (fun r => String.eqb (id r) uuid) table = false.
Proof.
  intros H. destruct (existsb _ table) eqn:E; [| reflexivity].
  apply existsb_exists in E as (r & Hr & E). apply String.eqb_eq in E.
  destruct H. apply in_map_iff. now exists r.
Qed.

Lemma post_status_cases (uuid : string) (now : Z) (table : list Row)
    (b : Http.Fields) :
  (exists error,
     post_status uuid now table b = (table, mkResponse 500 (json_error error)))
  \/ (exists name stored,
        b !! "client_name" = Some name
        /\ Pg.varchar 255 name = inr stored
        /\ ~ In uuid (map id table)
        /\ post_status uuid now table b
           = (table ++ [mkRow uuid stored now],
              mkResponse 200 (json_row (mkRow uuid stored now)))).
Proof.
  unfold post_status, insert_status_check, Pg.varchar_not_null.
  destruct (Pg.bind_params _); [left; eauto |].
  destruct (b !! "client_name") as [name|]; [| left; eauto].
  destruct (Pg.varchar 255 name) as [e|stored] eqn:V; [left; eauto |].
  destruct (existsb _ table) eqn:E; [left; eauto |].
  right. exists name, stored.
  split; [reflexivity |]. split; [exact V |].
  split; [now apply existsb_id | reflexivity].
Qed.

(** X16.  A status check with a name of at most 255 characters that holds
    no code unit 0, the empty name included, is stored as sent under the
    identifier drawn for it, provided no stored row has that identifier:
    the answer is 200 with the new row, which is put after the stored
    ones.  The listing that follows answers 200 with the earlier rows and
    that row, each once, in whatever order the engine returns them. *)
Theorem status_check_recorded (uuid : string) (now : Z) (table : list Row)
    (b : Http.Fields) (name : string) (scan : list Row -> list Row) :
  b !! "client_name" = Some name ->
  String.length name <= 255 ->
  Spec.nul_free name ->
  ~ In uuid (map id table) ->
  any_order scan ->
  post_status uuid now table b
  = (table ++ [mkRow uuid name now],
     mkResponse 200 (json_row (mkRow uuid name now)))
  /\ exists listed,
       get_status scan (fst (post_status uuid now table b))
       = mkResponse 200 (json_rows listed)
       /\ Permutation listed (mkRow uuid name now :: table).
Proof.
  intros Hb Hl Hn Hid Hscan.
  assert (E : post_status uuid now table b
              = (table ++ [mkRow uuid name now],
                 mkResponse 200 (json_row (mkRow uuid name now)))).
  { unfold post_status, insert_status_check, Pg.varchar_not_null, Pg.varchar.
    rewrite Hb.
    assert (B : Pg.bind_params [Some name] = None).
    { apply PgFacts.bind_params_none. intros s [[= <-]|[]].
      now apply PgFacts.has_nul_free. }
    rewrite B. apply Nat.leb_le in Hl. rewrite Hl.
    now rewrite (id_existsb _ _ Hid). }
  split; [exact E |]. rewrite E. simpl fst.
  exists (scan (table ++ [mkRow uuid name now])). split; [reflexivity |].
  apply Permutation_trans with (table ++ [mkRow uuid name now]).
  - apply Hscan.
  - apply Permutation_sym, Permutation_cons_append.
Qed.

Lemma status_check_recorded_witness :
  post_status "3f2a" 9 [MoreSamples.check_row "11c0" "probe" 5]
    (MoreSamples.check_in "")
  = ([MoreSamples.check_row "11c0" "probe" 5; MoreSamples.check_row "3f2a" "" 9],
     mkResponse 200 (json_row (MoreSamples.check_row "3f2a" "" 9)))
  /\ exists listed,
       get_status (@rev Row)
         (fst (post_status "3f2a" 9 [MoreSamples.check_row "11c0" "probe" 5]
                 (MoreSamples.check_in "")))
       = mkResponse 200 (json_rows listed)
       /\ Permutation listed
            [MoreSamples.check_row "3f2a" "" 9;
             MoreSamples.check_row "11c0" "probe" 5].
Proof.
  apply (status_check_recorded "3f2a" 9 [MoreSamples.check_row "11c0" "probe" 5]
           (MoreSamples.check_in "") "" (@rev Row)).
  - reflexivity.
  - simpl. lia.
  - exact (proj1 (PgFacts.has_nul_free "") eq_refl).
  - simpl. intros [H | []]. discriminate H.
  - intros rows. apply Permutation_sym, Permutation_rev.
Defined.

(** X17.  Whatever the request, the status route either answers 500 with an
    error text and leaves the table as it was, or answers 200 with a row
    that it has put at the end of the table, nothing else changed: the row
    carries the drawn identifier and the time of the statement, its name is
    the submitted one up to spaces cut off at the end and has at most 255
    characters.  A request without a name is always answered 500.  In both
    cases identifiers that were pairwise distinct stay so. *)
Theorem status_post_effect (uuid : string) (now : Z) (table : list Row)
    (b : Http.Fields) :
  ((exists error,
      post_status uuid now table b = (table, mkResponse 500 (json_error error)))
   \/ (exists name stored spaces,
         b !! "client_name" = Some name
         /\ name = stored +:+ spaces
         /\ Js.all (Js.is_char " ") spaces = true
         /\ String.length stored <= 255
         /\ post_status uuid now table b
            = (table ++ [mkRow uuid stored now],
               mkResponse 200 (json_row (mkRow uuid stored now)))))
  /\ (b !! "client_name" = None ->
      fst (post_status uuid now table b) = table
      /\ status (snd (post_status uuid now table b)) = 500)
  /\ (List.NoDup (map id table) ->
      List.NoDup (map id (fst (post_status uuid now table b)))).
Proof.
  split; [| split].
  - destruct (post_status_cases uuid now table b)
      as [[e E] | (name & stored & Hb & V & _ & E)]; [left; eauto |].
    right. destruct (varchar_spaces _ _ _ V) as (L & spaces & Hn & Hs).
    exists name, stored, spaces. tauto.
  - intros Hb. unfold post_status, insert_status_check, Pg.varchar_not_null.
    rewrite Hb. now split.
  - intros Hnd. destruct (post_status_cases uuid now table b)
      as [[e E] | (name & stored & Hb & V & Hid & E)]; rewrite E; simpl.
    + exact Hnd.
    + apply RegistrationLaws.NoDup_map_snoc; [exact Hnd |].
      intros y Hy Heq. apply Hid. apply in_map_iff. now exists y.
Qed.

Lemma status_post_effect_witness :
  fst (post_status "3f2a" 9 [MoreSamples.check_row "11c0" "probe" 5] ∅)
  = [MoreSamples.check_row "11c0" "probe" 5]
  /\ status (snd (post_status "3f2a" 9 [MoreSamples.check_row "11c0" "probe" 5] ∅))
     = 500
  /\ List.NoDup
       (map id (fst (post_status "11c0" 9
                       [MoreSamples.check_row "11c0" "probe" 5]
                       (MoreSamples.check_in "probe")))).
Proof.
  split; [| split].
  - apply (proj1 (proj2 (status_post_effect "3f2a" 9
                           [MoreSamples.check_row "11c0" "probe" 5] ∅))).
    reflexivity.
  - apply (proj1 (proj2 (status_post_effect "3f2a" 9
                           [MoreSamples.check_row "11c0" "probe" 5] ∅))).
    reflexivity.
  - apply (proj2 (proj2 (status_post_effect "11c0" 9
                           [MoreSamples.check_row "11c0" "probe" 5]
                           (MoreSamples.check_in "probe")))).
    simpl. constructor; [intros [] | constructor].
Defined.

End StatusLaws.

(** ** The CORS middlewares *)

Module CorsLaws.

Import Cors.

#[local] Arguments String.append !_ _ / : simpl nomatch.

Lemma includes_occurs (p s : string) :
  includes p s = true <-> Shapes.occurs p s.
Proof.
  unfold includes. split.
  - destruct (Handshake.before p s) as [d|] eqn:E; [| discriminate].
    intros _. destruct (CallbackUrlLaws.before_spec _ _ _ E) as [r ->].
    now exists d, r.
  - intros H. apply CallbackUrlLaws.before_occurs in H.
    now destruct (Handshake.before p s).
Qed.

Lemma listed_In (l : list string) (o : string) :
  listed l o = true <-> In o l.
Proof.
  unfold listed. rewrite existsb_exists. split.
  - intros (x & Hx & E). apply String.eqb_eq in E. now subst.
  - intros H. exists o. split; [exact H | apply String.eqb_refl].
Qed.

Lemma split_cons (c : ascii) (s : string) :
  UrlSearchParams.split "," (String c s) =
  if Ascii.eqb c ","
  then EmptyString :: UrlSearchParams.split "," s
  else match UrlSearchParams.split "," s with
       | [] => [String c EmptyString]
       | piece :: pieces => String c piece :: pieces
       end.
Proof. reflexivity. Qed.

Lemma has_cons (c : ascii) (s : string) :
  Js.has (Js.is_char ",") (String c s) = false ->
  Ascii.eqb c "," = false /\ Js.has (Js.is_char ",") s = false.
Proof.
  change (Js.has (Js.is_char ",") (String c s))
    with (Ascii.eqb "," c || Js.has (Js.is_char ",") s).
  rewrite (Ascii.eqb_sym c). apply orb_false_elim.
Qed.

Lemma split_plain (e : string) :
  Js.has (Js.is_char ",") e = false -> UrlSearchParams.split "," e = [e].
Proof.
  induction e as [|c e IH]; [reflexivity |].
  intros H. apply has_cons in H as [Hc He].
  now rewrite split_cons, Hc, (IH He).
Qed.

Lemma split_entry (e rest : string) :
  Js.has (Js.is_char ",") e = false ->
  UrlSearchParams.split "," (e +:+ "," +:+ rest)
  = e :: UrlSearchParams.split "," rest.
Proof.
  induction e as [|c e IH]; [reflexivity |].
  intros H. apply has_cons in H as [Hc He].
  change (String c e +:+ "," +:+ rest) with (String c (e +:+ "," +:+ rest)).
  now rewrite split_cons, Hc, (IH He).
Qed.

Lemma split_join (e : string) (es : list string) :
  List.Forall (fun x => Js.has (Js.is_char ",") x = false) (e :: es) ->
  UrlSearchParams.split "," (join_commas (e :: es)) = e :: es.
Proof.
  revert e. induction es as [|e' es IH]; intros e H.
  - apply split_plain. now inversion H.
  - inversion H as [|? ? He Hes]; subst.
    change (join_commas (e :: e' :: es))
      with (e +:+ "," +:+ join_commas (e' :: es)).
    now rewrite split_entry, IH.
Qed.

Lemma health_platform (o : string) :
  health_check_origin o = true -> platform_origin o = true.
Proof.
  unfold health_check_origin, platform_origin.
  intros ->. reflexivity.
Qed.

Lemma production_ne (N : option string) :
  Users.strict_ne N (Some "production") = true <-> N <> Some "production".
Proof.
  destruct (Users.strict_ne N (Some "production")) eqn:E.
  - split; [| reflexivity]. intros _ ->.
    now rewrite (proj2 (UsersFacts.strict_ne_false _ _) eq_refl) in E.
  - apply UsersFacts.strict_ne_false in E. split; [discriminate | congruence].
Qed.

Lemma platform_occurs (o : string) :
  platform_origin o = true <->
  exists p, In p [ ".railway.app"; ".netlify.app"; ".vercel.app";
                   ".herokuapp.com"; ".render.com"; ".github.io" ]
            /\ Shapes.occurs p o.
Proof.
  unfold platform_origin. rewrite !orb_true_iff, !includes_occurs. split.
  - intros [[[[[H|H]|H]|H]|H]|H]; eexists; (split; [| exact H]); simpl; tauto.
  - intros (p & Hp & H). simpl in Hp.
    destruct Hp as [<-|[<-|[<-|[<-|[<-|[<-|[]]]]]]]; tauto.
Qed.

Lemma allowed_In (C F : option string) (o : string) :
  In o (allowedOrigins C F) <->
  In o [ "http://localhost:5173"; "http://localhost:3000";
         "http://localhost:5000"; "https://cat.blockmintlabs.com";
         "https://poetic-pothos-ea5bb5.netlify.app";
         "https://madcatsuite-production-7b53.up.railway.app" ]
  \/ (exists s, C = Some s /\ s <> "" /\ In o (origins_of s))
  \/ (F = Some o /\ o <> "").
Proof.
  unfold allowedOrigins.
  set (fixed := [ "http://localhost:5173"; _; _; _; _; _ ]).
  set (custom := if Js.falsy C then fixed else _).
  assert (Hc : In o custom <->
               In o fixed \/ exists s, C = Some s /\ s <> "" /\ In o (origins_of s)).
  { subst custom. destruct C as [[|c s]|]; simpl Js.falsy; cbv iota.
    - split; [now left | intros [H | (s & [= <-] & Hs & _)]; [exact H | now destruct Hs]].
    - rewrite in_app_iff. simpl ExpressValidator.toString. split.
      + intros [H | H]; [now left | right]. exists (String c s).
        split; [reflexivity | split; [discriminate | exact H]].
      + intros [H | (s' & [= <-] & _ & H)]; [now left | now right].
    - split; [now left | intros [H | (s & [=] & _)]; exact H]. }
  destruct F as [[|c f]|]; simpl Js.truthy; cbv iota; simpl andb.
  - rewrite Hc. split; [tauto |]. intros [H | [H | [[= <-] H]]]; tauto.
  - simpl ExpressValidator.toString.
    destruct (listed custom (String c f)) eqn:L; simpl negb; cbv iota.
    + rewrite Hc. split; [tauto |]. intros [H | [H | [[= <-] _]]]; [tauto | tauto |].
      apply Hc. now apply listed_In.
    + rewrite in_app_iff, Hc. simpl. split.
      * intros [H | [<- | []]]; [tauto |]. right. right. split; [reflexivity | discriminate].
      * intros [H | [H | [[= <-] _]]]; tauto.
  - rewrite Hc. split; [tauto |]. intros [H | [H | [[=] _]]]; tauto.
Qed.

Lemma header_eq (N C F origin : option string) :
  allow_origin_header N C F origin
  = if isAllowed N C F origin then Some (Config.or_else origin "*") else None.
Proof.
  unfold allow_origin_header.
  destruct (isAllowed N C F origin) eqn:E; [reflexivity |].
  unfold isAllowed in E. apply orb_false_elim in E as [_ E].
  destruct (Js.truthy origin); [| reflexivity].
  simpl in E |- *.
  destruct (health_check_origin _) eqn:H; [| reflexivity].
  apply health_platform in H. congruence.
Qed.

Lemma origin_allowed_iff (C origin : option string) :
  origin_allowed C origin = true <->
  Js.falsy origin = true
  \/ exists s o, C = Some s /\ origin = Some o /\ In o (origins_of s).
Proof.
  unfold origin_allowed. destruct (Js.falsy origin) eqn:E.
  - split; [now left | reflexivity].
  - destruct C as [s|].
    + rewrite listed_In. split.
      * intros H. right. destruct origin as [o|]; [| discriminate].
        exists s, o. auto.
      * intros [H | (s' & o & [= <-] & -> & H)]; [discriminate | exact H].
    + split; [discriminate |].
      intros [H | (s & o & H & _)]; discriminate.
Qed.

Lemma api_passes_iff (C : option string) (path : string)
    (origin : option string) :
  api_passes C path origin = true <->
  path = "/auth/twitter/callback" \/ origin_allowed C origin = true.
Proof.
  unfold api_passes.
  destruct (String.eqb path "/auth/twitter/callback") eqn:E.
  - apply String.eqb_eq in E. split; [now left | reflexivity].
  - apply String.eqb_neq in E. split; [now right | now intros [H | H]].
Qed.

(** X18.  The gate on [/api] of the bootstrap with the cors package.  With
    [CORS_ORIGINS] written as entries separated by commas, a request passes
    exactly when its path is the OAuth callback, or it carries no origin
    (or an empty one), or its origin equals one of the entries with the
    blanks around it removed; with [CORS_ORIGINS] unset only the first two
    cases pass, so every browser origin is refused. *)
Theorem api_cors_gate (e : string) (es : list string) (path : string)
    (origin : option string) :
  List.Forall (fun x => Js.has (Js.is_char ",") x = false) (e :: es) ->
  (api_passes (Some (join_commas (e :: es))) path origin = true <->
   path = "/auth/twitter/callback" \/ Js.falsy origin = true
   \/ exists o, origin = Some o /\ In o (map trim (e :: es)))
  /\ (api_passes None path origin = true <->
      path = "/auth/twitter/callback" \/ Js.falsy origin = true).
Proof.
  intros H. pose proof (split_join _ _ H) as Hs.
  revert Hs. generalize (join_commas (e :: es)). intros cfg Hs.
  assert (Ho : origins_of cfg = map trim (e :: es))
    by (unfold origins_of; now rewrite Hs).
  rewrite !api_passes_iff, !origin_allowed_iff. split.
  - split.
    + intros [Hp | [Hf | (s & o & [= <-] & -> & Hin)]]; [tauto | tauto |].
      right. right. exists o. split; [reflexivity |]. now rewrite <- Ho.
    + intros [Hp | [Hf | (o & -> & Hin)]]; [tauto | tauto |].
      right. right. exists cfg, o.
      split; [reflexivity | split; [reflexivity |]]. now rewrite Ho.
  - split; [| tauto].
    intros [Hp | [Hf | (s & o & Hc & _)]]; [tauto | tauto | discriminate].
Qed.

Lemma api_cors_gate_witness :
  api_passes
    (Some (join_commas ["https://cat.blockmintlabs.com"; " http://localhost:5173 "]))
    "/register" (Some "http://localhost:5173") = true.
Proof.
  apply (proj1 (api_cors_gate "https://cat.blockmintlabs.com"
                  [" http://localhost:5173 "] "/register"
                  (Some "http://localhost:5173")
                  ltac:(repeat constructor))).
  right. right. exists "http://localhost:5173".
  split; [reflexivity |]. right. left. reflexivity.
Defined.

(** X19.  In the bootstrap with sessions, the branch kept for health checks
    of deployment platforms never sets the header: an origin the test
    refuses gets no [Access-Control-Allow-Origin], and a header that is set
    holds the origin of the request, or [*] when the request has none. *)
Theorem health_check_branch_unreachable (N C F origin : option string) :
  (isAllowed N C F origin = false ->
   allow_origin_header N C F origin = None)
  /\ (forall h, allow_origin_header N C F origin = Some h ->
                isAllowed N C F origin = true
                /\ (origin = Some h \/ (Js.falsy origin = true /\ h = "*"))).
Proof.
  rewrite header_eq. split.
  - now intros ->.
  - intros h. destruct (isAllowed N C F origin); [| discriminate].
    intros [= <-]. split; [reflexivity |].
    destruct origin as [[|c o]|]; simpl; auto.
Qed.

Lemma health_check_branch_unreachable_witness :
  allow_origin_header (Some "production") None None
    (Some "https://madcat.example.org") = None.
Proof.
  apply (proj1 (health_check_branch_unreachable (Some "production") None None
                  (Some "https://madcat.example.org"))).
  vm_compute. reflexivity.
Defined.

(** X20.  Two ways past the list of allowed origins.  An origin in which
    the name of one of six deployment platforms occurs, anywhere in it, is
    given the header in every environment, production included and whatever
    the configured list; and outside production every request is given the
    header, for its own origin or [*]. *)
Theorem origins_past_the_list (N C F : option string) :
  (forall p o,
     In p [ ".railway.app"; ".netlify.app"; ".vercel.app";
            ".herokuapp.com"; ".render.com"; ".github.io" ] ->
     Shapes.occurs p o ->
     allow_origin_header N C F (Some o) = Some o)
  /\ (N <> Some "production" ->
      forall origin,
        allow_origin_header N C F origin = Some (Config.or_else origin "*")).
Proof.
  split.
  - intros p o Hp Ho. rewrite header_eq.
    assert (Hne : exists c o', o = String c o').
    { destruct Ho as (l & r & ->). simpl in Hp.
      destruct l; [| simpl; eauto].
      destruct Hp as [<-|[<-|[<-|[<-|[<-|[<-|[]]]]]]]; simpl; eauto. }
    assert (Hpl : platform_origin o = true) by (apply platform_occurs; eauto).
    destruct Hne as (c & o' & ->).
    unfold isAllowed. simpl Js.truthy. simpl ExpressValidator.toString.
    rewrite Hpl, !orb_true_r. reflexivity.
  - intros HN origin. rewrite header_eq. unfold isAllowed.
    rewrite (proj2 (production_ne N) HN), !orb_true_r. reflexivity.
Qed.

Lemma origins_past_the_list_witness :
  allow_origin_header (Some "production") None None
    (Some "https://x.netlify.app.example.org")
  = Some "https://x.netlify.app.example.org"
  /\ allow_origin_header None None None (Some "https://madcat.example.org")
     = Some "https://madcat.example.org".
Proof.
  split.
  - apply (proj1 (origins_past_the_list (Some "production") None None)
             ".netlify.app").
    + right. left. reflexivity.
    + exists "https://x", ".example.org". reflexivity.
  - apply (proj2 (origins_past_the_list None None None)).
    discriminate.
Defined.

(** X21.  In production, a non-empty origin is given the header exactly
    when it is one of the six fixed addresses, an entry of [CORS_ORIGINS]
    (blanks removed), the value of [FRONTEND_URL], or holds the name of a
    deployment platform; the header is then that origin, and is absent
    otherwise. *)
Theorem production_origins (C F : option string) (o : string) :
  o <> "" ->
  (allow_origin_header (Some "production") C F (Some o) = Some o <->
   In o [ "http://localhost:5173"; "http://localhost:3000";
          "http://localhost:5000"; "https://cat.blockmintlabs.com";
          "https://poetic-pothos-ea5bb5.netlify.app";
          "https://madcatsuite-production-7b53.up.railway.app" ]
   \/ (exists s, C = Some s /\ s <> "" /\ In o (origins_of s))
   \/ F = Some o
   \/ (exists p, In p [ ".railway.app"; ".netlify.app"; ".vercel.app";
                        ".herokuapp.com"; ".render.com"; ".github.io" ]
                 /\ Shapes.occurs p o))
  /\ (allow_origin_header (Some "production") C F (Some o) = Some o
      \/ allow_origin_header (Some "production") C F (Some o) = None).
Proof.
  intros Ho. destruct o as [|c o]; [contradiction |].
  rewrite header_eq.
  assert (E : isAllowed (Some "production") C F (Some (String c o)) = true <->
              In (String c o) (allowedOrigins C F)
              \/ platform_origin (String c o) = true).
  { unfold isAllowed. simpl Js.falsy. simpl Js.truthy.
    simpl ExpressValidator.toString.
    rewrite (proj2 (UsersFacts.strict_ne_false _ _) eq_refl).
    rewrite orb_false_l, orb_false_r, andb_true_l, orb_true_iff, listed_In.
    reflexivity. }
  rewrite allowed_In, platform_occurs in E.
  destruct (isAllowed _ C F _).
  - simpl Config.or_else. split; [| now left].
    split; [intros _ | reflexivity].
    destruct (proj1 E eq_refl) as [[H | [H | [H _]]] | H]; tauto.
  - split; [| now right]. split; [discriminate |].
    intros H. enough (false = true) by discriminate. apply E.
    destruct H as [H | [H | [H | H]]]; [tauto | tauto | | tauto].
    left. right. right. split; [exact H | discriminate].
Qed.

Lemma production_origins_witness :
  allow_origin_header (Some "production") (Some "https://a.example.org")
    (Some "https://madcat.example.org") (Some "https://madcat.example.org")
  = Some "https://madcat.example.org".
Proof.
  apply (proj1 (production_origins (Some "https://a.example.org")
                  (Some "https://madcat.example.org")
                  "https://madcat.example.org" ltac:(discriminate))).
  right. right. left. reflexivity.
Defined.

End CorsLaws.
